(** * Flink operator: the Converter and the Observer of the reconciliation triad

    A shallow embedding of [controllers/flinkcluster_converter.go] and
    [controllers/flinkcluster_observer.go], followed by the properties of the
    specification that concern them.

    - Go pointers are [option]s; dereferencing a nil pointer and [panic(...)]
      are the [Panic] outcomes of the [result] monad.
    - Go maps are [gmap]s (a nil map is the empty map); a [range] over a map
      takes the runtime's choice of a visiting order as an explicit argument,
      since Go leaves that order unspecified.
    - [int32] values are only copied and printed, never computed with: they
      are integers of [Z].
    - The Observer mutates the [_ObservedClusterState] it is given and talks
      to the API server, the logger and the Flink REST API: it lives in a
      state monad over the observed state and a trace of these interactions. *)

From stdpp Require Import gmap strings list fin_maps pretty.

(** ** Go runtime: panics *)

Inductive panic : Type :=
  | NilDereference
  | PanicMsg (msg : string).

Inductive result (A : Type) : Type :=
  | Ok (a : A)
  | Panic (p : panic).
Arguments Ok {A} a.
Arguments Panic {A} p.

#[global] Instance result_ret : MRet result := λ A a, Ok a.
#[global] Instance result_bind : MBind result := λ A B f r,
  match r with
  | Ok a => f a
  | Panic p => Panic p
  end.

(** [*p] for a pointer [p]. *)
Definition deref {A : Type} (p : option A) : result A :=
  match p with
  | Some a => Ok a
  | None => Panic NilDereference
  end.

Definition newline : string := String (Ascii.ascii_of_nat 10) EmptyString.

(** ** The parts of package [strings] the Converter uses (on bytes) *)

Module GoStrings.

(** [strings.Contains(s, substr)]: [substr] occurs somewhere in [s]. *)
Fixpoint Contains (s substr : string) : bool :=
  String.prefix substr s
  || match s with
     | EmptyString => false
     | String _ s' => Contains s' substr
     end.

(** The scan of [strings.Split(s, sep)] for a non-empty [sep]: [cur] is the
    piece being collected, [skip] the number of bytes of a separator that
    has been recognised and is still to be passed over. *)
Fixpoint splitFrom (sep : string) (skip : nat) (cur s : string) : list string :=
  match s with
  | EmptyString => [cur]
  | String c s' =>
      match skip with
      | S k => splitFrom sep k cur s'
      | O =>
          if String.prefix sep s
          then cur :: splitFrom sep (String.length sep - 1) EmptyString s'
          else splitFrom sep O (cur +:+ String c EmptyString) s'
      end
  end.

(** [strings.Split(s, sep)]. With an empty separator Go splits after each
    UTF-8 sequence, which on ASCII text is after each byte. *)
Definition Split (s sep : string) : list string :=
  match sep with
  | EmptyString => (λ c, String c EmptyString) <$> String.list_ascii_of_string s
  | _ => splitFrom sep O EmptyString s
  end.

End GoStrings.

(** ** Kubernetes API types, restricted to the fields the controllers touch *)

Module resource.
(** A parsed quantity, kept in its canonical textual form. *)
Definition Quantity : Type := string.
(** [resource.MustParse]; it panics on ill-formed text, and the Converter
    calls it on the two well-formed literals ["1m"] and ["1Mi"] only. *)
Definition MustParse (s : string) : Quantity := s.
End resource.

Module intstr.
Inductive IntOrString : Type :=
  | FromInt (i : Z)
  | FromString (s : string).
End intstr.

Module metav1.
Record TypeMeta : Type := {
  TypeMeta_Kind : string;
  TypeMeta_APIVersion : string }.

Record OwnerReference : Type := {
  OwnerReference_APIVersion : string;
  OwnerReference_Kind : string;
  OwnerReference_Name : string;
  OwnerReference_UID : string;
  OwnerReference_Controller : option bool;
  OwnerReference_BlockOwnerDeletion : option bool }.

Record ObjectMeta : Type := {
  ObjectMeta_Name : string;
  ObjectMeta_Namespace : string;
  ObjectMeta_UID : string;
  ObjectMeta_Labels : gmap string string;
  ObjectMeta_Annotations : gmap string string;
  ObjectMeta_OwnerReferences : list OwnerReference }.

Record LabelSelector : Type := {
  LabelSelector_MatchLabels : gmap string string }.
End metav1.

Module corev1.
Definition ServiceTypeClusterIP : string := "ClusterIP".
Definition ServiceTypeLoadBalancer : string := "LoadBalancer".

Record ContainerPort : Type := {
  ContainerPort_Name : string;
  ContainerPort_ContainerPort : Z }.

Record ServicePort : Type := {
  ServicePort_Name : string;
  ServicePort_Port : Z;
  ServicePort_TargetPort : intstr.IntOrString }.

Record ResourceFieldSelector : Type := {
  ResourceFieldSelector_ContainerName : string;
  ResourceFieldSelector_Resource : string;
  ResourceFieldSelector_Divisor : resource.Quantity }.

Record EnvVarSource : Type := {
  EnvVarSource_ResourceFieldRef : option ResourceFieldSelector }.

Record EnvVar : Type := {
  EnvVar_Name : string;
  EnvVar_Value : string;
  EnvVar_ValueFrom : option EnvVarSource }.

Record ResourceRequirements : Type := {
  ResourceRequirements_Limits : gmap string resource.Quantity;
  ResourceRequirements_Requests : gmap string resource.Quantity }.

Record VolumeMount : Type := {
  VolumeMount_Name : string;
  VolumeMount_MountPath : string }.

Record Volume : Type := { Volume_Name : string }.

Record LocalObjectReference : Type := { LocalObjectReference_Name : string }.

Record Container : Type := {
  Container_Name : string;
  Container_Image : string;
  Container_Args : list string;
  Container_Ports : list ContainerPort;
  Container_Env : list EnvVar;
  Container_Resources : ResourceRequirements;
  Container_VolumeMounts : list VolumeMount;
  Container_ImagePullPolicy : string }.

Record PodSpec : Type := {
  PodSpec_Volumes : list Volume;
  PodSpec_Containers : list Container;
  PodSpec_RestartPolicy : string;
  PodSpec_NodeSelector : gmap string string;
  PodSpec_ImagePullSecrets : list LocalObjectReference }.

Record PodTemplateSpec : Type := {
  PodTemplateSpec_ObjectMeta : metav1.ObjectMeta;
  PodTemplateSpec_Spec : PodSpec }.

Record ServiceSpec : Type := {
  ServiceSpec_Ports : list ServicePort;
  ServiceSpec_Selector : gmap string string;
  ServiceSpec_Type : string }.

Record Service : Type := {
  Service_ObjectMeta : metav1.ObjectMeta;
  Service_Spec : ServiceSpec }.

Record PodStatus : Type := { PodStatus_Phase : string }.

Record Pod : Type := {
  Pod_ObjectMeta : metav1.ObjectMeta;
  Pod_Status : PodStatus }.

Record PodList : Type := { PodList_Items : list Pod }.
End corev1.

Module appsv1.
Record DeploymentSpec : Type := {
  DeploymentSpec_Replicas : option Z;
  DeploymentSpec_Selector : option metav1.LabelSelector;
  DeploymentSpec_Template : corev1.PodTemplateSpec }.

Record Deployment : Type := {
  Deployment_ObjectMeta : metav1.ObjectMeta;
  Deployment_Spec : DeploymentSpec }.
End appsv1.

Module batchv1.
Record JobSpec : Type := { JobSpec_Template : corev1.PodTemplateSpec }.

Record Job : Type := {
  Job_ObjectMeta : metav1.ObjectMeta;
  Job_Spec : JobSpec }.
End batchv1.

Export metav1 corev1 appsv1.
Import batchv1.

(** ** The custom resource (package [api/v1alpha1]) *)

Module flinkoperatorv1alpha1.

(* The declarations of package [api/v1alpha1] are not among the sources at
   hand: its types and constants are taken from the specification's data
   model. *)

Module ClusterState.
(** Modelled from the spec: the lifecycle phase Creating. *)
Definition Creating : string := "Creating".
(** Modelled from the spec: the lifecycle phase Running. *)
Definition Running : string := "Running".
(** Modelled from the spec: the lifecycle phase Updating. *)
Definition Updating : string := "Updating".
(** Modelled from the spec: the lifecycle phase Stopping. *)
Definition Stopping : string := "Stopping".
(** Modelled from the spec: the lifecycle phase Stopped. *)
Definition Stopped : string := "Stopped".
(** Modelled from the spec: the lifecycle phase Failed. *)
Definition Failed : string := "Failed".
End ClusterState.

Module AccessScope.
(** Modelled from the spec: the access scope Cluster, cluster-internal only. *)
Definition Cluster : string := "Cluster".
(** Modelled from the spec: the access scope VPC, internally load-balanced. *)
Definition VPC : string := "VPC".
(** Modelled from the spec: the access scope External, externally load-balanced. *)
Definition External : string := "External".
End AccessScope.

(** Modelled from the spec: the image reference of the ClusterSpec, with its pull policy
    and pull secrets. *)
Record ImageSpec : Type := {
  ImageSpec_Name : string;
  ImageSpec_PullPolicy : string;
  ImageSpec_PullSecrets : list LocalObjectReference }.

(** Modelled from the spec: the port set {rpc, blob, query, ui} of the manager; each
    port is a pointer. *)
Record JobManagerPorts : Type := {
  JobManagerPorts_RPC : option Z;
  JobManagerPorts_Blob : option Z;
  JobManagerPorts_Query : option Z;
  JobManagerPorts_UI : option Z }.

(** Modelled from the spec: the manager process spec of the ClusterSpec. *)
Record JobManagerSpec : Type := {
  JobManagerSpec_Replicas : option Z;
  JobManagerSpec_AccessScope : string;
  JobManagerSpec_Ports : JobManagerPorts;
  JobManagerSpec_Resources : ResourceRequirements;
  JobManagerSpec_Volumes : list Volume;
  JobManagerSpec_Mounts : list VolumeMount;
  JobManagerSpec_NodeSelector : gmap string string }.

(** Modelled from the spec: the port set {data, rpc, query} of the worker; each port
    is a pointer. *)
Record TaskManagerPorts : Type := {
  TaskManagerPorts_Data : option Z;
  TaskManagerPorts_RPC : option Z;
  TaskManagerPorts_Query : option Z }.

(** Modelled from the spec: the worker process spec of the ClusterSpec. *)
Record TaskManagerSpec : Type := {
  TaskManagerSpec_Replicas : Z;
  TaskManagerSpec_Ports : TaskManagerPorts;
  TaskManagerSpec_Resources : ResourceRequirements;
  TaskManagerSpec_Sidecars : list Container;
  TaskManagerSpec_Volumes : list Volume;
  TaskManagerSpec_Mounts : list VolumeMount;
  TaskManagerSpec_NodeSelector : gmap string string }.

(** Modelled from the spec: the optional JobSpec of the ClusterSpec; the entry class, the
    savepoint path, the two flags, the parallelism and the restart policy are
    pointers. *)
Record JobSpec : Type := {
  JobSpec_JarFile : string;
  JobSpec_ClassName : option string;
  JobSpec_Args : list string;
  JobSpec_Savepoint : option string;
  JobSpec_AllowNonRestoredState : option bool;
  JobSpec_Parallelism : option Z;
  JobSpec_NoLoggingToStdout : option bool;
  JobSpec_Volumes : list Volume;
  JobSpec_Mounts : list VolumeMount;
  JobSpec_RestartPolicy : option string }.

(** Modelled from the spec: the ClusterSpec; the JobSpec is a pointer. *)
Record FlinkClusterSpec : Type := {
  FlinkClusterSpec_ImageSpec : ImageSpec;
  FlinkClusterSpec_JobManagerSpec : JobManagerSpec;
  FlinkClusterSpec_TaskManagerSpec : TaskManagerSpec;
  FlinkClusterSpec_JobSpec : option JobSpec;
  FlinkClusterSpec_EnvVars : list EnvVar;
  FlinkClusterSpec_FlinkProperties : gmap string string }.

(** Modelled from the spec: the job sub-status of the ClusterStatus, with the job
    identifier. *)
Record JobStatus : Type := {
  JobStatus_Name : string;
  JobStatus_ID : string;
  JobStatus_State : string }.

(** Modelled from the spec: the component sub-statuses of the ClusterStatus,
    as far as the controllers at hand read them; the job status is a pointer. *)
Record FlinkClusterComponentsStatus : Type := {
  FlinkClusterComponentsStatus_Job : option JobStatus }.

(** Modelled from the spec: the ClusterStatus, with the lifecycle phase. *)
Record FlinkClusterStatus : Type := {
  FlinkClusterStatus_State : string;
  FlinkClusterStatus_Components : FlinkClusterComponentsStatus }.

(** Modelled from the spec: the persisted custom resource, a spec and a status under
    the usual type and object metadata. *)
Record FlinkCluster : Type := {
  FlinkCluster_TypeMeta : TypeMeta;
  FlinkCluster_ObjectMeta : ObjectMeta;
  FlinkCluster_Spec : FlinkClusterSpec;
  FlinkCluster_Status : FlinkClusterStatus }.

End flinkoperatorv1alpha1.

Export flinkoperatorv1alpha1.

(** ** The Converter ([controllers/flinkcluster_converter.go]) *)

(** [_DesiredClusterState] holds the desired state of a cluster. *)
Record _DesiredClusterState : Type := {
  DesiredClusterState_JmDeployment : option Deployment;
  DesiredClusterState_JmService : option Service;
  DesiredClusterState_TmDeployment : option Deployment;
  DesiredClusterState_Job : option batchv1.Job }.

(** Converts the FlinkCluster as owner reference for its child resources. *)
Definition toOwnerReference (flinkCluster : FlinkCluster) : OwnerReference :=
  {| OwnerReference_APIVersion := TypeMeta_APIVersion (FlinkCluster_TypeMeta flinkCluster);
     OwnerReference_Kind := TypeMeta_Kind (FlinkCluster_TypeMeta flinkCluster);
     OwnerReference_Name := ObjectMeta_Name (FlinkCluster_ObjectMeta flinkCluster);
     OwnerReference_UID := ObjectMeta_UID (FlinkCluster_ObjectMeta flinkCluster);
     OwnerReference_Controller := Some true;
     OwnerReference_BlockOwnerDeletion := Some false |}.

Definition getJobManagerDeploymentName (clusterName : string) : string :=
  clusterName +:+ "-jobmanager".

Definition getJobManagerServiceName (clusterName : string) : string :=
  clusterName +:+ "-jobmanager".

Definition getTaskManagerDeploymentName (clusterName : string) : string :=
  clusterName +:+ "-taskmanager".

Definition getJobName (clusterName : string) : string :=
  clusterName +:+ "-job".

(** One execution of a [for key, value := range m] loop visits the entries of
    the map in an order of the runtime's choosing: a [mapRange] is that
    choice, the entries of each map in the order in which they are visited. *)
Definition mapRange : Type := gmap string string → list (string * string).

(** The choices Go allows: every entry of the map, once. *)
Definition validRange (range : mapRange) : Prop :=
  ∀ m, range m ≡ₚ map_to_list m.

(** [getFlinkProperties] ranges over the property map and writes one
    ["key: value\n"] line per entry to a string builder. *)
Definition getFlinkProperties (range : mapRange) (properties : gmap string string)
    : string :=
  foldl (λ builder kv, builder +:+ (kv.1 +:+ ": " +:+ kv.2 +:+ newline)) ""
        (range properties).

(** One computation of the desired state ranges over the property map twice,
    once for the JobManager and once for the TaskManager. *)
Record MapRanges : Type := {
  jmRange : mapRange;
  tmRange : mapRange }.

Definition validRanges (o : MapRanges) : Prop :=
  validRange (jmRange o) ∧ validRange (tmRange o).

(** The environment variable exposing a resource limit of the container. *)
Definition limitEnvVar (name containerName res divisor : string) : EnvVar :=
  {| EnvVar_Name := name;
     EnvVar_Value := "";
     EnvVar_ValueFrom := Some {|
       EnvVarSource_ResourceFieldRef := Some {|
         ResourceFieldSelector_ContainerName := containerName;
         ResourceFieldSelector_Resource := res;
         ResourceFieldSelector_Divisor := resource.MustParse divisor |} |} |}.

Definition plainEnvVar (name value : string) : EnvVar :=
  {| EnvVar_Name := name; EnvVar_Value := value; EnvVar_ValueFrom := None |}.

(** Gets the desired JobManager deployment spec from the FlinkCluster spec. *)
Definition getDesiredJobManagerDeployment
    (range : mapRange) (flinkCluster : FlinkCluster)
    : result (option Deployment) :=
  if decide (FlinkClusterStatus_State (FlinkCluster_Status flinkCluster) = ClusterState.Stopping
             ∨ FlinkClusterStatus_State (FlinkCluster_Status flinkCluster) = ClusterState.Stopped)
  then mret None
  else
    let clusterNamespace := ObjectMeta_Namespace (FlinkCluster_ObjectMeta flinkCluster) in
    let clusterName := ObjectMeta_Name (FlinkCluster_ObjectMeta flinkCluster) in
    let imageSpec := FlinkClusterSpec_ImageSpec (FlinkCluster_Spec flinkCluster) in
    let jobManagerSpec := FlinkClusterSpec_JobManagerSpec (FlinkCluster_Spec flinkCluster) in
    rpc ← deref (JobManagerPorts_RPC (JobManagerSpec_Ports jobManagerSpec));
    let rpcPort := {| ContainerPort_Name := "rpc"; ContainerPort_ContainerPort := rpc |} in
    blob ← deref (JobManagerPorts_Blob (JobManagerSpec_Ports jobManagerSpec));
    let blobPort := {| ContainerPort_Name := "blob"; ContainerPort_ContainerPort := blob |} in
    query ← deref (JobManagerPorts_Query (JobManagerSpec_Ports jobManagerSpec));
    let queryPort := {| ContainerPort_Name := "query"; ContainerPort_ContainerPort := query |} in
    ui ← deref (JobManagerPorts_UI (JobManagerSpec_Ports jobManagerSpec));
    let uiPort := {| ContainerPort_Name := "ui"; ContainerPort_ContainerPort := ui |} in
    let jobManagerDeploymentName := getJobManagerDeploymentName clusterName in
    let labels : gmap string string :=
      {[ "cluster" := clusterName; "app" := "flink"; "component" := "jobmanager" ]} in
    let envVars :=
      [ plainEnvVar "JOB_MANAGER_RPC_ADDRESS" jobManagerDeploymentName;
        limitEnvVar "JOB_MANAGER_CPU_LIMIT" "jobmanager" "limits.cpu" "1m";
        limitEnvVar "JOB_MANAGER_MEMORY_LIMIT" "jobmanager" "limits.memory" "1Mi";
        plainEnvVar "FLINK_PROPERTIES"
          (getFlinkProperties range
             (FlinkClusterSpec_FlinkProperties (FlinkCluster_Spec flinkCluster))) ] in
    let envVars := envVars ++ FlinkClusterSpec_EnvVars (FlinkCluster_Spec flinkCluster) in
    let jobManagerDeployment :=
      {| Deployment_ObjectMeta := {|
           ObjectMeta_Name := jobManagerDeploymentName;
           ObjectMeta_Namespace := clusterNamespace;
           ObjectMeta_UID := "";
           ObjectMeta_Labels := labels;
           ObjectMeta_Annotations := ∅;
           ObjectMeta_OwnerReferences := [toOwnerReference flinkCluster] |};
         Deployment_Spec := {|
           DeploymentSpec_Replicas := JobManagerSpec_Replicas jobManagerSpec;
           DeploymentSpec_Selector := Some {| LabelSelector_MatchLabels := labels |};
           DeploymentSpec_Template := {|
             PodTemplateSpec_ObjectMeta := {|
               ObjectMeta_Name := "";
               ObjectMeta_Namespace := "";
               ObjectMeta_UID := "";
               ObjectMeta_Labels := labels;
               ObjectMeta_Annotations := ∅;
               ObjectMeta_OwnerReferences := [] |};
             PodTemplateSpec_Spec := {|
               PodSpec_Volumes := JobManagerSpec_Volumes jobManagerSpec;
               PodSpec_Containers := [
                 {| Container_Name := "jobmanager";
                    Container_Image := ImageSpec_Name imageSpec;
                    Container_Args := ["jobmanager"];
                    Container_Ports := [rpcPort; blobPort; queryPort; uiPort];
                    Container_Env := envVars;
                    Container_Resources := JobManagerSpec_Resources jobManagerSpec;
                    Container_VolumeMounts := JobManagerSpec_Mounts jobManagerSpec;
                    Container_ImagePullPolicy := ImageSpec_PullPolicy imageSpec |} ];
               PodSpec_RestartPolicy := "";
               PodSpec_NodeSelector := JobManagerSpec_NodeSelector jobManagerSpec;
               PodSpec_ImagePullSecrets := ImageSpec_PullSecrets imageSpec |} |} |} |} in
    mret (Some jobManagerDeployment).

Definition setServiceType (service : Service) (type : string) : Service :=
  {| Service_ObjectMeta := Service_ObjectMeta service;
     Service_Spec := {|
       ServiceSpec_Ports := ServiceSpec_Ports (Service_Spec service);
       ServiceSpec_Selector := ServiceSpec_Selector (Service_Spec service);
       ServiceSpec_Type := type |} |}.

Definition setServiceAnnotations (service : Service) (annotations : gmap string string) : Service :=
  {| Service_ObjectMeta := {|
       ObjectMeta_Name := ObjectMeta_Name (Service_ObjectMeta service);
       ObjectMeta_Namespace := ObjectMeta_Namespace (Service_ObjectMeta service);
       ObjectMeta_UID := ObjectMeta_UID (Service_ObjectMeta service);
       ObjectMeta_Labels := ObjectMeta_Labels (Service_ObjectMeta service);
       ObjectMeta_Annotations := annotations;
       ObjectMeta_OwnerReferences := ObjectMeta_OwnerReferences (Service_ObjectMeta service) |};
     Service_Spec := Service_Spec service |}.

(** Gets the desired JobManager service spec from a cluster spec. *)
Definition getDesiredJobManagerService (flinkCluster : FlinkCluster)
    : result (option Service) :=
  if decide (FlinkClusterStatus_State (FlinkCluster_Status flinkCluster) = ClusterState.Stopping
             ∨ FlinkClusterStatus_State (FlinkCluster_Status flinkCluster) = ClusterState.Stopped)
  then mret None
  else
    let clusterNamespace := ObjectMeta_Namespace (FlinkCluster_ObjectMeta flinkCluster) in
    let clusterName := ObjectMeta_Name (FlinkCluster_ObjectMeta flinkCluster) in
    let jobManagerSpec := FlinkClusterSpec_JobManagerSpec (FlinkCluster_Spec flinkCluster) in
    rpc ← deref (JobManagerPorts_RPC (JobManagerSpec_Ports jobManagerSpec));
    let rpcPort := {| ServicePort_Name := "rpc"; ServicePort_Port := rpc;
                      ServicePort_TargetPort := intstr.FromString "rpc" |} in
    blob ← deref (JobManagerPorts_Blob (JobManagerSpec_Ports jobManagerSpec));
    let blobPort := {| ServicePort_Name := "blob"; ServicePort_Port := blob;
                       ServicePort_TargetPort := intstr.FromString "blob" |} in
    query ← deref (JobManagerPorts_Query (JobManagerSpec_Ports jobManagerSpec));
    let queryPort := {| ServicePort_Name := "query"; ServicePort_Port := query;
                        ServicePort_TargetPort := intstr.FromString "query" |} in
    ui ← deref (JobManagerPorts_UI (JobManagerSpec_Ports jobManagerSpec));
    let uiPort := {| ServicePort_Name := "ui"; ServicePort_Port := ui;
                     ServicePort_TargetPort := intstr.FromString "ui" |} in
    let jobManagerServiceName := getJobManagerServiceName clusterName in
    let labels : gmap string string :=
      {[ "cluster" := clusterName; "app" := "flink"; "component" := "jobmanager" ]} in
    let jobManagerService :=
      {| Service_ObjectMeta := {|
           ObjectMeta_Name := jobManagerServiceName;
           ObjectMeta_Namespace := clusterNamespace;
           ObjectMeta_UID := "";
           ObjectMeta_Labels := labels;
           ObjectMeta_Annotations := ∅;
           ObjectMeta_OwnerReferences := [toOwnerReference flinkCluster] |};
         Service_Spec := {|
           ServiceSpec_Ports := [rpcPort; blobPort; queryPort; uiPort];
           ServiceSpec_Selector := labels;
           ServiceSpec_Type := "" |} |} in
    if decide (JobManagerSpec_AccessScope jobManagerSpec = AccessScope.Cluster) then
      mret (Some (setServiceType jobManagerService ServiceTypeClusterIP))
    else if decide (JobManagerSpec_AccessScope jobManagerSpec = AccessScope.VPC) then
      let jobManagerService := setServiceType jobManagerService ServiceTypeLoadBalancer in
      mret (Some (setServiceAnnotations jobManagerService
                    {[ "cloud.google.com/load-balancer-type" := "Internal" ]}))
    else if decide (JobManagerSpec_AccessScope jobManagerSpec = AccessScope.External) then
      mret (Some (setServiceType jobManagerService ServiceTypeLoadBalancer))
    else
      Panic (PanicMsg ("Unknown service access cope: "
                       +:+ JobManagerSpec_AccessScope jobManagerSpec)).

(** Gets the desired TaskManager deployment spec from a cluster spec. *)
Definition getDesiredTaskManagerDeployment
    (range : mapRange) (flinkCluster : FlinkCluster)
    : result (option Deployment) :=
  if decide (FlinkClusterStatus_State (FlinkCluster_Status flinkCluster) = ClusterState.Stopping
             ∨ FlinkClusterStatus_State (FlinkCluster_Status flinkCluster) = ClusterState.Stopped)
  then mret None
  else
    let clusterNamespace := ObjectMeta_Namespace (FlinkCluster_ObjectMeta flinkCluster) in
    let clusterName := ObjectMeta_Name (FlinkCluster_ObjectMeta flinkCluster) in
    let imageSpec := FlinkClusterSpec_ImageSpec (FlinkCluster_Spec flinkCluster) in
    let taskManagerSpec := FlinkClusterSpec_TaskManagerSpec (FlinkCluster_Spec flinkCluster) in
    data ← deref (TaskManagerPorts_Data (TaskManagerSpec_Ports taskManagerSpec));
    let dataPort := {| ContainerPort_Name := "data"; ContainerPort_ContainerPort := data |} in
    rpc ← deref (TaskManagerPorts_RPC (TaskManagerSpec_Ports taskManagerSpec));
    let rpcPort := {| ContainerPort_Name := "rpc"; ContainerPort_ContainerPort := rpc |} in
    query ← deref (TaskManagerPorts_Query (TaskManagerSpec_Ports taskManagerSpec));
    let queryPort := {| ContainerPort_Name := "query"; ContainerPort_ContainerPort := query |} in
    let taskManagerDeploymentName := getTaskManagerDeploymentName clusterName in
    let jobManagerDeploymentName := getJobManagerDeploymentName clusterName in
    let labels : gmap string string :=
      {[ "cluster" := clusterName; "app" := "flink"; "component" := "taskmanager" ]} in
    let envVars :=
      [ plainEnvVar "JOB_MANAGER_RPC_ADDRESS" jobManagerDeploymentName;
        limitEnvVar "TASK_MANAGER_CPU_LIMIT" "taskmanager" "limits.cpu" "1m";
        limitEnvVar "TASK_MANAGER_MEMORY_LIMIT" "taskmanager" "limits.memory" "1Mi";
        plainEnvVar "FLINK_PROPERTIES"
          (getFlinkProperties range
             (FlinkClusterSpec_FlinkProperties (FlinkCluster_Spec flinkCluster))) ] in
    let envVars := envVars ++ FlinkClusterSpec_EnvVars (FlinkCluster_Spec flinkCluster) in
    let containers :=
      [ {| Container_Name := "taskmanager";
           Container_Image := ImageSpec_Name imageSpec;
           Container_Args := ["taskmanager"];
           Container_Ports := [dataPort; rpcPort; queryPort];
           Container_Env := envVars;
           Container_Resources := TaskManagerSpec_Resources taskManagerSpec;
           Container_VolumeMounts := TaskManagerSpec_Mounts taskManagerSpec;
           Container_ImagePullPolicy := ImageSpec_PullPolicy imageSpec |} ] in
    let containers := containers ++ TaskManagerSpec_Sidecars taskManagerSpec in
    let taskManagerDeployment :=
      {| Deployment_ObjectMeta := {|
           ObjectMeta_Name := taskManagerDeploymentName;
           ObjectMeta_Namespace := clusterNamespace;
           ObjectMeta_UID := "";
           ObjectMeta_Labels := labels;
           ObjectMeta_Annotations := ∅;
           ObjectMeta_OwnerReferences := [toOwnerReference flinkCluster] |};
         Deployment_Spec := {|
           DeploymentSpec_Replicas := Some (TaskManagerSpec_Replicas taskManagerSpec);
           DeploymentSpec_Selector := Some {| LabelSelector_MatchLabels := labels |};
           DeploymentSpec_Template := {|
             PodTemplateSpec_ObjectMeta := {|
               ObjectMeta_Name := "";
               ObjectMeta_Namespace := "";
               ObjectMeta_UID := "";
               ObjectMeta_Labels := labels;
               ObjectMeta_Annotations := ∅;
               ObjectMeta_OwnerReferences := [] |};
             PodTemplateSpec_Spec := {|
               PodSpec_Volumes := TaskManagerSpec_Volumes taskManagerSpec;
               PodSpec_Containers := containers;
               PodSpec_RestartPolicy := "";
               PodSpec_NodeSelector := TaskManagerSpec_NodeSelector taskManagerSpec;
               PodSpec_ImagePullSecrets := ImageSpec_PullSecrets imageSpec |} |} |} |} in
    mret (Some taskManagerDeployment).

(** [xs[i]]: indexing a slice out of its range panics. *)
Definition index {A : Type} (xs : list A) (i : nat) : result A :=
  match xs !! i with
  | Some x => Ok x
  | None => Panic (PanicMsg "index out of range")
  end.

(** Gets the desired job spec from a cluster spec. *)
Definition getDesiredJob (flinkCluster : FlinkCluster) : result (option batchv1.Job) :=
  match FlinkClusterSpec_JobSpec (FlinkCluster_Spec flinkCluster) with
  | None => mret None
  | Some jobSpec =>
    let imageSpec := FlinkClusterSpec_ImageSpec (FlinkCluster_Spec flinkCluster) in
    let jobManagerSpec := FlinkClusterSpec_JobManagerSpec (FlinkCluster_Spec flinkCluster) in
    let clusterNamespace := ObjectMeta_Namespace (FlinkCluster_ObjectMeta flinkCluster) in
    let clusterName := ObjectMeta_Name (FlinkCluster_ObjectMeta flinkCluster) in
    let jobName := getJobName clusterName in
    let jobManagerServiceName := clusterName +:+ "-jobmanager" in
    ui ← deref (JobManagerPorts_UI (JobManagerSpec_Ports jobManagerSpec));
    let jobManagerAddress := jobManagerServiceName +:+ ":" +:+ pretty ui in
    let labels : gmap string string :=
      {[ "cluster" := clusterName; "app" := "flink" ]} in
    let jobArgs := ["./bin/flink"; "run"] in
    let jobArgs := jobArgs ++ ["--jobmanager"; jobManagerAddress] in
    let jobArgs :=
      match JobSpec_ClassName jobSpec with
      | Some className => jobArgs ++ ["--class"; className]
      | None => jobArgs
      end in
    let jobArgs :=
      match JobSpec_Savepoint jobSpec with
      | Some savepoint => jobArgs ++ ["--fromSavepoint"; savepoint]
      | None => jobArgs
      end in
    let jobArgs :=
      match JobSpec_AllowNonRestoredState jobSpec with
      | Some true => jobArgs ++ ["--allowNonRestoredState"]
      | _ => jobArgs
      end in
    let jobArgs :=
      match JobSpec_Parallelism jobSpec with
      | Some parallelism => jobArgs ++ ["--parallelism"; pretty parallelism]
      | None => jobArgs
      end in
    let jobArgs :=
      match JobSpec_NoLoggingToStdout jobSpec with
      | Some true => jobArgs ++ ["--sysoutLogging"]
      | _ => jobArgs
      end in
    let envVars : list EnvVar := [] in
    let envVars := envVars ++ FlinkClusterSpec_EnvVars (FlinkCluster_Spec flinkCluster) in
    '(jarPath, envVars) ←
      (if GoStrings.Contains (JobSpec_JarFile jobSpec) "://" then
         let parts := GoStrings.Split (JobSpec_JarFile jobSpec) "/" in
         last ← index parts (length parts - 1);
         mret ("/opt/flink/job/" +:+ last,
               envVars ++ [plainEnvVar "FLINK_JOB_JAR_URI" (JobSpec_JarFile jobSpec)])
       else mret (JobSpec_JarFile jobSpec, envVars));
    let jobArgs := jobArgs ++ [jarPath] in
    let jobArgs := jobArgs ++ JobSpec_Args jobSpec in
    restartPolicy ← deref (JobSpec_RestartPolicy jobSpec);
    let job :=
      {| Job_ObjectMeta := {|
           ObjectMeta_Name := jobName;
           ObjectMeta_Namespace := clusterNamespace;
           ObjectMeta_UID := "";
           ObjectMeta_Labels := labels;
           ObjectMeta_Annotations := ∅;
           ObjectMeta_OwnerReferences := [toOwnerReference flinkCluster] |};
         Job_Spec := {|
           JobSpec_Template := {|
             PodTemplateSpec_ObjectMeta := {|
               ObjectMeta_Name := "";
               ObjectMeta_Namespace := "";
               ObjectMeta_UID := "";
               ObjectMeta_Labels := labels;
               ObjectMeta_Annotations := ∅;
               ObjectMeta_OwnerReferences := [] |};
             PodTemplateSpec_Spec := {|
               PodSpec_Volumes := JobSpec_Volumes jobSpec;
               PodSpec_Containers := [
                 {| Container_Name := "main";
                    Container_Image := ImageSpec_Name imageSpec;
                    Container_Args := jobArgs;
                    Container_Ports := [];
                    Container_Env := envVars;
                    Container_Resources := {|
                      ResourceRequirements_Limits := ∅;
                      ResourceRequirements_Requests := ∅ |};
                    Container_VolumeMounts := JobSpec_Mounts jobSpec;
                    Container_ImagePullPolicy := ImageSpec_PullPolicy imageSpec |} ];
               PodSpec_RestartPolicy := restartPolicy;
               PodSpec_NodeSelector := ∅;
               PodSpec_ImagePullSecrets := ImageSpec_PullSecrets imageSpec |} |} |} |} in
    mret (Some job)
  end.

(** Gets the desired state of a cluster. A nil [cluster] is a cluster that
    has been deleted: all resources should be cleaned up. *)
Definition getDesiredClusterState (o : MapRanges) (cluster : option FlinkCluster)
    : result _DesiredClusterState :=
  match cluster with
  | None =>
      mret {| DesiredClusterState_JmDeployment := None;
              DesiredClusterState_JmService := None;
              DesiredClusterState_TmDeployment := None;
              DesiredClusterState_Job := None |}
  | Some cluster =>
      jmDeployment ← getDesiredJobManagerDeployment (jmRange o) cluster;
      jmService ← getDesiredJobManagerService cluster;
      tmDeployment ← getDesiredTaskManagerDeployment (tmRange o) cluster;
      job ← getDesiredJob cluster;
      mret {| DesiredClusterState_JmDeployment := jmDeployment;
              DesiredClusterState_JmService := jmService;
              DesiredClusterState_TmDeployment := tmDeployment;
              DesiredClusterState_Job := job |}
  end.

(** ** The Observer ([controllers/flinkcluster_observer.go]) *)

(** Go [error] values, as far as the Observer tells them apart: the API
    server's not-found status, any other failure, and the error the Observer
    itself makes with [fmt.Errorf] when it finds several job pods (its text
    ends in the address of the pod slice). *)
Inductive error : Type :=
  | StatusNotFound (msg : string)
  | OtherError (msg : string)
  | ErrorfJobPods (items : list Pod).

Module types.
Record NamespacedName : Type := {
  NamespacedName_Namespace : string;
  NamespacedName_Name : string }.
End types.
Export types.

Module client.
(** [client.IgnoreNotFound]: nil for a not-found error, the error otherwise. *)
Definition IgnoreNotFound (err : option error) : option error :=
  match err with
  | Some (StatusNotFound _) => None
  | _ => err
  end.

(** The Remote State Gateway. [Get] and [List] fill the object they are
    handed and return nil, or return an error: here they return one or the
    other. *)
Record Client : Type := {
  Get_FlinkCluster : NamespacedName → FlinkCluster + error;
  Get_Deployment : NamespacedName → Deployment + error;
  Get_Service : NamespacedName → Service + error;
  Get_Job : NamespacedName → batchv1.Job + error;
  List_Pod : string → gmap string string → PodList + error }.
End client.
Export client.

Module ctrl.
Record Request : Type := { Request_NamespacedName : NamespacedName }.
End ctrl.
Export ctrl.

(** Flink job status. *)
Record _JobStatus : Type := {
  _JobStatus_ID : string;
  _JobStatus_Status : string }.

(** Flink job status list. *)
Record _JobStatusList : Type := { _JobStatusList_Jobs : list _JobStatus }.

(** What one HTTP GET against the JobManager comes to: [http.NewRequest]
    rejects the URL and hands back a nil request, [client.Do] fails, reading
    the body fails, or there is a body, given here as the job status list
    [json.Unmarshal] leaves behind (its error is not looked at; a body that
    does not decode leaves the empty list). *)
Inductive httpOutcome : Type :=
  | NewRequestError (err : string)
  | DoError (err : string)
  | ReadError (err : string)
  | Body (jobStatusList : _JobStatusList).

(** [_ClusterStateObserver] gets the observed state of the cluster. The
    context and the logger are not data; [http] is what [net/http] makes of
    a GET of a URL: the parsing of the URL by [http.NewRequest] and the
    network behind it. *)
Record _ClusterStateObserver : Type := {
  k8sClient : Client;
  request : Request;
  http : string → httpOutcome }.

(** [_ObservedClusterState] holds observed state of a cluster. *)
Record _ObservedClusterState : Type := {
  cluster : option FlinkCluster;
  jmDeployment : option Deployment;
  jmService : option Service;
  tmDeployment : option Deployment;
  job : option batchv1.Job;
  jobPod : option Pod;
  flinkJobID : option string }.

(** The zero value [_ObservedClusterState{}]. *)
Definition emptyObservedState : _ObservedClusterState :=
  {| cluster := None; jmDeployment := None; jmService := None;
     tmDeployment := None; job := None; jobPod := None; flinkJobID := None |}.

(** *** Interactions and the Observer monad *)

Inductive resourceKind : Type := KFlinkCluster | KDeployment | KService | KJob.

(** The calls to the gateway, the call of [getFlinkJobID] for a GET of a
    URL, and the entries of the log. *)
Inductive event : Type :=
  | GetCall (kind : resourceKind) (key : NamespacedName)
  | ListPodsCall (namespace : string) (matchingLabels : gmap string string)
  | HttpGet (url : string)
  | LogInfo (msg : string)
  | LogError (msg : string).

Record obsState : Type := {
  observed : _ObservedClusterState;
  trace : list event }.

(** A statement either falls through to the next one with a value, returns
    from the enclosing function, or panics. *)
Inductive outcome (R A : Type) : Type :=
  | Continue (a : A) (s : obsState)
  | Return (r : R) (s : obsState)
  | Panicked (p : panic) (s : obsState).
Arguments Continue {R A} a s.
Arguments Return {R A} r s.
Arguments Panicked {R A} p s.

Definition M (R A : Type) : Type := obsState → outcome R A.

#[global] Instance M_ret {R} : MRet (M R) := λ A a s, Continue a s.
#[global] Instance M_bind {R} : MBind (M R) := λ A B f m s,
  match m s with
  | Continue a s' => f a s'
  | Return r s' => Return r s'
  | Panicked p s' => Panicked p s'
  end.

(** [return r]. *)
Definition return_ {R A : Type} (r : R) : M R A := λ s, Return r s.

(** A call: the callee's [return] is the value of the call. *)
Definition call {R R' : Type} (body : M R R) : M R' R := λ s,
  match body s with
  | Continue r s' => Continue r s'
  | Return r s' => Continue r s'
  | Panicked p s' => Panicked p s'
  end.

Definition emit {R : Type} (e : event) : M R () := λ s,
  Continue () {| observed := observed s; trace := trace s ++ [e] |}.

Definition getObserved {R : Type} : M R _ObservedClusterState := λ s,
  Continue (observed s) s.

Definition modifyObserved {R : Type}
    (f : _ObservedClusterState → _ObservedClusterState) : M R () := λ s,
  Continue () {| observed := f (observed s); trace := trace s |}.

Definition derefM {R A : Type} (p : option A) : M R A := λ s,
  match p with
  | Some a => Continue a s
  | None => Panicked NilDereference s
  end.

Definition when {R : Type} (b : bool) (m : M R ()) : M R () :=
  if b then m else mret ().

(** Assignments to the fields of [*observedState]. *)
Definition set_cluster (c : FlinkCluster) (st : _ObservedClusterState) :=
  {| cluster := Some c; jmDeployment := jmDeployment st; jmService := jmService st;
     tmDeployment := tmDeployment st; job := job st; jobPod := jobPod st;
     flinkJobID := flinkJobID st |}.
Definition set_jmDeployment (d : Deployment) (st : _ObservedClusterState) :=
  {| cluster := cluster st; jmDeployment := Some d; jmService := jmService st;
     tmDeployment := tmDeployment st; job := job st; jobPod := jobPod st;
     flinkJobID := flinkJobID st |}.
Definition set_jmService (v : Service) (st : _ObservedClusterState) :=
  {| cluster := cluster st; jmDeployment := jmDeployment st; jmService := Some v;
     tmDeployment := tmDeployment st; job := job st; jobPod := jobPod st;
     flinkJobID := flinkJobID st |}.
Definition set_tmDeployment (d : Deployment) (st : _ObservedClusterState) :=
  {| cluster := cluster st; jmDeployment := jmDeployment st; jmService := jmService st;
     tmDeployment := Some d; job := job st; jobPod := jobPod st;
     flinkJobID := flinkJobID st |}.
Definition set_job (j : batchv1.Job) (st : _ObservedClusterState) :=
  {| cluster := cluster st; jmDeployment := jmDeployment st; jmService := jmService st;
     tmDeployment := tmDeployment st; job := Some j; jobPod := jobPod st;
     flinkJobID := flinkJobID st |}.
Definition set_jobPod (p : Pod) (st : _ObservedClusterState) :=
  {| cluster := cluster st; jmDeployment := jmDeployment st; jmService := jmService st;
     tmDeployment := tmDeployment st; job := job st; jobPod := Some p;
     flinkJobID := flinkJobID st |}.
Definition set_flinkJobID (id : string) (st : _ObservedClusterState) :=
  {| cluster := cluster st; jmDeployment := jmDeployment st; jmService := jmService st;
     tmDeployment := tmDeployment st; job := job st; jobPod := jobPod st;
     flinkJobID := Some id |}.

(** [xs[i]] inside the Observer. *)
Definition indexM {R A : Type} (xs : list A) (i : nat) : M R A := λ s,
  match xs !! i with
  | Some x => Continue x s
  | None => Panicked (PanicMsg "index out of range") s
  end.

(** *** The lookups *)

Definition observeCluster {R : Type} (observer : _ClusterStateObserver)
    : M R (FlinkCluster + error) :=
  emit (GetCall KFlinkCluster (Request_NamespacedName (request observer)));;
  mret (Get_FlinkCluster (k8sClient observer) (Request_NamespacedName (request observer))).

Definition observeDeployment {R : Type} (observer : _ClusterStateObserver)
    (namespace name component : string) : M R (Deployment + error) :=
  let key := {| NamespacedName_Namespace := namespace; NamespacedName_Name := name |} in
  emit (GetCall KDeployment key);;
  let err := Get_Deployment (k8sClient observer) key in
  match err with
  | inr e =>
      if client.IgnoreNotFound (Some e) is Some _
      then emit (LogError "Failed to get deployment")
      else emit (LogInfo "Deployment not found")
  | inl _ => mret ()
  end;;
  mret err.

Definition observeJobManagerDeployment {R : Type} (observer : _ClusterStateObserver)
    : M R (Deployment + error) :=
  let clusterNamespace := NamespacedName_Namespace (Request_NamespacedName (request observer)) in
  let clusterName := NamespacedName_Name (Request_NamespacedName (request observer)) in
  let jmDeploymentName := getJobManagerDeploymentName clusterName in
  observeDeployment observer clusterNamespace jmDeploymentName "JobManager".

Definition observeTaskManagerDeployment {R : Type} (observer : _ClusterStateObserver)
    : M R (Deployment + error) :=
  let clusterNamespace := NamespacedName_Namespace (Request_NamespacedName (request observer)) in
  let clusterName := NamespacedName_Name (Request_NamespacedName (request observer)) in
  let tmDeploymentName := getTaskManagerDeploymentName clusterName in
  observeDeployment observer clusterNamespace tmDeploymentName "TaskManager".

Definition observeJobManagerService {R : Type} (observer : _ClusterStateObserver)
    : M R (Service + error) :=
  let clusterNamespace := NamespacedName_Namespace (Request_NamespacedName (request observer)) in
  let clusterName := NamespacedName_Name (Request_NamespacedName (request observer)) in
  let key := {| NamespacedName_Namespace := clusterNamespace;
                NamespacedName_Name := getJobManagerServiceName clusterName |} in
  emit (GetCall KService key);;
  mret (Get_Service (k8sClient observer) key).

Definition observeJobResource {R : Type} (observer : _ClusterStateObserver)
    : M R (batchv1.Job + error) :=
  let clusterNamespace := NamespacedName_Namespace (Request_NamespacedName (request observer)) in
  let clusterName := NamespacedName_Name (Request_NamespacedName (request observer)) in
  let key := {| NamespacedName_Namespace := clusterNamespace;
                NamespacedName_Name := getJobName clusterName |} in
  emit (GetCall KJob key);;
  mret (Get_Job (k8sClient observer) key).

Definition jobPodLabels (observer : _ClusterStateObserver) : gmap string string :=
  let clusterName := NamespacedName_Name (Request_NamespacedName (request observer)) in
  let jobName := getJobName (NamespacedName_Name (Request_NamespacedName (request observer))) in
  {[ "app" := "flink"; "cluster" := clusterName; "job-name" := jobName ]}.

Definition observeJobPods {R : Type} (observer : _ClusterStateObserver)
    : M R (PodList + error) :=
  let inNamespace := NamespacedName_Namespace (Request_NamespacedName (request observer)) in
  let matchingLabels := jobPodLabels observer in
  emit (ListPodsCall inNamespace matchingLabels);;
  mret (List_Pod (k8sClient observer) inNamespace matchingLabels).

(** Gets Flink job ID through Flink REST API. The error of [http.NewRequest]
    is looked at only after the headers of the request are set: for a URL
    that it rejects the request is nil, and setting its header panics. *)
Definition getFlinkJobID (observer : _ClusterStateObserver) (url : string)
    : M (option string) (option string) :=
  emit (HttpGet url);;
  match http observer url with
  | NewRequestError _ =>
      (* [req.Header.Set] on the nil request. *)
      derefM None
  | Body jobStatusList =>
      emit (LogInfo "Flink job status list");;
      match _JobStatusList_Jobs jobStatusList with
      | first :: _ => return_ (Some (_JobStatus_ID first))
      | [] => return_ None
      end
  | DoError _ | ReadError _ =>
      emit (LogError "Failed to get Flink job ID.");;
      return_ None
  end.

Definition observeJob (observer : _ClusterStateObserver)
    : M (option error) (option error) :=
  (* Either the cluster has been deleted or it is a session cluster. *)
  observedState ← getObserved;
  when (match cluster observedState with
        | None => true
        | Some c => if FlinkClusterSpec_JobSpec (FlinkCluster_Spec c) is None then true else false
        end)
       (return_ None);;
  (* Job resource. *)
  err ← observeJobResource observer;
  observedJob ←
    match err with
    | inr e =>
        when (if client.IgnoreNotFound (Some e) is Some _ then true else false)
             (emit (LogError "Failed to get job");; return_ (Some e));;
        emit (LogInfo "Observed job");;
        mret None
    | inl observedJob =>
        emit (LogInfo "Observed job");;
        modifyObserved (set_job observedJob);;
        mret (Some observedJob)
    end;
  (* Job pod. *)
  err ← observeJobPods observer;
  match err with
  | inr e =>
      when (if client.IgnoreNotFound (Some e) is Some _ then true else false)
           (emit (LogError "Failed to get job pods");; return_ (Some e));;
      emit (LogInfo "Observed job pods")
  | inl observedJobPods =>
      emit (LogInfo "Observed job pods");;
      if bool_decide (length (PodList_Items observedJobPods) = 1) then
        pod ← indexM (PodList_Items observedJobPods) 0;
        modifyObserved (set_jobPod pod)
      else if bool_decide (1 < length (PodList_Items observedJobPods)) then
        (* Should never be true unless the user manually created a pod
           which matches the labels. *)
        return_ (Some (ErrorfJobPods (PodList_Items observedJobPods)))
      else mret ()
  end;;
  (* Flink job ID. *)
  observedState ← getObserved;
  observedCluster ← derefM (cluster observedState);
  let observedJobStatus :=
    FlinkClusterComponentsStatus_Job
      (FlinkClusterStatus_Components (FlinkCluster_Status observedCluster)) in
  match observedJobStatus with
  | Some jobStatus =>
      if bool_decide (0 < String.length (JobStatus_ID jobStatus)) then
        emit (LogInfo "Flink job ID is already available.");;
        modifyObserved (set_flinkJobID (JobStatus_ID jobStatus));;
        mret true
      else mret false
  | None => mret false
  end ≫= λ idAvailable : bool,
  (if idAvailable then mret ()
   else
     let isJobCreated :=
       (if observedJob is Some _ then true else false)
       && match jobPod observedState with
          | Some pod =>
              bool_decide (PodStatus_Phase (Pod_Status pod) ≠ "Pending")
              && bool_decide (PodStatus_Phase (Pod_Status pod) ≠ "Unknown")
          | None => false
          end in
     match jmService observedState with
     | Some service =>
         if isJobCreated then
           ui ← derefM (JobManagerPorts_UI (JobManagerSpec_Ports
                  (FlinkClusterSpec_JobManagerSpec (FlinkCluster_Spec observedCluster))));
           let url := "http://" +:+ ObjectMeta_Name (Service_ObjectMeta service)
                      +:+ "." +:+ ObjectMeta_Namespace (Service_ObjectMeta service)
                      +:+ ".svc.cluster.local:" +:+ pretty ui +:+ "/jobs" in
           emit (LogInfo "Polling job status from Flink API...");;
           flinkJobID ← call (getFlinkJobID observer url);
           if flinkJobID is Some id then modifyObserved (set_flinkJobID id) else mret ()
         else emit (LogInfo "Skip getting Flink job ID")
     | None => emit (LogInfo "Skip getting Flink job ID")
     end);;
  return_ None.

(** Observes the state of the cluster and its components.
    NOT_FOUND error is ignored because it is normal, other errors are returned. *)
Definition observe (observer : _ClusterStateObserver)
    : M (option error) (option error) :=
  (* Cluster state. *)
  err ← observeCluster observer;
  match err with
  | inr e =>
      when (if client.IgnoreNotFound (Some e) is Some _ then true else false)
           (emit (LogError "Failed to get the cluster resource");; return_ (Some e));;
      emit (LogInfo "Observed cluster")
  | inl observedCluster =>
      emit (LogInfo "Observed cluster");;
      modifyObserved (set_cluster observedCluster)
  end;;
  (* JobManager deployment. *)
  err ← observeJobManagerDeployment observer;
  match err with
  | inr e =>
      when (if client.IgnoreNotFound (Some e) is Some _ then true else false)
           (emit (LogError "Failed to get JobManager deployment");; return_ (Some e));;
      emit (LogInfo "Observed JobManager deployment")
  | inl observedJmDeployment =>
      emit (LogInfo "Observed JobManager deployment");;
      modifyObserved (set_jmDeployment observedJmDeployment)
  end;;
  (* JobManager service. *)
  err ← observeJobManagerService observer;
  match err with
  | inr e =>
      when (if client.IgnoreNotFound (Some e) is Some _ then true else false)
           (emit (LogError "Failed to get JobManager service");; return_ (Some e));;
      emit (LogInfo "Observed JobManager service")
  | inl observedJmService =>
      emit (LogInfo "Observed JobManager service");;
      modifyObserved (set_jmService observedJmService)
  end;;
  (* TaskManager deployment. *)
  err ← observeTaskManagerDeployment observer;
  match err with
  | inr e =>
      when (if client.IgnoreNotFound (Some e) is Some _ then true else false)
           (emit (LogError "Failed to get TaskManager deployment");; return_ (Some e));;
      emit (LogInfo "Observed TaskManager deployment")
  | inl observedTmDeployment =>
      emit (LogInfo "Observed TaskManager deployment");;
      modifyObserved (set_tmDeployment observedTmDeployment)
  end;;
  (* (Optional) job. *)
  err ← call (observeJob observer);
  return_ err.

(** One observation pass: [observe] run on the observed state it is handed. *)
Inductive execution : Type :=
  | Returns (err : option error) (observedState : _ObservedClusterState) (t : list event)
  | Panics (p : panic) (observedState : _ObservedClusterState) (t : list event).

Definition runObserve (observer : _ClusterStateObserver)
    (observedState : _ObservedClusterState) : execution :=
  match observe observer {| observed := observedState; trace := [] |} with
  | Continue err s | Return err s => Returns err (observed s) (trace s)
  | Panicked p s => Panics p (observed s) (trace s)
  end.

(** * Vocabulary of the statements *)

(** The persisted lifecycle phase is Stopping or Stopped. *)
Definition stoppingOrStopped (c : FlinkCluster) : Prop :=
  FlinkClusterStatus_State (FlinkCluster_Status c) = ClusterState.Stopping
  ∨ FlinkClusterStatus_State (FlinkCluster_Status c) = ClusterState.Stopped.

(** The cluster resource is absent, or its phase is Stopping or Stopped. *)
Definition absentOrStopped (cluster : option FlinkCluster) : Prop :=
  match cluster with
  | None => True
  | Some c => stoppingOrStopped c
  end.

Definition jobSpecOf (cluster : option FlinkCluster) : option JobSpec :=
  c ← cluster; FlinkClusterSpec_JobSpec (FlinkCluster_Spec c).

Definition jmPorts (c : FlinkCluster) : JobManagerPorts :=
  JobManagerSpec_Ports (FlinkClusterSpec_JobManagerSpec (FlinkCluster_Spec c)).

Definition tmPorts (c : FlinkCluster) : TaskManagerPorts :=
  TaskManagerSpec_Ports (FlinkClusterSpec_TaskManagerSpec (FlinkCluster_Spec c)).

Definition accessScope (c : FlinkCluster) : string :=
  JobManagerSpec_AccessScope (FlinkClusterSpec_JobManagerSpec (FlinkCluster_Spec c)).

Definition isSet {A : Type} (p : option A) : bool := if p is Some _ then true else false.

(** The four ports of the manager are set. *)
Definition jmPortsSet (c : FlinkCluster) : bool :=
  isSet (JobManagerPorts_RPC (jmPorts c)) && isSet (JobManagerPorts_Blob (jmPorts c))
  && isSet (JobManagerPorts_Query (jmPorts c)) && isSet (JobManagerPorts_UI (jmPorts c)).

(** The three ports of the worker are set. *)
Definition tmPortsSet (c : FlinkCluster) : bool :=
  isSet (TaskManagerPorts_Data (tmPorts c)) && isSet (TaskManagerPorts_RPC (tmPorts c))
  && isSet (TaskManagerPorts_Query (tmPorts c)).

(** The restart policy of the job is set, when there is a job. *)
Definition restartPolicySet (c : FlinkCluster) : bool :=
  match FlinkClusterSpec_JobSpec (FlinkCluster_Spec c) with
  | Some jobSpec => isSet (JobSpec_RestartPolicy jobSpec)
  | None => true
  end.

Definition pointersSet (c : FlinkCluster) : bool :=
  jmPortsSet c && tmPortsSet c && restartPolicySet c.

(** The access scope is one of the three the switch knows. *)
Definition knownScope (c : FlinkCluster) : Prop :=
  accessScope c = AccessScope.Cluster ∨ accessScope c = AccessScope.VPC
  ∨ accessScope c = AccessScope.External.

Definition allNull : _DesiredClusterState :=
  {| DesiredClusterState_JmDeployment := None;
     DesiredClusterState_JmService := None;
     DesiredClusterState_TmDeployment := None;
     DesiredClusterState_Job := None |}.

Definition jobContainers (j : batchv1.Job) : list Container :=
  PodSpec_Containers (PodTemplateSpec_Spec (batchv1.JobSpec_Template (batchv1.Job_Spec j))).

Definition deploymentContainers (d : Deployment) : list Container :=
  PodSpec_Containers (PodTemplateSpec_Spec (DeploymentSpec_Template (Deployment_Spec d))).

(** The lines of the configuration blob, one per visited entry. *)
Definition flinkPropertyLines (order : list (string * string)) : list string :=
  (λ kv, kv.1 +:+ ": " +:+ kv.2 +:+ newline) <$> order.

(** The options of the submission command line as the specification lists
    them: base command, manager address, then each option that is set. *)
Definition submissionOptions (address : string) (js : JobSpec) : list string :=
  ["./bin/flink"; "run"; "--jobmanager"; address]
  ++ (if JobSpec_ClassName js is Some className then ["--class"; className] else [])
  ++ (if JobSpec_Savepoint js is Some savepoint then ["--fromSavepoint"; savepoint] else [])
  ++ (if JobSpec_AllowNonRestoredState js is Some true then ["--allowNonRestoredState"] else [])
  ++ (if JobSpec_Parallelism js is Some parallelism
      then ["--parallelism"; pretty parallelism] else [])
  ++ (if JobSpec_NoLoggingToStdout js is Some true then ["--sysoutLogging"] else []).

(** The FLINK_PROPERTIES blob handed to the manager, when the computation of
    the desired state returns a manager deployment. *)
Definition managerFlinkProperties (r : result _DesiredClusterState) : option string :=
  match r with
  | Ok ds =>
      jm ← DesiredClusterState_JmDeployment ds;
      container ← deploymentContainers jm !! 0;
      var ← Container_Env container !! 3;
      Some (EnvVar_Value var)
  | Panic _ => None
  end.

(** The FLINK_PROPERTIES blob handed to the worker, when the computation of
    the desired state returns a worker deployment. *)
Definition workerFlinkProperties (r : result _DesiredClusterState) : option string :=
  match r with
  | Ok ds =>
      tm ← DesiredClusterState_TmDeployment ds;
      container ← deploymentContainers tm !! 0;
      var ← Container_Env container !! 3;
      Some (EnvVar_Value var)
  | Panic _ => None
  end.

(** The pointers that the computation of the desired state dereferences
    are set: for a cluster that is not stopped, the ports of the manager and
    of the worker and, with a JobSpec, the restart policy; for a cluster
    that is Stopping or Stopped, with a JobSpec, the manager UI port and the
    restart policy, and none without a JobSpec. *)
Definition dereferencedSet (c : FlinkCluster) : bool :=
  if decide (stoppingOrStopped c)
  then match FlinkClusterSpec_JobSpec (FlinkCluster_Spec c) with
       | Some jobSpec =>
           isSet (JobManagerPorts_UI (jmPorts c)) && isSet (JobSpec_RestartPolicy jobSpec)
       | None => true
       end
  else pointersSet c.

(** ** Sample clusters

    [config/samples/flinkoperator_v1alpha1_flinkjobcluster.yaml], with the
    ports it leaves out filled in, and variations of it. *)

Module Sample.

Definition meta (name : string) : ObjectMeta :=
  {| ObjectMeta_Name := name; ObjectMeta_Namespace := "default"; ObjectMeta_UID := "uid-1";
     ObjectMeta_Labels := ∅; ObjectMeta_Annotations := ∅; ObjectMeta_OwnerReferences := [] |}.

Definition limits (memory cpu : string) : ResourceRequirements :=
  {| ResourceRequirements_Limits := {[ "memory" := memory; "cpu" := cpu ]};
     ResourceRequirements_Requests := ∅ |}.

Definition jmPortsAll : JobManagerPorts :=
  {| JobManagerPorts_RPC := Some 6123%Z; JobManagerPorts_Blob := Some 6124%Z;
     JobManagerPorts_Query := Some 6125%Z; JobManagerPorts_UI := Some 8081%Z |}.

Definition jmPortsNone : JobManagerPorts :=
  {| JobManagerPorts_RPC := None; JobManagerPorts_Blob := None;
     JobManagerPorts_Query := None; JobManagerPorts_UI := None |}.

Definition tmPortsAll : TaskManagerPorts :=
  {| TaskManagerPorts_Data := Some 6121%Z; TaskManagerPorts_RPC := Some 6122%Z;
     TaskManagerPorts_Query := Some 6125%Z |}.

Definition tmPortsNone : TaskManagerPorts :=
  {| TaskManagerPorts_Data := None; TaskManagerPorts_RPC := None;
     TaskManagerPorts_Query := None |}.

Definition wordCount : JobSpec :=
  {| JobSpec_JarFile := "./examples/batch/WordCount.jar";
     JobSpec_ClassName := Some "org.apache.flink.examples.java.wordcount.WordCount";
     JobSpec_Args := ["--input"; "./README.txt"];
     JobSpec_Savepoint := None;
     JobSpec_AllowNonRestoredState := None;
     JobSpec_Parallelism := Some 2%Z;
     JobSpec_NoLoggingToStdout := None;
     JobSpec_Volumes := [];
     JobSpec_Mounts := [];
     JobSpec_RestartPolicy := Some "OnFailure" |}.

Definition withJar (jarFile : string) (js : JobSpec) : JobSpec :=
  {| JobSpec_JarFile := jarFile;
     JobSpec_ClassName := JobSpec_ClassName js;
     JobSpec_Args := JobSpec_Args js;
     JobSpec_Savepoint := JobSpec_Savepoint js;
     JobSpec_AllowNonRestoredState := JobSpec_AllowNonRestoredState js;
     JobSpec_Parallelism := JobSpec_Parallelism js;
     JobSpec_NoLoggingToStdout := JobSpec_NoLoggingToStdout js;
     JobSpec_Volumes := JobSpec_Volumes js;
     JobSpec_Mounts := JobSpec_Mounts js;
     JobSpec_RestartPolicy := JobSpec_RestartPolicy js |}.

Definition flinkCluster (state scope : string) (jm : JobManagerPorts) (tm : TaskManagerPorts)
    (jobSpec : option JobSpec) (jobStatus : option JobStatus)
    (properties : gmap string string) : FlinkCluster :=
  {| FlinkCluster_TypeMeta := {|
       TypeMeta_Kind := "FlinkCluster";
       TypeMeta_APIVersion := "flinkoperator.k8s.io/v1alpha1" |};
     FlinkCluster_ObjectMeta := meta "flinkjobcluster-sample";
     FlinkCluster_Spec := {|
       FlinkClusterSpec_ImageSpec := {|
         ImageSpec_Name := "flink:1.8.1";
         ImageSpec_PullPolicy := "Always";
         ImageSpec_PullSecrets := [] |};
       FlinkClusterSpec_JobManagerSpec := {|
         JobManagerSpec_Replicas := Some 1%Z;
         JobManagerSpec_AccessScope := scope;
         JobManagerSpec_Ports := jm;
         JobManagerSpec_Resources := limits "512Mi" "200m";
         JobManagerSpec_Volumes := [];
         JobManagerSpec_Mounts := [];
         JobManagerSpec_NodeSelector := ∅ |};
       FlinkClusterSpec_TaskManagerSpec := {|
         TaskManagerSpec_Replicas := 2%Z;
         TaskManagerSpec_Ports := tm;
         TaskManagerSpec_Resources := limits "1024Mi" "200m";
         TaskManagerSpec_Sidecars := [];
         TaskManagerSpec_Volumes := [];
         TaskManagerSpec_Mounts := [];
         TaskManagerSpec_NodeSelector := ∅ |};
       FlinkClusterSpec_JobSpec := jobSpec;
       FlinkClusterSpec_EnvVars := [];
       FlinkClusterSpec_FlinkProperties := properties |};
     FlinkCluster_Status := {|
       FlinkClusterStatus_State := state;
       FlinkClusterStatus_Components := {| FlinkClusterComponentsStatus_Job := jobStatus |} |} |}.

Definition slots : gmap string string := {[ "taskmanager.numberOfTaskSlots" := "1" ]}.

(** The sample as it runs. *)
Definition running : FlinkCluster :=
  flinkCluster ClusterState.Running AccessScope.Cluster jmPortsAll tmPortsAll
    (Some wordCount) None slots.

(** The sample after its job has finished and the cluster was stopped. *)
Definition stopped : FlinkCluster :=
  flinkCluster ClusterState.Stopped AccessScope.Cluster jmPortsAll tmPortsAll
    (Some wordCount) None slots.

(** A stopped session cluster none of whose ports is set. *)
Definition stoppedBare : FlinkCluster :=
  flinkCluster ClusterState.Stopped AccessScope.Cluster jmPortsNone tmPortsNone
    None None slots.

(** The sample with no manager port set. *)
Definition portless : FlinkCluster :=
  flinkCluster ClusterState.Running AccessScope.Cluster jmPortsNone tmPortsAll
    (Some wordCount) None slots.

(** The same, stopped. *)
Definition stoppedPortless : FlinkCluster :=
  flinkCluster ClusterState.Stopped AccessScope.Cluster jmPortsNone tmPortsAll
    (Some wordCount) None slots.

(** The sample with the manager UI port -1. *)
Definition negativePort : FlinkCluster :=
  flinkCluster ClusterState.Running AccessScope.Cluster
    {| JobManagerPorts_RPC := Some 6123%Z; JobManagerPorts_Blob := Some 6124%Z;
       JobManagerPorts_Query := Some 6125%Z; JobManagerPorts_UI := Some (-1)%Z |}
    tmPortsAll (Some wordCount) None slots.

(** The sample with an access scope the switch does not know. *)
Definition misScoped : FlinkCluster :=
  flinkCluster ClusterState.Running "Internet" jmPortsAll tmPortsAll
    (Some wordCount) None slots.

(** The sample with two properties. *)
Definition twoProperties : FlinkCluster :=
  flinkCluster ClusterState.Running AccessScope.Cluster jmPortsAll tmPortsAll
    (Some wordCount) None
    {[ "taskmanager.numberOfTaskSlots" := "1"; "jobmanager.heap.size" := "1024m" ]}.

(** Two choices of the runtime: the entries in the order of [map_to_list],
    and in the opposite order. *)
Definition forward : MapRanges :=
  {| jmRange := map_to_list; tmRange := map_to_list |}.

Definition backward : MapRanges :=
  {| jmRange := λ m, reverse (map_to_list m); tmRange := λ m, reverse (map_to_list m) |}.

(** The sample with its jar at a remote URI, and at another local path. *)
Definition remoteJar : FlinkCluster :=
  flinkCluster ClusterState.Running AccessScope.Cluster jmPortsAll tmPortsAll
    (Some (withJar "s3://bucket/path/app.jar" wordCount)) None slots.

Definition localJar : FlinkCluster :=
  flinkCluster ClusterState.Running AccessScope.Cluster jmPortsAll tmPortsAll
    (Some (withJar "./local/app.jar" wordCount)) None slots.

End Sample.

(** ** Vocabulary of the statements about the Observer *)

(** The six lookups of one observation pass, in program order. *)
Inductive gatewayLookup : Type :=
  | LCluster | LJmDeployment | LJmService | LTmDeployment | LJob | LJobPods.

Definition rank (l : gatewayLookup) : nat :=
  match l with
  | LCluster => 0 | LJmDeployment => 1 | LJmService => 2
  | LTmDeployment => 3 | LJob => 4 | LJobPods => 5
  end.

Definition requestKey (o : _ClusterStateObserver) (name : string) : NamespacedName :=
  {| NamespacedName_Namespace := NamespacedName_Namespace (Request_NamespacedName (request o));
     NamespacedName_Name := name |}.

Definition clusterName (o : _ClusterStateObserver) : string :=
  NamespacedName_Name (Request_NamespacedName (request o)).

(** The call to the gateway by which the Observer makes a lookup. *)
Definition lookupCall (o : _ClusterStateObserver) (l : gatewayLookup) : event :=
  match l with
  | LCluster => GetCall KFlinkCluster (Request_NamespacedName (request o))
  | LJmDeployment =>
      GetCall KDeployment (requestKey o (getJobManagerDeploymentName (clusterName o)))
  | LJmService =>
      GetCall KService (requestKey o (getJobManagerServiceName (clusterName o)))
  | LTmDeployment =>
      GetCall KDeployment (requestKey o (getTaskManagerDeploymentName (clusterName o)))
  | LJob => GetCall KJob (requestKey o (getJobName (clusterName o)))
  | LJobPods =>
      ListPodsCall (NamespacedName_Namespace (Request_NamespacedName (request o)))
                   (jobPodLabels o)
  end.

Definition errorOf {A : Type} (r : A + error) : option error :=
  match r with
  | inl _ => None
  | inr e => Some e
  end.

(** The error with which the gateway answers a lookup, nil when it succeeds. *)
Definition answer (o : _ClusterStateObserver) (l : gatewayLookup) : option error :=
  match l with
  | LCluster =>
      errorOf (Get_FlinkCluster (k8sClient o) (Request_NamespacedName (request o)))
  | LJmDeployment =>
      errorOf (Get_Deployment (k8sClient o)
                 (requestKey o (getJobManagerDeploymentName (clusterName o))))
  | LJmService =>
      errorOf (Get_Service (k8sClient o)
                 (requestKey o (getJobManagerServiceName (clusterName o))))
  | LTmDeployment =>
      errorOf (Get_Deployment (k8sClient o)
                 (requestKey o (getTaskManagerDeploymentName (clusterName o))))
  | LJob =>
      errorOf (Get_Job (k8sClient o) (requestKey o (getJobName (clusterName o))))
  | LJobPods =>
      errorOf (List_Pod (k8sClient o)
                 (NamespacedName_Namespace (Request_NamespacedName (request o)))
                 (jobPodLabels o))
  end.

(** The pods the gateway lists for the job, when the query succeeds. *)
Definition listedJobPods (o : _ClusterStateObserver) : option (list Pod) :=
  match List_Pod (k8sClient o)
          (NamespacedName_Namespace (Request_NamespacedName (request o)))
          (jobPodLabels o) with
  | inl pods => Some (PodList_Items pods)
  | inr _ => None
  end.

(** The gateway holds the cluster resource, and it specifies a job. *)
Definition clusterHasJobSpec (o : _ClusterStateObserver) : bool :=
  match Get_FlinkCluster (k8sClient o) (Request_NamespacedName (request o)) with
  | inl c => isSet (FlinkClusterSpec_JobSpec (FlinkCluster_Spec c))
  | inr _ => false
  end.

(** The lookup that follows [l] in the pass, if any. *)
Definition following (o : _ClusterStateObserver) (l : gatewayLookup) : option gatewayLookup :=
  match l with
  | LCluster => Some LJmDeployment
  | LJmDeployment => Some LJmService
  | LJmService => Some LTmDeployment
  | LTmDeployment => if clusterHasJobSpec o then Some LJob else None
  | LJob => Some LJobPods
  | LJobPods => None
  end.

Definition observedOf (x : execution) : _ObservedClusterState :=
  match x with
  | Returns _ st _ | Panics _ st _ => st
  end.

Definition traceOf (x : execution) : list event :=
  match x with
  | Returns _ _ t | Panics _ _ t => t
  end.

(** [observe] returns to its caller, with this error or nil. *)
Definition returns (x : execution) (err : option error) : Prop :=
  match x with
  | Returns err' _ _ => err' = err
  | Panics _ _ _ => False
  end.

(** The lookup was made during the pass. *)
Definition performed (o : _ClusterStateObserver) (l : gatewayLookup) (x : execution) : Prop :=
  lookupCall o l ∈ traceOf x.

(** The Job-Status Prober was invoked during the pass. *)
Definition probed (x : execution) : Prop :=
  ∃ url, HttpGet url ∈ traceOf x.

(** The same, as a test on the trace. *)
Definition hasProbe (t : list event) : bool :=
  existsb (λ e, if e is HttpGet _ then true else false) t.

(** The field of the observed state that a lookup fills is nil. *)
Definition absent (l : gatewayLookup) (st : _ObservedClusterState) : Prop :=
  match l with
  | LCluster => cluster st = None
  | LJmDeployment => jmDeployment st = None
  | LJmService => jmService st = None
  | LTmDeployment => tmDeployment st = None
  | LJob => job st = None
  | LJobPods => jobPod st = None
  end.

(** The job identifier recorded in the persisted status, [""] when none is. *)
Definition recordedJobID (c : FlinkCluster) : string :=
  match FlinkClusterComponentsStatus_Job
          (FlinkClusterStatus_Components (FlinkCluster_Status c)) with
  | Some jobStatus => JobStatus_ID jobStatus
  | None => ""
  end.

(** The pod is past Pending and its phase is known. *)
Definition podStarted (pod : Pod) : Prop :=
  PodStatus_Phase (Pod_Status pod) ≠ "Pending"
  ∧ PodStatus_Phase (Pod_Status pod) ≠ "Unknown".

(** ** Sample gateways *)

Module SampleWorld.

Definition pod (phase : string) : Pod :=
  {| Pod_ObjectMeta := Sample.meta "flinkjobcluster-sample-job-x7k2p";
     Pod_Status := {| PodStatus_Phase := phase |} |}.

Definition service : Service :=
  {| Service_ObjectMeta := Sample.meta "flinkjobcluster-sample-jobmanager";
     Service_Spec := {| ServiceSpec_Ports := []; ServiceSpec_Selector := ∅;
                        ServiceSpec_Type := ServiceTypeClusterIP |} |}.

Definition jobResource : batchv1.Job :=
  {| Job_ObjectMeta := Sample.meta "flinkjobcluster-sample-job";
     Job_Spec := {| JobSpec_Template := {|
       PodTemplateSpec_ObjectMeta := Sample.meta "";
       PodTemplateSpec_Spec := {|
         PodSpec_Volumes := []; PodSpec_Containers := []; PodSpec_RestartPolicy := "OnFailure";
         PodSpec_NodeSelector := ∅; PodSpec_ImagePullSecrets := [] |} |} |} |}.

Definition notFound {A : Type} : A + error := inr (StatusNotFound "not found").

Definition jobs : httpOutcome :=
  Body {| _JobStatusList_Jobs :=
            [ {| _JobStatus_ID := "2f3a5c"; _JobStatus_Status := "RUNNING" |} ] |}.

(** A gateway that holds the cluster [c], its manager service, its job
    resource and the pods [pods], and no deployment. *)
Definition observer (c : FlinkCluster) (pods : list Pod) : _ClusterStateObserver :=
  {| k8sClient := {|
       Get_FlinkCluster := λ _, inl c;
       Get_Deployment := λ _, notFound;
       Get_Service := λ _, inl service;
       Get_Job := λ _, inl jobResource;
       List_Pod := λ _ _, inl {| PodList_Items := pods |} |};
     request := {| Request_NamespacedName := {|
       NamespacedName_Namespace := "default";
       NamespacedName_Name := "flinkjobcluster-sample" |} |};
     http := λ _, jobs |}.

(** A gateway that fails on the manager service, for a reason other than
    its absence. *)
Definition failingObserver : _ClusterStateObserver :=
  {| k8sClient := {|
       Get_FlinkCluster := λ _, inl Sample.running;
       Get_Deployment := λ _, notFound;
       Get_Service := λ _, inr (OtherError "connection refused");
       Get_Job := λ _, inl jobResource;
       List_Pod := λ _ _, inl {| PodList_Items := [] |} |};
     request := {| Request_NamespacedName := {|
       NamespacedName_Namespace := "default";
       NamespacedName_Name := "flinkjobcluster-sample" |} |};
     http := λ _, jobs |}.

(** A network whose [http.NewRequest] rejects a URL with a negative port. *)
Definition netHttp (url : string) : httpOutcome :=
  if GoStrings.Contains url ":-" then NewRequestError "invalid port" else jobs.

(** The gateway of [observer], before that network. *)
Definition strictObserver (c : FlinkCluster) (pods : list Pod) : _ClusterStateObserver :=
  {| k8sClient := k8sClient (observer c pods);
     request := request (observer c pods);
     http := netHttp |}.

(** The sample with a job identifier recorded in its status. *)
Definition identified : FlinkCluster :=
  Sample.flinkCluster ClusterState.Running AccessScope.Cluster Sample.jmPortsAll
    Sample.tmPortsAll (Some Sample.wordCount)
    (Some {| JobStatus_Name := "flinkjobcluster-sample-job"; JobStatus_ID := "2f3a5c";
             JobStatus_State := "Running" |})
    Sample.slots.

(** The same without a JobSpec. *)
Definition identifiedSession : FlinkCluster :=
  Sample.flinkCluster ClusterState.Running AccessScope.Cluster Sample.jmPortsAll
    Sample.tmPortsAll None
    (Some {| JobStatus_Name := "flinkjobcluster-sample-job"; JobStatus_ID := "2f3a5c";
             JobStatus_State := "Running" |})
    Sample.slots.

End SampleWorld.

(** ** Vocabulary of the further properties of the Converter *)

(** The namespace and name under which the gateway keeps an object. *)
Definition keyOf (m : ObjectMeta) : NamespacedName :=
  {| NamespacedName_Namespace := ObjectMeta_Namespace m;
     NamespacedName_Name := ObjectMeta_Name m |}.

(** The object lives in the namespace of the cluster and its one owner is
    the cluster, which controls it and whose deletion it does not block. *)
Definition ownedBy (c : FlinkCluster) (m : ObjectMeta) : Prop :=
  ObjectMeta_Namespace m = ObjectMeta_Namespace (FlinkCluster_ObjectMeta c)
  ∧ ∃ ref,
      ObjectMeta_OwnerReferences m = [ref]
      ∧ OwnerReference_APIVersion ref = TypeMeta_APIVersion (FlinkCluster_TypeMeta c)
      ∧ OwnerReference_Kind ref = TypeMeta_Kind (FlinkCluster_TypeMeta c)
      ∧ OwnerReference_Name ref = ObjectMeta_Name (FlinkCluster_ObjectMeta c)
      ∧ OwnerReference_UID ref = ObjectMeta_UID (FlinkCluster_ObjectMeta c)
      ∧ OwnerReference_Controller ref = Some true
      ∧ OwnerReference_BlockOwnerDeletion ref = Some false.

(** The metadata of the resources of a desired state that are not null. *)
Definition desiredMetas (ds : _DesiredClusterState) : list ObjectMeta :=
  omap id [ Deployment_ObjectMeta <$> DesiredClusterState_JmDeployment ds;
            Service_ObjectMeta <$> DesiredClusterState_JmService ds;
            Deployment_ObjectMeta <$> DesiredClusterState_TmDeployment ds;
            batchv1.Job_ObjectMeta <$> DesiredClusterState_Job ds ].

(** The metadata the Converter gives to a child resource of the cluster. *)
Definition childMeta (c : FlinkCluster) (name : string)
    (labels annotations : gmap string string) : ObjectMeta :=
  {| ObjectMeta_Name := name;
     ObjectMeta_Namespace := ObjectMeta_Namespace (FlinkCluster_ObjectMeta c);
     ObjectMeta_UID := "";
     ObjectMeta_Labels := labels;
     ObjectMeta_Annotations := annotations;
     ObjectMeta_OwnerReferences := [toOwnerReference c] |}.

(** The labels of the manager and of the worker. *)
Definition managerLabels (c : FlinkCluster) : gmap string string :=
  {[ "cluster" := ObjectMeta_Name (FlinkCluster_ObjectMeta c); "app" := "flink";
     "component" := "jobmanager" ]}.

Definition workerLabels (c : FlinkCluster) : gmap string string :=
  {[ "cluster" := ObjectMeta_Name (FlinkCluster_ObjectMeta c); "app" := "flink";
     "component" := "taskmanager" ]}.

Definition podLabels (t : PodTemplateSpec) : gmap string string :=
  ObjectMeta_Labels (PodTemplateSpec_ObjectMeta t).

Definition deploymentPodLabels (d : Deployment) : gmap string string :=
  podLabels (DeploymentSpec_Template (Deployment_Spec d)).

Definition jobPodTemplateLabels (j : batchv1.Job) : gmap string string :=
  podLabels (batchv1.JobSpec_Template (batchv1.Job_Spec j)).

Definition selectorOf (d : Deployment) : option (gmap string string) :=
  LabelSelector_MatchLabels <$> DeploymentSpec_Selector (Deployment_Spec d).

(** A label selector selects the pods that carry each of its labels. *)
Definition selects (selector labels : gmap string string) : Prop := selector ⊆ labels.

(** The port of a service that exposes a port of a container under its name. *)
Definition servicePortOf (p : ContainerPort) : ServicePort :=
  {| ServicePort_Name := ContainerPort_Name p;
     ServicePort_Port := ContainerPort_ContainerPort p;
     ServicePort_TargetPort := intstr.FromString (ContainerPort_Name p) |}.

(** ** Vocabulary of the further properties of the Observer *)

(** What a lookup leaves in the observed state: the object the gateway
    holds, or nil. *)
Definition held {A : Type} (r : A + error) : option A :=
  match r with
  | inl a => Some a
  | inr _ => None
  end.

(** The gateway answers the lookup with an error other than not-found. *)
Definition failed (o : _ClusterStateObserver) (l : gatewayLookup) : bool :=
  isSet (client.IgnoreNotFound (answer o l)).

Definition isGatewayCall (e : event) : bool :=
  match e with
  | GetCall _ _ | ListPodsCall _ _ => true
  | _ => false
  end.

(** The calls to the gateway in a trace, in the order in which they were made. *)
Definition gatewayCalls (t : list event) : list event := List.filter isGatewayCall t.

Definition allLookups : list gatewayLookup :=
  [LCluster; LJmDeployment; LJmService; LTmDeployment; LJob; LJobPods].

(** The number of lookups that are due in a pass: up to the first one that
    fails, and the first four only when the gateway holds no cluster with a
    JobSpec. *)
Definition lookupsDue (o : _ClusterStateObserver) : nat :=
  if failed o LCluster then 1
  else if failed o LJmDeployment then 2
  else if failed o LJmService then 3
  else if failed o LTmDeployment then 4
  else if negb (clusterHasJobSpec o) then 4
  else if failed o LJob then 5
  else 6.

(** The error of the first lookup that is due and fails, in program order. *)
Definition failure (o : _ClusterStateObserver) : option error :=
  if failed o LCluster then answer o LCluster
  else if failed o LJmDeployment then answer o LJmDeployment
  else if failed o LJmService then answer o LJmService
  else if failed o LTmDeployment then answer o LTmDeployment
  else if negb (clusterHasJobSpec o) then None
  else if failed o LJob then answer o LJob
  else if failed o LJobPods then answer o LJobPods
  else None.

(** The error a pass is due to return: the failure of a lookup; without
    one, and for a cluster with a JobSpec, the error about the pods when
    the query lists more than one; nil otherwise. *)
Definition dueError (o : _ClusterStateObserver) : option error :=
  match failure o with
  | Some e => Some e
  | None =>
      if clusterHasJobSpec o then
        match listedJobPods o with
        | Some (p1 :: p2 :: pods) => Some (ErrorfJobPods (p1 :: p2 :: pods))
        | _ => None
        end
      else None
  end.

(** The observed state a pass on a fresh state is due to leave, but for the
    job identifier: each lookup that is due leaves what the gateway holds. *)
Definition dueCluster (o : _ClusterStateObserver) : option FlinkCluster :=
  held (Get_FlinkCluster (k8sClient o) (Request_NamespacedName (request o))).

Definition dueJmDeployment (o : _ClusterStateObserver) : option Deployment :=
  if bool_decide (1 < lookupsDue o)
  then held (Get_Deployment (k8sClient o)
               (requestKey o (getJobManagerDeploymentName (clusterName o))))
  else None.

Definition dueJmService (o : _ClusterStateObserver) : option Service :=
  if bool_decide (2 < lookupsDue o)
  then held (Get_Service (k8sClient o)
               (requestKey o (getJobManagerServiceName (clusterName o))))
  else None.

Definition dueTmDeployment (o : _ClusterStateObserver) : option Deployment :=
  if bool_decide (3 < lookupsDue o)
  then held (Get_Deployment (k8sClient o)
               (requestKey o (getTaskManagerDeploymentName (clusterName o))))
  else None.

Definition dueJob (o : _ClusterStateObserver) : option batchv1.Job :=
  if bool_decide (4 < lookupsDue o)
  then held (Get_Job (k8sClient o) (requestKey o (getJobName (clusterName o))))
  else None.

Definition dueJobPod (o : _ClusterStateObserver) : option Pod :=
  if bool_decide (5 < lookupsDue o)
  then match listedJobPods o with
       | Some [pod] => Some pod
       | _ => None
       end
  else None.

(** The URLs the prober was sent to, and the messages logged as errors. *)
Definition probes (t : list event) : list string :=
  omap (λ e, if e is HttpGet url then Some url else None) t.

Definition loggedErrors (t : list event) : list string :=
  omap (λ e, if e is LogError msg then Some msg else None) t.

(** The address of the job list of the manager behind a service. *)
Definition jobsURL (service : Service) (ui : Z) : string :=
  "http://" +:+ ObjectMeta_Name (Service_ObjectMeta service)
  +:+ "." +:+ ObjectMeta_Namespace (Service_ObjectMeta service)
  +:+ ".svc.cluster.local:" +:+ pretty ui +:+ "/jobs".

(** The identifier of the first job of a response of the manager. *)
Definition firstJobID (r : httpOutcome) : option string :=
  match r with
  | Body jobStatusList => _JobStatus_ID <$> head (_JobStatusList_Jobs jobStatusList)
  | NewRequestError _ | DoError _ | ReadError _ => None
  end.

(** [http.NewRequest] rejects the URL. *)
Definition rejected (r : httpOutcome) : bool :=
  if r is NewRequestError _ then true else false.

(** The request is made and fails, or its body cannot be read. *)
Definition transportFailed (r : httpOutcome) : bool :=
  match r with
  | DoError _ | ReadError _ => true
  | NewRequestError _ | Body _ => false
  end.

(** [observe] panics, with this value. *)
Definition panics (x : execution) (p : panic) : Prop :=
  match x with
  | Panics p' _ _ => p' = p
  | Returns _ _ _ => False
  end.

(** A field of the observed state after an assignment that is made only
    when an object is found. *)
Definition overwrite {A : Type} (found old : option A) : option A :=
  match found with
  | Some a => Some a
  | None => old
  end.

(** The state in which a statement leaves the Observer. *)
Definition stateOf {R A : Type} (x : outcome R A) : obsState :=
  match x with
  | Continue _ s | Return _ s | Panicked _ s => s
  end.

(** ** A gateway that holds a desired state *)

Definition sameKey (k1 k2 : NamespacedName) : bool :=
  bool_decide (NamespacedName_Namespace k1 = NamespacedName_Namespace k2
               ∧ NamespacedName_Name k1 = NamespacedName_Name k2).

(** What the gateway answers for a key when it holds the given objects. *)
Definition getFrom {A : Type} (meta : A → ObjectMeta) (objects : list A)
    (key : NamespacedName) : A + error :=
  match List.find (λ x, sameKey (keyOf (meta x)) key) objects with
  | Some x => inl x
  | None => SampleWorld.notFound
  end.

(** The gateway once the cluster [c] and the resources of the desired state
    [ds] have been created, each under its namespace and name; it lists the
    pods [pods] for the job. *)
Definition gatewayOf (c : FlinkCluster) (ds : _DesiredClusterState) (pods : list Pod)
    : Client :=
  {| Get_FlinkCluster := getFrom FlinkCluster_ObjectMeta [c];
     Get_Deployment :=
       getFrom Deployment_ObjectMeta
         (omap id [DesiredClusterState_JmDeployment ds; DesiredClusterState_TmDeployment ds]);
     Get_Service :=
       getFrom Service_ObjectMeta (omap id [DesiredClusterState_JmService ds]);
     Get_Job :=
       getFrom batchv1.Job_ObjectMeta (omap id [DesiredClusterState_Job ds]);
     List_Pod := λ _ _, inl {| PodList_Items := pods |} |}.

(** An Observer of the cluster [c] before that gateway. *)
Definition observerOf (c : FlinkCluster) (ds : _DesiredClusterState) (pods : list Pod)
    (flink : string → httpOutcome) : _ClusterStateObserver :=
  {| k8sClient := gatewayOf c ds pods;
     request := {| Request_NamespacedName := keyOf (FlinkCluster_ObjectMeta c) |};
     http := flink |}.

(** * Proofs

    ** Strings *)

Lemma append_nil_r (s : string) : s +:+ "" = s.
Proof.
  induction s as [|c s IH]; [done|].
  change (String c (s +:+ "") = String c s). by rewrite IH.
Qed.

Lemma append_assoc (s1 s2 s3 : string) : (s1 +:+ s2) +:+ s3 = s1 +:+ s2 +:+ s3.
Proof.
  induction s1 as [|c s1 IH]; [done|].
  change (String c ((s1 +:+ s2) +:+ s3) = String c (s1 +:+ s2 +:+ s3)). by rewrite IH.
Qed.

(** Separators of one byte, such as the slash of a path. *)
Section SingleByteSeparator.
Variable a : Ascii.ascii.

Lemma prefix_single c s :
  String.prefix (String a "") (String c s) = bool_decide (a = c).
Proof.
  simpl. destruct (Ascii.ascii_dec a c) as [->|Hne].
  - rewrite bool_decide_eq_true_2 by done. by destruct s.
  - by rewrite bool_decide_eq_false_2.
Qed.

Lemma Contains_single_nil : GoStrings.Contains "" (String a "") = false.
Proof. reflexivity. Qed.

Lemma Contains_single_cons c s :
  GoStrings.Contains (String c s) (String a "")
  = bool_decide (a = c) || GoStrings.Contains s (String a "").
Proof.
  change (GoStrings.Contains (String c s) (String a ""))
    with (String.prefix (String a "") (String c s) || GoStrings.Contains s (String a "")).
  by rewrite prefix_single.
Qed.

Lemma Contains_single_app s1 s2 :
  GoStrings.Contains (s1 +:+ s2) (String a "")
  = GoStrings.Contains s1 (String a "") || GoStrings.Contains s2 (String a "").
Proof.
  induction s1 as [|c s1 IH].
  - by rewrite Contains_single_nil.
  - change (String c s1 +:+ s2) with (String c (s1 +:+ s2)).
    rewrite !Contains_single_cons, IH. by rewrite orb_assoc.
Qed.

(** The last piece of a split holds no separator, and it is what follows the
    last separator of the text, or the whole text when there is none. *)
Lemma splitFrom_single_last s : ∀ cur,
  GoStrings.Contains cur (String a "") = false →
  ∃ pre x,
    GoStrings.splitFrom (String a "") 0 cur s = pre ++ [x]
    ∧ GoStrings.Contains x (String a "") = false
    ∧ if GoStrings.Contains s (String a "")
      then ∃ dir, cur +:+ s = dir +:+ String a "" +:+ x
      else x = cur +:+ s.
Proof.
  induction s as [|c s IH]; intros cur Hcur.
  - exists [], cur. split; [done|]. split; [done|].
    rewrite Contains_single_nil. by rewrite append_nil_r.
  - cbn [GoStrings.splitFrom]. rewrite prefix_single, Contains_single_cons.
    case_bool_decide as Hc; simpl.
    + subst c. destruct (IH EmptyString Contains_single_nil) as (pre & x & -> & Hx & Hs).
      exists (cur :: pre), x. split; [done|]. split; [done|].
      destruct (GoStrings.Contains s (String a "")).
      * destruct Hs as [dir Hs]. change (s = dir +:+ String a "" +:+ x) in Hs.
        exists (cur +:+ String a "" +:+ dir). rewrite Hs. by rewrite !append_assoc.
      * exists cur. by rewrite Hs.
    + destruct (IH (cur +:+ String c EmptyString)) as (pre & x & -> & Hx & Hs).
      { rewrite Contains_single_app, Hcur, Contains_single_cons.
        by rewrite bool_decide_eq_false_2. }
      exists pre, x. split; [done|]. split; [done|].
      by rewrite append_assoc in Hs.
Qed.

End SingleByteSeparator.

Lemma prefix_cons (a c : Ascii.ascii) (p s : string) :
  String.prefix (String a p) (String c s) = bool_decide (a = c) && String.prefix p s.
Proof.
  simpl. destruct (Ascii.ascii_dec a c) as [->|Hne].
  - by rewrite bool_decide_eq_true_2.
  - by rewrite bool_decide_eq_false_2.
Qed.

Lemma Contains_scheme_slash (s : string) :
  GoStrings.Contains s "://" = true → GoStrings.Contains s "/" = true.
Proof.
  induction s as [|c s IH]; [done|].
  rewrite Contains_single_cons.
  change (GoStrings.Contains (String c s) "://")
    with (String.prefix "://" (String c s) || GoStrings.Contains s "://").
  intros [Hp|Hs]%orb_true_iff.
  - apply orb_true_iff. right.
    rewrite prefix_cons in Hp. apply andb_true_iff in Hp as [_ Hp].
    destruct s as [|c' s]; [done|].
    rewrite prefix_cons in Hp. apply andb_true_iff in Hp as [Hc' _].
    rewrite Contains_single_cons, Hc'. done.
  - rewrite IH by done. apply orb_true_r.
Qed.

(** The last piece of a path that holds a slash: what follows the last slash. *)
Lemma Split_slash_last (s : string) :
  GoStrings.Contains s "/" = true →
  ∃ pre dir seg,
    GoStrings.Split s "/" = pre ++ [seg]
    ∧ s = dir +:+ "/" +:+ seg
    ∧ GoStrings.Contains seg "/" = false.
Proof.
  intros Hs. unfold GoStrings.Split.
  destruct (splitFrom_single_last (Ascii.ascii_of_nat 47) s EmptyString
              (Contains_single_nil _)) as (pre & seg & Hsplit & Hseg & Hdir).
  change (String (Ascii.ascii_of_nat 47) "") with "/" in *.
  rewrite Hs in Hdir. destruct Hdir as [dir Hdir].
  exists pre, dir, seg. done.
Qed.

Lemma index_last {A : Type} (pre : list A) (x : A) :
  index (pre ++ [x]) (length (pre ++ [x]) - 1) = Ok x.
Proof.
  unfold index. rewrite length_app. simpl.
  replace (length pre + 1 - 1) with (length pre) by lia.
  by rewrite list_lookup_middle.
Qed.

(** ** The Converter *)

Lemma getDesiredJob_none (c : FlinkCluster) :
  FlinkClusterSpec_JobSpec (FlinkCluster_Spec c) = None → getDesiredJob c = Ok None.
Proof. intros H. unfold getDesiredJob. by rewrite H. Qed.

Lemma getDesiredJob_some (c : FlinkCluster) (js : JobSpec) (ui : Z) (rp : string) :
  FlinkClusterSpec_JobSpec (FlinkCluster_Spec c) = Some js →
  JobManagerPorts_UI (jmPorts c) = Some ui →
  JobSpec_RestartPolicy js = Some rp →
  ∃ job container jarPath,
    getDesiredJob c = Ok (Some job)
    ∧ jobContainers job = [container]
    ∧ Container_Args container
      = submissionOptions
          (ObjectMeta_Name (FlinkCluster_ObjectMeta c) +:+ "-jobmanager:" +:+ pretty ui) js
        ++ [jarPath] ++ JobSpec_Args js
    ∧ if GoStrings.Contains (JobSpec_JarFile js) "://"
      then (∃ dir seg,
              JobSpec_JarFile js = dir +:+ "/" +:+ seg
              ∧ GoStrings.Contains seg "/" = false
              ∧ jarPath = "/opt/flink/job/" +:+ seg)
           ∧ Container_Env container
             = FlinkClusterSpec_EnvVars (FlinkCluster_Spec c)
               ++ [plainEnvVar "FLINK_JOB_JAR_URI" (JobSpec_JarFile js)]
      else jarPath = JobSpec_JarFile js
           ∧ Container_Env container = FlinkClusterSpec_EnvVars (FlinkCluster_Spec c).
Proof.
  intros Hjs Hui Hrp. unfold getDesiredJob, jmPorts in *. rewrite Hjs, Hui, Hrp.
  destruct (GoStrings.Contains (JobSpec_JarFile js) "://") eqn:Hjar.
  - destruct (Split_slash_last _ (Contains_scheme_slash _ Hjar))
      as (pre & dir & seg & -> & Hdir & Hseg).
    rewrite index_last. cbn [mbind result_bind deref mret result_ret].
    eexists _, _, _. split; [reflexivity|]. split; [reflexivity|].
    split; [|by eauto 10].
    cbn [Container_Args]. unfold submissionOptions.
    rewrite (append_assoc _ "-jobmanager" (":" +:+ pretty ui)).
    by destruct (JobSpec_ClassName js), (JobSpec_Savepoint js),
      (JobSpec_AllowNonRestoredState js) as [[]|], (JobSpec_Parallelism js),
      (JobSpec_NoLoggingToStdout js) as [[]|].
  - cbn [mbind result_bind deref mret result_ret].
    eexists _, _, _. split; [reflexivity|]. split; [reflexivity|].
    split; [|done].
    cbn [Container_Args]. unfold submissionOptions.
    rewrite (append_assoc _ "-jobmanager" (":" +:+ pretty ui)).
    by destruct (JobSpec_ClassName js), (JobSpec_Savepoint js),
      (JobSpec_AllowNonRestoredState js) as [[]|], (JobSpec_Parallelism js),
      (JobSpec_NoLoggingToStdout js) as [[]|].
Qed.

Lemma getDesiredJob_nil (c : FlinkCluster) (js : JobSpec) :
  FlinkClusterSpec_JobSpec (FlinkCluster_Spec c) = Some js →
  isSet (JobManagerPorts_UI (jmPorts c)) && isSet (JobSpec_RestartPolicy js) = false →
  getDesiredJob c = Panic NilDereference.
Proof.
  intros Hjs Hset. unfold getDesiredJob, jmPorts in *. rewrite Hjs.
  destruct (JobManagerPorts_UI _) as [ui|]; [|done].
  destruct (JobSpec_RestartPolicy js) as [rp|]; [done|].
  cbn [mbind result_bind deref mret result_ret].
  destruct (GoStrings.Contains (JobSpec_JarFile js) "://") eqn:Hjar; [|done].
  destruct (Split_slash_last _ (Contains_scheme_slash _ Hjar))
    as (pre & dir & seg & -> & Hdir & Hseg).
  by rewrite index_last.
Qed.

Ltac not_stopped H :=
  unfold stoppingOrStopped in H; rewrite (decide_False _ _ H).

Ltac deref_ports :=
  repeat (match goal with
          | |- context [deref ?p] => destruct p; simpl in *; try done
          end).

Lemma getDesiredJobManagerDeployment_stopped range (c : FlinkCluster) :
  stoppingOrStopped c → getDesiredJobManagerDeployment range c = Ok None.
Proof. intros H. unfold getDesiredJobManagerDeployment. by rewrite (decide_True _ _ H). Qed.

Lemma getDesiredJobManagerService_stopped (c : FlinkCluster) :
  stoppingOrStopped c → getDesiredJobManagerService c = Ok None.
Proof. intros H. unfold getDesiredJobManagerService. by rewrite (decide_True _ _ H). Qed.

Lemma getDesiredTaskManagerDeployment_stopped range (c : FlinkCluster) :
  stoppingOrStopped c → getDesiredTaskManagerDeployment range c = Ok None.
Proof. intros H. unfold getDesiredTaskManagerDeployment. by rewrite (decide_True _ _ H). Qed.

Lemma getDesiredJobManagerDeployment_nil range (c : FlinkCluster) :
  ¬ stoppingOrStopped c → jmPortsSet c = false →
  getDesiredJobManagerDeployment range c = Panic NilDereference.
Proof.
  intros H Hp. unfold getDesiredJobManagerDeployment. not_stopped H.
  unfold jmPortsSet, jmPorts in Hp. deref_ports.
Qed.

Lemma getDesiredJobManagerDeployment_running range (c : FlinkCluster) :
  ¬ stoppingOrStopped c → jmPortsSet c = true →
  ∃ d container,
    getDesiredJobManagerDeployment range c = Ok (Some d)
    ∧ deploymentContainers d = [container]
    ∧ Container_Env container !! 3
      = Some (plainEnvVar "FLINK_PROPERTIES"
               (getFlinkProperties range
                  (FlinkClusterSpec_FlinkProperties (FlinkCluster_Spec c)))).
Proof.
  intros H Hp. unfold getDesiredJobManagerDeployment. not_stopped H.
  unfold jmPortsSet, jmPorts in Hp. deref_ports. eauto.
Qed.

Lemma getDesiredJobManagerService_nil (c : FlinkCluster) :
  ¬ stoppingOrStopped c → jmPortsSet c = false →
  getDesiredJobManagerService c = Panic NilDereference.
Proof.
  intros H Hp. unfold getDesiredJobManagerService. not_stopped H.
  unfold jmPortsSet, jmPorts in Hp. deref_ports.
Qed.

Lemma getDesiredJobManagerService_unknown (c : FlinkCluster) :
  ¬ stoppingOrStopped c → jmPortsSet c = true → ¬ knownScope c →
  getDesiredJobManagerService c
  = Panic (PanicMsg ("Unknown service access cope: " +:+ accessScope c)).
Proof.
  intros H Hp Hs. unfold getDesiredJobManagerService. not_stopped H.
  unfold jmPortsSet, jmPorts in Hp. unfold knownScope, accessScope in *.
  deref_ports. repeat case_decide; tauto.
Qed.

Lemma getDesiredJobManagerService_known (c : FlinkCluster) :
  ¬ stoppingOrStopped c → jmPortsSet c = true → knownScope c →
  ∃ service,
    getDesiredJobManagerService c = Ok (Some service)
    ∧ ServiceSpec_Type (Service_Spec service)
      = (if decide (accessScope c = AccessScope.Cluster)
         then ServiceTypeClusterIP else ServiceTypeLoadBalancer)
    ∧ ObjectMeta_Annotations (Service_ObjectMeta service)
      = (if decide (accessScope c = AccessScope.VPC)
         then {[ "cloud.google.com/load-balancer-type" := "Internal" ]} else ∅).
Proof.
  intros H Hp Hs. unfold getDesiredJobManagerService. not_stopped H.
  unfold jmPortsSet, jmPorts in Hp. unfold knownScope, accessScope in *.
  unfold AccessScope.Cluster, AccessScope.VPC, AccessScope.External in *.
  deref_ports.
  destruct Hs as [Hs|[Hs|Hs]]; rewrite Hs;
    repeat case_decide; try done; eexists; (split; [reflexivity|done]).
Qed.

Lemma getDesiredTaskManagerDeployment_nil range (c : FlinkCluster) :
  ¬ stoppingOrStopped c → tmPortsSet c = false →
  getDesiredTaskManagerDeployment range c = Panic NilDereference.
Proof.
  intros H Hp. unfold getDesiredTaskManagerDeployment. not_stopped H.
  unfold tmPortsSet, tmPorts in Hp. deref_ports.
Qed.

Lemma getDesiredTaskManagerDeployment_running range (c : FlinkCluster) :
  ¬ stoppingOrStopped c → tmPortsSet c = true →
  ∃ d container,
    getDesiredTaskManagerDeployment range c = Ok (Some d)
    ∧ deploymentContainers d
      = container :: TaskManagerSpec_Sidecars
                       (FlinkClusterSpec_TaskManagerSpec (FlinkCluster_Spec c))
    ∧ Container_Env container !! 3
      = Some (plainEnvVar "FLINK_PROPERTIES"
               (getFlinkProperties range
                  (FlinkClusterSpec_FlinkProperties (FlinkCluster_Spec c)))).
Proof.
  intros H Hp. unfold getDesiredTaskManagerDeployment. not_stopped H.
  unfold tmPortsSet, tmPorts in Hp. deref_ports. eauto.
Qed.

Lemma getDesiredClusterState_stopped (o : MapRanges) (c : FlinkCluster) :
  stoppingOrStopped c →
  getDesiredClusterState o (Some c)
  = (job ← getDesiredJob c;
     mret {| DesiredClusterState_JmDeployment := None;
             DesiredClusterState_JmService := None;
             DesiredClusterState_TmDeployment := None;
             DesiredClusterState_Job := job |}).
Proof.
  intros H. unfold getDesiredClusterState.
  rewrite getDesiredJobManagerDeployment_stopped, getDesiredJobManagerService_stopped,
    getDesiredTaskManagerDeployment_stopped by done.
  reflexivity.
Qed.

(** The job of the desired state is what [getDesiredJob] makes. *)
Lemma getDesiredClusterState_job (o : MapRanges) (c : FlinkCluster) (ds : _DesiredClusterState) :
  getDesiredClusterState o (Some c) = Ok ds →
  getDesiredJob c = Ok (DesiredClusterState_Job ds).
Proof.
  unfold getDesiredClusterState.
  destruct (getDesiredJobManagerDeployment _ c); [|done].
  destruct (getDesiredJobManagerService c); [|done].
  destruct (getDesiredTaskManagerDeployment _ c); [|done].
  destruct (getDesiredJob c); [|done].
  simpl. by intros [= <-].
Qed.

(** *** Phase gating *)

(** C1, as the Converter has it. When the cluster resource is absent or its
    phase is Stopping or Stopped, the desired manager deployment, manager
    service and worker deployment are null whatever the other fields of the
    spec. The desired job is gated by the JobSpec alone: it is null exactly
    when the spec has none, and with a JobSpec (manager UI port and restart
    policy set) the Converter still returns the job resource. *)
Theorem desired_state_of_stopped_or_absent_cluster
    (o : MapRanges) (cluster : option FlinkCluster) :
  absentOrStopped cluster →
  (jobSpecOf cluster = None → getDesiredClusterState o cluster = Ok allNull)
  ∧ (∀ c js ui rp,
       cluster = Some c →
       FlinkClusterSpec_JobSpec (FlinkCluster_Spec c) = Some js →
       JobManagerPorts_UI (jmPorts c) = Some ui →
       JobSpec_RestartPolicy js = Some rp →
       ∃ job, getDesiredClusterState o cluster
              = Ok {| DesiredClusterState_JmDeployment := None;
                      DesiredClusterState_JmService := None;
                      DesiredClusterState_TmDeployment := None;
                      DesiredClusterState_Job := Some job |})
  ∧ (∀ ds, getDesiredClusterState o cluster = Ok ds →
       DesiredClusterState_JmDeployment ds = None
       ∧ DesiredClusterState_JmService ds = None
       ∧ DesiredClusterState_TmDeployment ds = None
       ∧ (DesiredClusterState_Job ds = None ↔ jobSpecOf cluster = None)).
Proof.
  intros Hstop. destruct cluster as [c|].
  - change (jobSpecOf (Some c)) with (FlinkClusterSpec_JobSpec (FlinkCluster_Spec c)).
    rewrite getDesiredClusterState_stopped by done. split; [|split].
    + intros Hjs. by rewrite getDesiredJob_none.
    + intros c' js ui rp [= <-] Hjs Hui Hrp.
      destruct (getDesiredJob_some c js ui rp Hjs Hui Hrp) as (job & _ & _ & -> & _).
      by exists job.
    + intros ds. destruct (FlinkClusterSpec_JobSpec (FlinkCluster_Spec c)) as [js|] eqn:Hjs.
      * destruct (JobManagerPorts_UI (jmPorts c)) as [ui|] eqn:Hui;
          [|by rewrite (getDesiredJob_nil c js Hjs); [|rewrite Hui]].
        destruct (JobSpec_RestartPolicy js) as [rp|] eqn:Hrp;
          [|by rewrite (getDesiredJob_nil c js Hjs); [|rewrite Hui, Hrp]].
        destruct (getDesiredJob_some c js ui rp Hjs Hui Hrp) as (job & _ & _ & -> & _).
        simpl. intros [= <-]. simpl. naive_solver.
      * rewrite getDesiredJob_none by done. simpl. by intros [= <-].
  - split; [done|]. split; [done|]. by intros ds [= <-].
Qed.

Lemma desired_state_of_stopped_or_absent_cluster_witness :
  absentOrStopped (Some Sample.stopped)
  ∧ ∃ job, getDesiredClusterState Sample.forward
             (Some Sample.stopped)
           = Ok {| DesiredClusterState_JmDeployment := None;
                   DesiredClusterState_JmService := None;
                   DesiredClusterState_TmDeployment := None;
                   DesiredClusterState_Job := Some job |}.
Proof.
  assert (Hstop : absentOrStopped (Some Sample.stopped)) by (right; reflexivity).
  split; [exact Hstop|].
  destruct (desired_state_of_stopped_or_absent_cluster
              Sample.forward
              (Some Sample.stopped) Hstop) as (_ & H & _).
  apply (H Sample.stopped Sample.wordCount 8081%Z "OnFailure"); reflexivity.
Defined.

(** C1 fails as stated: the sample cluster, stopped, has a JobSpec, and its
    desired job is not null. *)
Lemma stopped_cluster_keeps_desired_job :
  stoppingOrStopped Sample.stopped
  ∧ ∃ ds job,
      getDesiredClusterState Sample.forward
        (Some Sample.stopped) = Ok ds
      ∧ DesiredClusterState_Job ds = Some job.
Proof.
  split; [right; reflexivity|].
  rewrite getDesiredClusterState_stopped by (right; reflexivity).
  destruct (getDesiredJob_some Sample.stopped Sample.wordCount 8081%Z "OnFailure")
    as (job & _ & _ & -> & _); [reflexivity..|].
  by eexists _, job.
Qed.

(** *** Nil pointers *)

Lemma getDesiredClusterState_running (o : MapRanges) (c : FlinkCluster) :
  ¬ stoppingOrStopped c → pointersSet c = true → knownScope c →
  ∃ jm service tm,
    getDesiredJobManagerDeployment (jmRange o) c = Ok (Some jm)
    ∧ getDesiredJobManagerService c = Ok (Some service)
    ∧ getDesiredTaskManagerDeployment (tmRange o) c = Ok (Some tm)
    ∧ ∃ job, getDesiredJob c = Ok job
      ∧ getDesiredClusterState o (Some c)
        = Ok {| DesiredClusterState_JmDeployment := Some jm;
                DesiredClusterState_JmService := Some service;
                DesiredClusterState_TmDeployment := Some tm;
                DesiredClusterState_Job := job |}.
Proof.
  intros Hrun [[Hjm Htm]%andb_true_iff Hrp]%andb_true_iff Hscope.
  destruct (getDesiredJobManagerDeployment_running (jmRange o) c Hrun Hjm)
    as (jm & _ & Ejm & _).
  destruct (getDesiredJobManagerService_known c Hrun Hjm Hscope) as (service & Esvc & _).
  destruct (getDesiredTaskManagerDeployment_running (tmRange o) c Hrun Htm)
    as (tm & _ & Etm & _).
  exists jm, service, tm. split; [done|]. split; [done|]. split; [done|].
  unfold getDesiredClusterState. rewrite Ejm, Esvc, Etm.
  unfold restartPolicySet in Hrp.
  destruct (FlinkClusterSpec_JobSpec (FlinkCluster_Spec c)) as [js|] eqn:Hjs.
  - destruct (JobSpec_RestartPolicy js) as [rp|] eqn:Erp; [|done].
    destruct (JobManagerPorts_UI (jmPorts c)) as [ui|] eqn:Eui.
    + destruct (getDesiredJob_some c js ui rp Hjs Eui Erp) as (job & _ & _ & -> & _).
      by exists (Some job).
    + unfold jmPortsSet in Hjm. rewrite Eui in Hjm. by rewrite !andb_false_r in Hjm.
  - rewrite getDesiredJob_none by done. by exists None.
Qed.

Lemma getDesiredClusterState_nil (o : MapRanges) (c : FlinkCluster) :
  ¬ stoppingOrStopped c → pointersSet c = false →
  getDesiredClusterState o (Some c) = Panic NilDereference
  ∨ (¬ knownScope c
     ∧ getDesiredClusterState o (Some c)
       = Panic (PanicMsg ("Unknown service access cope: " +:+ accessScope c))).
Proof.
  intros Hrun Hset. unfold getDesiredClusterState.
  destruct (jmPortsSet c) eqn:Hjm.
  - destruct (getDesiredJobManagerDeployment_running (jmRange o) c Hrun Hjm)
      as (jm & _ & -> & _).
    destruct (decide (knownScope c)) as [Hscope|Hscope].
    + destruct (getDesiredJobManagerService_known c Hrun Hjm Hscope) as (service & -> & _).
      left. destruct (tmPortsSet c) eqn:Htm.
      * destruct (getDesiredTaskManagerDeployment_running (tmRange o) c Hrun Htm)
          as (tm & _ & -> & _).
        unfold pointersSet in Hset. rewrite Hjm, Htm in Hset. simpl in Hset.
        unfold restartPolicySet in Hset.
        destruct (FlinkClusterSpec_JobSpec (FlinkCluster_Spec c)) as [js|] eqn:Hjs; [|done].
        rewrite (getDesiredJob_nil c js Hjs); [done|].
        rewrite Hset. apply andb_false_r.
      * by rewrite getDesiredTaskManagerDeployment_nil.
    + right. split; [done|]. by rewrite getDesiredJobManagerService_unknown.
  - left. by rewrite getDesiredJobManagerDeployment_nil.
Qed.

(** C10, as the Converter has it. For a cluster whose phase is neither
    Stopping nor Stopped, the Converter dereferences the four manager ports,
    the three worker ports and, with a JobSpec, the restart policy: when one
    of them is nil it panics, with a nil dereference when the access scope is
    one the switch knows; when all are set and the access scope is known it
    returns a desired state. For a cluster that is Stopping or Stopped the
    ports of the deployments are not touched, and the job is still computed:
    with a JobSpec it panics with a nil dereference when the manager UI port
    or the restart policy is nil and returns a desired state otherwise, and
    without a JobSpec it returns the all-null desired state. In all, the
    Converter returns a desired state exactly when the pointers it
    dereferences are set and the cluster is stopped or its access scope is
    known. *)
Theorem converter_total_iff_pointers_set (o : MapRanges) (c : FlinkCluster) :
  (¬ stoppingOrStopped c →
   (pointersSet c = false → ∃ p, getDesiredClusterState o (Some c) = Panic p)
   ∧ (pointersSet c = false → knownScope c →
      getDesiredClusterState o (Some c) = Panic NilDereference)
   ∧ (pointersSet c = true → knownScope c →
      ∃ ds, getDesiredClusterState o (Some c) = Ok ds))
  ∧ (stoppingOrStopped c →
     ∀ js, FlinkClusterSpec_JobSpec (FlinkCluster_Spec c) = Some js →
       (isSet (JobManagerPorts_UI (jmPorts c)) && isSet (JobSpec_RestartPolicy js) = false →
        getDesiredClusterState o (Some c) = Panic NilDereference)
       ∧ (isSet (JobManagerPorts_UI (jmPorts c)) && isSet (JobSpec_RestartPolicy js) = true →
          ∃ ds, getDesiredClusterState o (Some c) = Ok ds))
  ∧ (stoppingOrStopped c →
     FlinkClusterSpec_JobSpec (FlinkCluster_Spec c) = None →
     getDesiredClusterState o (Some c) = Ok allNull)
  ∧ ((∃ ds, getDesiredClusterState o (Some c) = Ok ds)
     ↔ dereferencedSet c = true ∧ (stoppingOrStopped c ∨ knownScope c)).
Proof.
  assert (Hrunning : ¬ stoppingOrStopped c →
    (pointersSet c = false → ∃ p, getDesiredClusterState o (Some c) = Panic p)
    ∧ (pointersSet c = false → knownScope c →
       getDesiredClusterState o (Some c) = Panic NilDereference)
    ∧ (pointersSet c = true → knownScope c →
       ∃ ds, getDesiredClusterState o (Some c) = Ok ds)).
  { intros Hrun. split; [|split].
    - intros Hset. destruct (getDesiredClusterState_nil o c Hrun Hset) as [->|[_ ->]]; eauto.
    - intros Hset Hscope.
      by destruct (getDesiredClusterState_nil o c Hrun Hset) as [->|[? _]].
    - intros Hset Hscope.
      destruct (getDesiredClusterState_running o c Hrun Hset Hscope)
        as (jm & service & tm & _ & _ & _ & job & _ & ->).
      eauto. }
  assert (Hstopped : stoppingOrStopped c →
    ∀ js, FlinkClusterSpec_JobSpec (FlinkCluster_Spec c) = Some js →
      (isSet (JobManagerPorts_UI (jmPorts c)) && isSet (JobSpec_RestartPolicy js) = false →
       getDesiredClusterState o (Some c) = Panic NilDereference)
      ∧ (isSet (JobManagerPorts_UI (jmPorts c)) && isSet (JobSpec_RestartPolicy js) = true →
         ∃ ds, getDesiredClusterState o (Some c) = Ok ds)).
  { intros Hstop js Hjs. rewrite getDesiredClusterState_stopped by done. split.
    - intros Hnil. by rewrite (getDesiredJob_nil c js Hjs Hnil).
    - intros [Hui Hrp]%andb_true_iff.
      destruct (JobManagerPorts_UI (jmPorts c)) as [ui|] eqn:Eui; [|done].
      destruct (JobSpec_RestartPolicy js) as [rp|] eqn:Erp; [|done].
      destruct (getDesiredJob_some c js ui rp Hjs Eui Erp) as (job & _ & _ & -> & _).
      simpl. eauto. }
  assert (Hsession : stoppingOrStopped c →
    FlinkClusterSpec_JobSpec (FlinkCluster_Spec c) = None →
    getDesiredClusterState o (Some c) = Ok allNull).
  { intros Hstop Hjs. rewrite getDesiredClusterState_stopped by done.
    by rewrite getDesiredJob_none. }
  split; [exact Hrunning|]. split; [exact Hstopped|]. split; [exact Hsession|].
  unfold dereferencedSet. destruct (decide (stoppingOrStopped c)) as [Hstop|Hrun].
  - destruct (FlinkClusterSpec_JobSpec (FlinkCluster_Spec c)) as [js|] eqn:Hjs.
    + destruct (Hstopped Hstop js eq_refl) as [Hnil Hset].
      destruct (isSet (JobManagerPorts_UI (jmPorts c)) && isSet (JobSpec_RestartPolicy js)).
      * split; [by intros _; split; [|left]|]. intros _. by apply Hset.
      * split; [|by intros [[=] _]]. intros [ds Hds]. by rewrite Hnil in Hds.
    + split; [by intros _; split; [|left]|]. intros _. rewrite Hsession by done. eauto.
  - destruct (Hrunning Hrun) as (Hpanic & _ & Hok).
    destruct (pointersSet c) eqn:Hset.
    + split.
      * intros [ds Hds]. split; [done|]. right.
        destruct (decide (knownScope c)) as [Hscope|Hscope]; [done|].
        apply andb_true_iff in Hset as [[Hjm _]%andb_true_iff _].
        unfold getDesiredClusterState in Hds.
        destruct (getDesiredJobManagerDeployment_running (jmRange o) c Hrun Hjm)
          as (jm & _ & E & _).
        by rewrite E, getDesiredJobManagerService_unknown in Hds.
      * intros [_ [Hstop|Hscope]]; [done|]. by apply Hok.
    + split; [|by intros [[=] _]]. intros [ds Hds].
      destruct (Hpanic eq_refl) as [p Hp]. by rewrite Hp in Hds.
Qed.

Lemma running_not_stopped (scope : string) jm tm js st props :
  ¬ stoppingOrStopped (Sample.flinkCluster ClusterState.Running scope jm tm js st props).
Proof. by intros [|]. Qed.

Lemma converter_total_iff_pointers_set_witness :
  stoppingOrStopped Sample.stoppedPortless
  ∧ FlinkClusterSpec_JobSpec (FlinkCluster_Spec Sample.stoppedPortless)
    = Some Sample.wordCount
  ∧ JobManagerPorts_UI (jmPorts Sample.stoppedPortless) = None
  ∧ getDesiredClusterState Sample.forward (Some Sample.stoppedPortless)
    = Panic NilDereference.
Proof.
  assert (Hstop : stoppingOrStopped Sample.stoppedPortless) by (right; reflexivity).
  split; [exact Hstop|]. split; [reflexivity|]. split; [reflexivity|].
  destruct (converter_total_iff_pointers_set Sample.forward Sample.stoppedPortless)
    as (_ & H & _).
  destruct (H Hstop Sample.wordCount eq_refl) as [Hnil _].
  apply Hnil. reflexivity.
Defined.

(** C10 fails as stated: a stopped session cluster none of whose ports is
    set gets its desired state, all null, without any dereference. *)
Lemma stopped_cluster_needs_no_pointer :
  stoppingOrStopped Sample.stoppedBare
  ∧ pointersSet Sample.stoppedBare = false
  ∧ getDesiredClusterState Sample.forward
      (Some Sample.stoppedBare) = Ok allNull.
Proof. split; [right; reflexivity|]. split; reflexivity. Qed.

(** *** Access scope *)

(** C3, as the Converter has it. For a cluster whose phase is neither
    Stopping nor Stopped and whose manager ports are set, an access scope
    other than Cluster, VPC and External makes the computation of the desired
    manager service, and with it that of the desired state, panic with the
    message "Unknown service access cope: <scope>": no error value is
    returned to the caller. *)
Theorem unknown_access_scope_panics (o : MapRanges) (c : FlinkCluster) :
  ¬ stoppingOrStopped c → jmPortsSet c = true → ¬ knownScope c →
  getDesiredJobManagerService c
  = Panic (PanicMsg ("Unknown service access cope: " +:+ accessScope c))
  ∧ getDesiredClusterState o (Some c)
    = Panic (PanicMsg ("Unknown service access cope: " +:+ accessScope c)).
Proof.
  intros Hrun Hjm Hscope. split; [by apply getDesiredJobManagerService_unknown|].
  unfold getDesiredClusterState.
  destruct (getDesiredJobManagerDeployment_running (jmRange o) c Hrun Hjm)
    as (jm & _ & -> & _).
  by rewrite getDesiredJobManagerService_unknown.
Qed.

Lemma misScoped_unknown : ¬ knownScope Sample.misScoped.
Proof. by intros [|[|]]. Qed.

Lemma unknown_access_scope_panics_witness :
  ¬ stoppingOrStopped Sample.misScoped
  ∧ jmPortsSet Sample.misScoped = true
  ∧ ¬ knownScope Sample.misScoped
  ∧ getDesiredClusterState Sample.forward
      (Some Sample.misScoped)
    = Panic (PanicMsg "Unknown service access cope: Internet").
Proof.
  split; [apply running_not_stopped|]. split; [reflexivity|].
  split; [apply misScoped_unknown|].
  apply (unknown_access_scope_panics
           Sample.forward Sample.misScoped);
    [apply running_not_stopped|reflexivity|apply misScoped_unknown].
Defined.

(** C3 fails as stated: with the access scope "Internet" the Converter does
    not hand an error to its caller, it panics. *)
Lemma unknown_access_scope_is_no_error_value :
  ¬ knownScope Sample.misScoped
  ∧ getDesiredClusterState Sample.forward
      (Some Sample.misScoped)
    = Panic (PanicMsg "Unknown service access cope: Internet").
Proof.
  split; [apply misScoped_unknown|].
  unfold getDesiredClusterState.
  destruct (getDesiredJobManagerDeployment_running (jmRange Sample.forward)
              Sample.misScoped)
    as (jm & _ & E & _); [apply running_not_stopped|reflexivity|].
  rewrite E.
  rewrite getDesiredJobManagerService_unknown;
    [done|apply running_not_stopped|reflexivity|apply misScoped_unknown].
Qed.

(** C8. The desired manager service follows the access scope: Cluster gives
    type ClusterIP and no annotation, VPC gives type LoadBalancer and the
    internal load-balancer annotation, External gives type LoadBalancer and
    no annotation, and any other value makes the computation of the desired
    state panic. *)
Theorem access_scope_mapping (c : FlinkCluster) :
  ¬ stoppingOrStopped c → jmPortsSet c = true →
  (accessScope c = AccessScope.Cluster →
   ∃ service, getDesiredJobManagerService c = Ok (Some service)
     ∧ ServiceSpec_Type (Service_Spec service) = ServiceTypeClusterIP
     ∧ ObjectMeta_Annotations (Service_ObjectMeta service) = ∅)
  ∧ (accessScope c = AccessScope.VPC →
     ∃ service, getDesiredJobManagerService c = Ok (Some service)
       ∧ ServiceSpec_Type (Service_Spec service) = ServiceTypeLoadBalancer
       ∧ ObjectMeta_Annotations (Service_ObjectMeta service)
         = {[ "cloud.google.com/load-balancer-type" := "Internal" ]})
  ∧ (accessScope c = AccessScope.External →
     ∃ service, getDesiredJobManagerService c = Ok (Some service)
       ∧ ServiceSpec_Type (Service_Spec service) = ServiceTypeLoadBalancer
       ∧ ObjectMeta_Annotations (Service_ObjectMeta service) = ∅)
  ∧ (¬ knownScope c →
     ∃ msg, getDesiredJobManagerService c = Panic (PanicMsg msg)
       ∧ ∀ o, getDesiredClusterState o (Some c) = Panic (PanicMsg msg)).
Proof.
  intros Hrun Hjm. repeat split.
  - intros Hs.
    destruct (getDesiredJobManagerService_known c Hrun Hjm) as (service & E & Ht & Ha);
      [by left|].
    exists service. rewrite Ht, Ha, Hs. done.
  - intros Hs.
    destruct (getDesiredJobManagerService_known c Hrun Hjm) as (service & E & Ht & Ha);
      [by right; left|].
    exists service. rewrite Ht, Ha, Hs. done.
  - intros Hs.
    destruct (getDesiredJobManagerService_known c Hrun Hjm) as (service & E & Ht & Ha);
      [by right; right|].
    exists service. rewrite Ht, Ha, Hs. done.
  - intros Hs. eexists. split; [by apply getDesiredJobManagerService_unknown|].
    intros o. unfold getDesiredClusterState.
    destruct (getDesiredJobManagerDeployment_running (jmRange o) c Hrun Hjm)
      as (jm & _ & -> & _).
    by rewrite getDesiredJobManagerService_unknown.
Qed.

Lemma access_scope_mapping_witness :
  ¬ stoppingOrStopped Sample.running
  ∧ jmPortsSet Sample.running = true
  ∧ accessScope Sample.running = AccessScope.Cluster
  ∧ ∃ service, getDesiredJobManagerService Sample.running = Ok (Some service)
      ∧ ServiceSpec_Type (Service_Spec service) = ServiceTypeClusterIP
      ∧ ObjectMeta_Annotations (Service_ObjectMeta service) = ∅.
Proof.
  split; [apply running_not_stopped|]. split; [reflexivity|]. split; [reflexivity|].
  destruct (access_scope_mapping Sample.running) as (H & _);
    [apply running_not_stopped|reflexivity|].
  apply H. reflexivity.
Defined.

(** *** The submission command line *)

(** C6. With a manager UI port and a restart policy, the Converter returns a
    job with one container whose arguments end in the jar argument followed
    by the user arguments. When the jar file holds "://", the jar argument is
    "/opt/flink/job/" followed by what follows the last slash of the jar
    file, and the environment is the cluster's with FLINK_JOB_JAR_URI, set to
    the jar file, added at its end; otherwise the jar argument is the jar
    file and the environment is the cluster's. *)
Theorem jar_rewrite (c : FlinkCluster) (js : JobSpec) (ui : Z) (rp : string) :
  FlinkClusterSpec_JobSpec (FlinkCluster_Spec c) = Some js →
  JobManagerPorts_UI (jmPorts c) = Some ui →
  JobSpec_RestartPolicy js = Some rp →
  ∃ job container options jarPath,
    getDesiredJob c = Ok (Some job)
    ∧ (∀ o ds, getDesiredClusterState o (Some c) = Ok ds →
         DesiredClusterState_Job ds = Some job)
    ∧ jobContainers job = [container]
    ∧ Container_Args container = options ++ [jarPath] ++ JobSpec_Args js
    ∧ if GoStrings.Contains (JobSpec_JarFile js) "://"
      then (∃ dir seg,
              JobSpec_JarFile js = dir +:+ "/" +:+ seg
              ∧ GoStrings.Contains seg "/" = false
              ∧ jarPath = "/opt/flink/job/" +:+ seg)
           ∧ Container_Env container
             = FlinkClusterSpec_EnvVars (FlinkCluster_Spec c)
               ++ [plainEnvVar "FLINK_JOB_JAR_URI" (JobSpec_JarFile js)]
      else jarPath = JobSpec_JarFile js
           ∧ Container_Env container = FlinkClusterSpec_EnvVars (FlinkCluster_Spec c).
Proof.
  intros Hjs Hui Hrp.
  destruct (getDesiredJob_some c js ui rp Hjs Hui Hrp)
    as (job & container & jarPath & E & Hone & Hargs & Hjar).
  eexists job, container, _, jarPath. split; [done|]. split.
  { intros o ds Hds. apply getDesiredClusterState_job in Hds. congruence. }
  split; [done|]. split; [exact Hargs|done].
Qed.

Lemma jar_rewrite_witness :
  ∃ job container options jarPath,
    getDesiredJob Sample.remoteJar = Ok (Some job)
    ∧ jobContainers job = [container]
    ∧ Container_Args container = options ++ [jarPath] ++ ["--input"; "./README.txt"]
    ∧ (∃ dir seg,
         "s3://bucket/path/app.jar" = dir +:+ "/" +:+ seg
         ∧ GoStrings.Contains seg "/" = false
         ∧ jarPath = "/opt/flink/job/" +:+ seg)
    ∧ Container_Env container
      = [plainEnvVar "FLINK_JOB_JAR_URI" "s3://bucket/path/app.jar"].
Proof.
  destruct (jar_rewrite Sample.remoteJar (Sample.withJar "s3://bucket/path/app.jar" Sample.wordCount)
              8081%Z "OnFailure" eq_refl eq_refl eq_refl)
    as (job & container & options & jarPath & E & _ & Hone & Hargs & Hjar).
  exists job, container, options, jarPath. done.
Defined.

(** The two jar files of the specification's example. *)
Example jar_rewrite_remote :
  ∃ job container,
    getDesiredJob Sample.remoteJar = Ok (Some job)
    ∧ jobContainers job = [container]
    ∧ Container_Args container
      = ["./bin/flink"; "run"; "--jobmanager"; "flinkjobcluster-sample-jobmanager:8081";
         "--class"; "org.apache.flink.examples.java.wordcount.WordCount";
         "--parallelism"; "2"; "/opt/flink/job/app.jar"; "--input"; "./README.txt"]
    ∧ Container_Env container
      = [plainEnvVar "FLINK_JOB_JAR_URI" "s3://bucket/path/app.jar"].
Proof.
  eexists _, _. split; [vm_compute; reflexivity|].
  split; [reflexivity|]. split; reflexivity.
Qed.

Example jar_rewrite_local :
  ∃ job container,
    getDesiredJob Sample.localJar = Ok (Some job)
    ∧ jobContainers job = [container]
    ∧ Container_Args container
      = ["./bin/flink"; "run"; "--jobmanager"; "flinkjobcluster-sample-jobmanager:8081";
         "--class"; "org.apache.flink.examples.java.wordcount.WordCount";
         "--parallelism"; "2"; "./local/app.jar"; "--input"; "./README.txt"]
    ∧ Container_Env container = [].
Proof.
  eexists _, _. split; [vm_compute; reflexivity|].
  split; [reflexivity|]. split; reflexivity.
Qed.

(** C7. For a JobSpec with the WordCount jar and class, parallelism 2, no
    savepoint, and neither allowNonRestoredState nor noLoggingToStdout
    requested, the container of the desired job has exactly the arguments of
    the end-to-end scenario, followed by the user arguments. *)
Theorem word_count_arguments (c : FlinkCluster) (js : JobSpec) (ui : Z) (rp : string) :
  FlinkClusterSpec_JobSpec (FlinkCluster_Spec c) = Some js →
  JobSpec_JarFile js = "./examples/batch/WordCount.jar" →
  JobSpec_ClassName js = Some "org.apache.flink.examples.java.wordcount.WordCount" →
  JobSpec_Parallelism js = Some 2%Z →
  JobSpec_Savepoint js = None →
  JobSpec_AllowNonRestoredState js ≠ Some true →
  JobSpec_NoLoggingToStdout js ≠ Some true →
  JobManagerPorts_UI (jmPorts c) = Some ui →
  JobSpec_RestartPolicy js = Some rp →
  ∃ job container,
    getDesiredJob c = Ok (Some job)
    ∧ (∀ o ds, getDesiredClusterState o (Some c) = Ok ds →
         DesiredClusterState_Job ds = Some job)
    ∧ jobContainers job = [container]
    ∧ Container_Args container
      = ["./bin/flink"; "run"; "--jobmanager";
         ObjectMeta_Name (FlinkCluster_ObjectMeta c) +:+ "-jobmanager:" +:+ pretty ui;
         "--class"; "org.apache.flink.examples.java.wordcount.WordCount";
         "--parallelism"; "2";
         "./examples/batch/WordCount.jar"]
        ++ JobSpec_Args js.
Proof.
  intros Hjs Hjar Hclass Hpar Hsave Hallow Hlog Hui Hrp.
  destruct (getDesiredJob_some c js ui rp Hjs Hui Hrp)
    as (job & container & jarPath & E & Hone & Hargs & Hpath).
  exists job, container. split; [done|]. split.
  { intros o ds Hds. apply getDesiredClusterState_job in Hds. congruence. }
  split; [done|].
  rewrite Hjar in Hpath. destruct Hpath as [-> _].
  rewrite Hargs. unfold submissionOptions. rewrite Hclass, Hpar, Hsave.
  by destruct (JobSpec_AllowNonRestoredState js) as [[]|],
    (JobSpec_NoLoggingToStdout js) as [[]|].
Qed.

Lemma word_count_arguments_witness :
  ∃ job container,
    getDesiredJob Sample.running = Ok (Some job)
    ∧ jobContainers job = [container]
    ∧ Container_Args container
      = ["./bin/flink"; "run"; "--jobmanager"; "flinkjobcluster-sample-jobmanager:8081";
         "--class"; "org.apache.flink.examples.java.wordcount.WordCount";
         "--parallelism"; "2"; "./examples/batch/WordCount.jar";
         "--input"; "./README.txt"].
Proof.
  destruct (word_count_arguments Sample.running Sample.wordCount 8081%Z "OnFailure")
    as (job & container & E & _ & Hone & Hargs); try reflexivity; try discriminate.
  exists job, container. done.
Defined.

(** *** Determinism *)

Lemma validRange_small (range1 range2 : mapRange) (m : gmap string string) :
  size m ≤ 1 → validRange range1 → validRange range2 → range1 m = range2 m.
Proof.
  intros Hsize H1 H2. specialize (H1 m). specialize (H2 m).
  rewrite <-(length_map_to_list m) in Hsize.
  destruct (map_to_list m) as [|x [|y l]]; simpl in Hsize.
  - apply Permutation_nil_r in H1, H2. congruence.
  - apply Permutation_singleton_r in H1, H2. congruence.
  - lia.
Qed.

Lemma foldl_builder (order : list (string * string)) : ∀ acc : string,
  foldl (λ builder kv, builder +:+ (kv.1 +:+ ": " +:+ kv.2 +:+ newline)) acc order
  = acc +:+ foldr String.append "" (flinkPropertyLines order).
Proof.
  induction order as [|kv order IH]; intros acc; simpl.
  - by rewrite append_nil_r.
  - by rewrite IH, append_assoc.
Qed.

(** The blob is the concatenation of the lines, in visiting order. *)
Lemma getFlinkProperties_lines (range : mapRange) (properties : gmap string string) :
  getFlinkProperties range properties
  = foldr String.append "" (flinkPropertyLines (range properties)).
Proof. unfold getFlinkProperties. by rewrite foldl_builder. Qed.

Lemma getDesiredClusterState_manager (o : MapRanges) (c : FlinkCluster)
    (ds : _DesiredClusterState) :
  getDesiredClusterState o (Some c) = Ok ds →
  managerFlinkProperties (Ok ds)
  = if decide (stoppingOrStopped c) then None
    else Some (foldr String.append ""
                 (flinkPropertyLines
                    (jmRange o (FlinkClusterSpec_FlinkProperties (FlinkCluster_Spec c))))).
Proof.
  intros Hds. unfold getDesiredClusterState in Hds.
  destruct (decide (stoppingOrStopped c)) as [Hstop|Hrun].
  - rewrite getDesiredJobManagerDeployment_stopped in Hds by done.
    destruct (getDesiredJobManagerService c); [|done].
    destruct (getDesiredTaskManagerDeployment _ c); [|done].
    destruct (getDesiredJob c); [|done].
    simpl in Hds. by injection Hds as <-.
  - destruct (jmPortsSet c) eqn:Hjm;
      [|by rewrite getDesiredJobManagerDeployment_nil in Hds].
    destruct (getDesiredJobManagerDeployment_running (jmRange o) c Hrun Hjm)
      as (jm & container & E & Hone & Henv).
    rewrite E in Hds.
    destruct (getDesiredJobManagerService c); [|done].
    destruct (getDesiredTaskManagerDeployment _ c); [|done].
    destruct (getDesiredJob c); [|done].
    simpl in Hds. injection Hds as <-.
    cbn [managerFlinkProperties DesiredClusterState_JmDeployment mbind option_bind].
    rewrite Hone. simpl. rewrite Henv. simpl. by rewrite getFlinkProperties_lines.
Qed.

Lemma getDesiredClusterState_worker (o : MapRanges) (c : FlinkCluster)
    (ds : _DesiredClusterState) :
  getDesiredClusterState o (Some c) = Ok ds →
  workerFlinkProperties (Ok ds)
  = if decide (stoppingOrStopped c) then None
    else Some (foldr String.append ""
                 (flinkPropertyLines
                    (tmRange o (FlinkClusterSpec_FlinkProperties (FlinkCluster_Spec c))))).
Proof.
  intros Hds. unfold getDesiredClusterState in Hds.
  destruct (decide (stoppingOrStopped c)) as [Hstop|Hrun].
  - rewrite getDesiredTaskManagerDeployment_stopped in Hds by done.
    destruct (getDesiredJobManagerDeployment _ c); [|done].
    destruct (getDesiredJobManagerService c); [|done].
    destruct (getDesiredJob c); [|done].
    simpl in Hds. by injection Hds as <-.
  - destruct (getDesiredJobManagerDeployment _ c); [|done].
    destruct (getDesiredJobManagerService c); [|done].
    destruct (tmPortsSet c) eqn:Htm;
      [|by rewrite getDesiredTaskManagerDeployment_nil in Hds].
    destruct (getDesiredTaskManagerDeployment_running (tmRange o) c Hrun Htm)
      as (tm & container & E & Hone & Henv).
    rewrite E in Hds.
    destruct (getDesiredJob c); [|done].
    simpl in Hds. injection Hds as <-.
    cbn [workerFlinkProperties DesiredClusterState_TmDeployment mbind option_bind].
    rewrite Hone. simpl. rewrite Henv. simpl. by rewrite getFlinkProperties_lines.
Qed.

(** C2, as the Converter has it. The desired state is a function of the
    cluster and of the orders in which the two ranges over the property map
    visit its entries: two computations for the same cluster return the same
    when the property map has at most one entry, when their ranges visit the
    map of the cluster in the same orders, and when the cluster is Stopping
    or Stopped. In general, in the desired states that two computations
    return for a cluster that is not stopped, the FLINK_PROPERTIES blob of
    the manager and that of the worker are each the concatenation, in the
    order of the visit, of the lines of the entries of the map, one per
    entry: the same lines in the two computations, in orders that may
    differ. *)
Theorem desired_state_up_to_range_order (c : FlinkCluster) (o1 o2 : MapRanges) :
  validRanges o1 → validRanges o2 →
  (size (FlinkClusterSpec_FlinkProperties (FlinkCluster_Spec c)) ≤ 1 →
   getDesiredClusterState o1 (Some c) = getDesiredClusterState o2 (Some c))
  ∧ (jmRange o1 (FlinkClusterSpec_FlinkProperties (FlinkCluster_Spec c))
     = jmRange o2 (FlinkClusterSpec_FlinkProperties (FlinkCluster_Spec c)) →
     tmRange o1 (FlinkClusterSpec_FlinkProperties (FlinkCluster_Spec c))
     = tmRange o2 (FlinkClusterSpec_FlinkProperties (FlinkCluster_Spec c)) →
     getDesiredClusterState o1 (Some c) = getDesiredClusterState o2 (Some c))
  ∧ (stoppingOrStopped c →
     getDesiredClusterState o1 (Some c) = getDesiredClusterState o2 (Some c))
  ∧ (∀ ds1 ds2,
       getDesiredClusterState o1 (Some c) = Ok ds1 →
       getDesiredClusterState o2 (Some c) = Ok ds2 →
       ¬ stoppingOrStopped c →
       ∃ jmLines1 tmLines1 jmLines2 tmLines2,
         managerFlinkProperties (Ok ds1) = Some (foldr String.append "" jmLines1)
         ∧ workerFlinkProperties (Ok ds1) = Some (foldr String.append "" tmLines1)
         ∧ managerFlinkProperties (Ok ds2) = Some (foldr String.append "" jmLines2)
         ∧ workerFlinkProperties (Ok ds2) = Some (foldr String.append "" tmLines2)
         ∧ jmLines1
           = flinkPropertyLines
               (jmRange o1 (FlinkClusterSpec_FlinkProperties (FlinkCluster_Spec c)))
         ∧ tmLines1
           = flinkPropertyLines
               (tmRange o1 (FlinkClusterSpec_FlinkProperties (FlinkCluster_Spec c)))
         ∧ jmLines2
           = flinkPropertyLines
               (jmRange o2 (FlinkClusterSpec_FlinkProperties (FlinkCluster_Spec c)))
         ∧ tmLines2
           = flinkPropertyLines
               (tmRange o2 (FlinkClusterSpec_FlinkProperties (FlinkCluster_Spec c)))
         ∧ jmLines1
           ≡ₚ flinkPropertyLines
                (map_to_list (FlinkClusterSpec_FlinkProperties (FlinkCluster_Spec c)))
         ∧ tmLines1 ≡ₚ jmLines1
         ∧ jmLines2 ≡ₚ jmLines1
         ∧ tmLines2 ≡ₚ jmLines1).
Proof.
  intros [Hjm1 Htm1] [Hjm2 Htm2]. split; [|split; [|split]].
  - intros Hsize. unfold getDesiredClusterState, getDesiredJobManagerDeployment,
      getDesiredTaskManagerDeployment, getFlinkProperties.
    by rewrite (validRange_small (jmRange o1) (jmRange o2) _ Hsize),
      (validRange_small (tmRange o1) (tmRange o2) _ Hsize).
  - intros Ejm Etm. unfold getDesiredClusterState, getDesiredJobManagerDeployment,
      getDesiredTaskManagerDeployment, getFlinkProperties.
    by rewrite Ejm, Etm.
  - intros Hstop. by rewrite !getDesiredClusterState_stopped.
  - intros ds1 ds2 Hds1 Hds2 Hrun.
    eexists _, _, _, _.
    rewrite (getDesiredClusterState_manager o1 c ds1 Hds1),
      (getDesiredClusterState_worker o1 c ds1 Hds1),
      (getDesiredClusterState_manager o2 c ds2 Hds2),
      (getDesiredClusterState_worker o2 c ds2 Hds2), !decide_False by done.
    do 8 (split; [reflexivity|]).
    split; [|split; [|split]]; apply fmap_Permutation.
    + apply Hjm1.
    + by rewrite (Htm1 _), (Hjm1 _).
    + by rewrite (Hjm2 _), (Hjm1 _).
    + by rewrite (Htm2 _), (Hjm1 _).
Qed.

Lemma forward_valid : validRanges Sample.forward.
Proof. by split; intros m. Qed.

Lemma backward_valid : validRanges Sample.backward.
Proof. split; intros m; apply reverse_Permutation. Qed.

Lemma desired_state_up_to_range_order_witness :
  validRanges Sample.forward
  ∧ validRanges Sample.backward
  ∧ getDesiredClusterState Sample.forward (Some Sample.running)
    = getDesiredClusterState Sample.backward (Some Sample.running).
Proof.
  split; [apply forward_valid|]. split; [apply backward_valid|].
  destruct (desired_state_up_to_range_order Sample.running Sample.forward Sample.backward
              forward_valid backward_valid) as (H & _).
  apply H. vm_compute. lia.
Defined.

(** C2 fails as stated: for the sample with two properties, two orders in
    which Go may visit the property map give two different desired states. *)
Lemma range_order_shows_in_desired_state :
  validRanges Sample.forward
  ∧ validRanges Sample.backward
  ∧ getDesiredClusterState Sample.forward (Some Sample.twoProperties)
    ≠ getDesiredClusterState Sample.backward (Some Sample.twoProperties).
Proof.
  split; [apply forward_valid|]. split; [apply backward_valid|].
  intros H. apply (f_equal managerFlinkProperties) in H.
  vm_compute in H. discriminate H.
Qed.

(** ** The Observer *)

Ltac unfold_observer :=
  cbv beta iota zeta delta
    [runObserve observe observeJob getFlinkJobID observeCluster observeDeployment
     observeJobManagerDeployment observeTaskManagerDeployment observeJobManagerService
     observeJobResource observeJobPods call return_ emit getObserved modifyObserved
     derefM indexM when mbind mret M_bind M_ret].

Ltac reduce :=
  cbv beta iota zeta delta
    [observed trace app cluster jmDeployment jmService tmDeployment job jobPod flinkJobID
     set_cluster set_jmDeployment set_jmService set_tmDeployment set_job set_jobPod
     set_flinkJobID client.IgnoreNotFound IgnoreNotFound emptyObservedState
     base.lookup list_lookup andb PodList_Items].

(** The term on which a symbolic run waits: the innermost scrutinee at the
    head of the program. *)
Ltac waits_on t :=
  lazymatch t with
  | match ?x with Continue _ _ => _ | Return _ _ => _ | Panicked _ _ => _ end => waits_on x
  | match ?x with inl _ => _ | inr _ => _ end => waits_on x
  | match ?x with Some _ => _ | None => _ end => waits_on x
  | match ?x with [] => _ | _ :: _ => _ end => waits_on x
  | match ?x with
    | NewRequestError _ => _ | DoError _ => _ | ReadError _ => _ | Body _ => _
    end => waits_on x
  | if ?b then _ else _ => waits_on b
  | ?f ?s =>
      lazymatch type of s with
      | obsState => waits_on f
      | _ => constr:(t)
      end
  | _ => constr:(t)
  end.

(** One step of a symbolic run: the answer of the gateway, the field or the
    test on which the run waits is split. *)
Ltac step :=
  lazymatch goal with
  | |- ?Q ?t =>
      let x := waits_on t in
      tryif constr_eq x t then fail else
      lazymatch x with
      | bool_decide ?P =>
          destruct (bool_decide_reflect P); try (exfalso; simpl in *; lia)
      | _ =>
          lazymatch type of x with
          | (PodList + error)%type => destruct x as [[[|? [|? ?]]]|[?|?|?]] eqn:?
          | (_ + error)%type => destruct x as [?|[?|?|?]] eqn:?
          | _ => destruct x eqn:?
          end
      end
  end; reduce.

(** Runs [runObserve o st] in a goal [P (runObserve o st)] along all paths. *)
Ltac run_observe :=
  match goal with
  | |- context [runObserve ?o ?st] =>
      pattern (runObserve o st);
      match goal with
      | |- ?P _ => let Q := fresh "Q" in set (Q := P); unfold_observer;
                   repeat match goal with
                          | H : ?x = inl _ |- context [?x] => rewrite H
                          | H : ?x = inr _ |- context [?x] => rewrite H
                          end;
                   reduce; repeat step; subst Q; cbv beta
      end
  end.

Lemma deployment_names_differ (n : string) :
  getTaskManagerDeploymentName n ≠ getJobManagerDeploymentName n.
Proof. unfold getTaskManagerDeploymentName, getJobManagerDeploymentName.
       by intros H%(inj (String.append n)). Qed.

Ltac not_in H :=
  apply list_elem_of_In in H; cbn [In] in H;
  repeat (destruct H as [H|H];
          [first [discriminate H
                 | injection H as H; by apply deployment_names_differ in H
                 | injection H as H; symmetry in H; by apply deployment_names_differ in H]|]);
  lazymatch type of H with False => destruct H end.

Ltac is_in := repeat first [apply list_elem_of_here | apply list_elem_of_further].

(** C5. When the job-pod list query is made and returns two pods or more,
    [observe] returns the error about the pods and leaves [jobPod] as it
    was: no pod is picked. *)
Theorem several_job_pods_is_an_error
    (o : _ClusterStateObserver) (st : _ObservedClusterState) (pods : list Pod) :
  performed o LJobPods (runObserve o st) →
  listedJobPods o = Some pods →
  2 ≤ length pods →
  returns (runObserve o st) (Some (ErrorfJobPods pods))
  ∧ jobPod (observedOf (runObserve o st)) = jobPod st.
Proof.
  intros Hperf Hlist Hlen. unfold listedJobPods in Hlist.
  destruct (List_Pod _ _ _) as [[items]|] eqn:Epods; [|done].
  injection Hlist as ->. destruct pods as [|p1 [|p2 pods]]; [simpl in Hlen; lia..|].
  clear Hlen. revert Hperf. unfold performed, lookupCall.
  run_observe.
  all: cbn [traceOf returns observedOf]; intros Hperf;
    try solve [not_in Hperf].
  all: done.
Qed.

Ltac known_answer H :=
  cbn [answer errorOf] in H;
  unfold requestKey, clusterName in H;
  repeat match type of H with
         | context [errorOf ?g] =>
             match goal with E : g = _ |- _ => rewrite E in H end
         end;
  cbn [errorOf] in H.

Ltac known_following :=
  cbn [following]; unfold clusterHasJobSpec;
  repeat match goal with
         | E : ?g = _ |- context [match ?g with inl _ => _ | inr _ => _ end] => rewrite E
         | E : ?g = _ |- context [isSet ?g] => rewrite E
         end;
  cbn [isSet].

(** C9. A lookup of the pass that the gateway answers with not-found leaves
    its field of the observed state nil, and the pass goes on: it makes the
    lookup that follows, or returns nil when there is none. A lookup that
    the gateway answers with any other error makes [observe] return that
    error, and no later lookup is made. *)
Theorem not_found_is_absent_and_other_errors_abort
    (o : _ClusterStateObserver) (l : gatewayLookup) (err : error) :
  performed o l (runObserve o emptyObservedState) →
  answer o l = Some err →
  match client.IgnoreNotFound (Some err) with
  | None =>
      absent l (observedOf (runObserve o emptyObservedState))
      ∧ match following o l with
        | Some l' => performed o l' (runObserve o emptyObservedState)
        | None => returns (runObserve o emptyObservedState) None
        end
  | Some _ =>
      returns (runObserve o emptyObservedState) (Some err)
      ∧ ∀ l', rank l < rank l' → ¬ performed o l' (runObserve o emptyObservedState)
  end.
Proof.
  intros Hperf Hans. revert Hperf. unfold performed.
  run_observe.
  all: cbn [traceOf returns observedOf]; intros Hperf; destruct l;
    known_answer Hans; try discriminate Hans;
    first
      [ injection Hans as <-; cbn [client.IgnoreNotFound IgnoreNotFound]
      | cbn [lookupCall] in Hperf; unfold requestKey, clusterName in Hperf;
        solve [not_in Hperf] ].
  all: split; [reflexivity|].
  all: lazymatch goal with
       | |- ∀ l', _ =>
           intros l' Hrank Hl'; destruct l'; cbn [rank] in Hrank; try lia;
           cbn [lookupCall] in Hl'; unfold requestKey, clusterName in Hl';
           solve [not_in Hl']
       | |- _ =>
           known_following;
           first [reflexivity | cbn [lookupCall]; unfold requestKey, clusterName; solve [is_in]]
       end.
Qed.

Lemma length_0_empty (s : string) : ¬ 0 < String.length s → s = "".
Proof. destruct s; simpl; [done|lia]. Qed.

(** What the context of a leaf says about the recorded job identifier. *)
Ltac known_id H :=
  unfold recordedJobID in H;
  repeat match type of H with
         | context [match ?g with Some _ => _ | None => _ end] =>
             match goal with E : g = _ |- _ => rewrite E in H end
         end;
  try match goal with
      | N : ¬ 0 < String.length ?s |- _ => apply length_0_empty in N; try rewrite N in *
      end.

Ltac known_pods H :=
  unfold listedJobPods in H;
  repeat match type of H with
         | context [match ?g with inl _ => _ | inr _ => _ end] =>
             match goal with E : g = _ |- _ => rewrite E in H end
         end;
  cbn [PodList_Items] in H.

Ltac known_ui H :=
  unfold jmPorts in H;
  repeat match goal with
         | E : ?g = None |- _ =>
             match type of H with context [g] => rewrite E in H end
         end.

Lemma probed_hasProbe (x : execution) : probed x ↔ hasProbe (traceOf x) = true.
Proof.
  unfold probed, hasProbe. rewrite existsb_exists. split.
  - intros [url H]. exists (HttpGet url). by rewrite <-list_elem_of_In.
  - intros ([] & H & Hprobe); try discriminate Hprobe.
    eexists. by rewrite list_elem_of_In.
Qed.

Ltac rewrite_known :=
  repeat match goal with
         | E : ?g = _ |- context [match ?g with Some _ => _ | None => _ end] => rewrite E
         | E : ?g = _ |- context [match ?g with inl _ => _ | inr _ => _ end] => rewrite E
         end.

Ltac absurd_is_Some :=
  match goal with
  | H : is_Some None |- _ => destruct H as [? H]; discriminate H
  | H : is_Some ?g, E : ?g = None |- _ => rewrite E in H; destruct H as [? H]; discriminate H
  end.

Ltac absurd_id :=
  match goal with
  | H : ?s ≠ ?s |- _ => by destruct H
  | H : ?s = "", L : 0 < String.length ?s |- _ => rewrite H in L; simpl in L; lia
  end.

(** C4, as the Observer has it. In a pass on a fresh observed state: when no
    job identifier is recorded in the status of the observed cluster and its
    manager UI port is set, the prober is invoked if and only if the job
    resource was observed, the job-pod query lists exactly one pod, that pod
    is neither Pending nor Unknown, and the manager service was observed;
    when no cluster is observed the prober is not invoked; and when a job
    identifier is recorded the prober is not invoked, and a pass for a
    cluster with a JobSpec that returns nil has put the recorded identifier
    in [flinkJobID]. *)
Theorem probe_gating (o : _ClusterStateObserver) :
  (∀ c, cluster (observedOf (runObserve o emptyObservedState)) = Some c →
        recordedJobID c = "" →
        is_Some (JobManagerPorts_UI (jmPorts c)) →
        (probed (runObserve o emptyObservedState)
         ↔ is_Some (job (observedOf (runObserve o emptyObservedState)))
           ∧ (∃ pod, listedJobPods o = Some [pod] ∧ podStarted pod)
           ∧ is_Some (jmService (observedOf (runObserve o emptyObservedState)))))
  ∧ (cluster (observedOf (runObserve o emptyObservedState)) = None →
     ¬ probed (runObserve o emptyObservedState))
  ∧ (∀ c, cluster (observedOf (runObserve o emptyObservedState)) = Some c →
          recordedJobID c ≠ "" →
          ¬ probed (runObserve o emptyObservedState)
          ∧ (is_Some (FlinkClusterSpec_JobSpec (FlinkCluster_Spec c)) →
             returns (runObserve o emptyObservedState) None →
             flinkJobID (observedOf (runObserve o emptyObservedState))
             = Some (recordedJobID c))).
Proof.
  setoid_rewrite probed_hasProbe.
  run_observe.
  all: cbn [observedOf returns traceOf cluster job jmService flinkJobID hasProbe existsb orb];
    unfold podStarted; split; [|split].
  all: lazymatch goal with
       | |- ∀ c, _ = Some c → recordedJobID c = "" → _ =>
           intros c Hc Hid;
           first
             [ discriminate Hc
             | injection Hc as <-; known_id Hid; intros Hui; known_ui Hui; split;
               [ intros Hprobed;
                 first [ discriminate Hprobed
                       | split; [by eexists|]; split; [|by eexists];
                         eexists; split;
                         [unfold listedJobPods; rewrite_known; reflexivity|by split] ]
               | intros (Hjob & (pod & Hlist & Hp1 & Hp2) & Hsvc);
                 first [ reflexivity
                       | absurd_is_Some
                       | absurd_id
                       | known_pods Hlist; simplify_eq; contradiction ] ] ]
       | |- ∀ c, _ = Some c → recordedJobID c ≠ "" → _ =>
           intros c Hc Hid;
           first
             [ discriminate Hc
             | injection Hc as <-; known_id Hid; split;
               [ intros Hprobed; first [discriminate Hprobed | absurd_id]
               | intros Hjs Hret;
                 first [ discriminate Hret
                       | by destruct Hret
                       | absurd_is_Some
                       | absurd_id
                       | unfold recordedJobID; rewrite_known; reflexivity ] ] ]
       | |- _ = None → _ =>
           intros Hc Hprobed; first [discriminate Hc | discriminate Hprobed]
       end.
Qed.

Lemma several_job_pods_is_an_error_witness :
  performed (SampleWorld.observer Sample.running
               [SampleWorld.pod "Running"; SampleWorld.pod "Running"])
    LJobPods
    (runObserve (SampleWorld.observer Sample.running
                   [SampleWorld.pod "Running"; SampleWorld.pod "Running"])
       emptyObservedState)
  ∧ returns (runObserve (SampleWorld.observer Sample.running
                           [SampleWorld.pod "Running"; SampleWorld.pod "Running"])
               emptyObservedState)
      (Some (ErrorfJobPods [SampleWorld.pod "Running"; SampleWorld.pod "Running"]))
  ∧ jobPod (observedOf (runObserve (SampleWorld.observer Sample.running
                                      [SampleWorld.pod "Running"; SampleWorld.pod "Running"])
                          emptyObservedState)) = None.
Proof.
  assert (Hperf : performed (SampleWorld.observer Sample.running
               [SampleWorld.pod "Running"; SampleWorld.pod "Running"])
    LJobPods
    (runObserve (SampleWorld.observer Sample.running
                   [SampleWorld.pod "Running"; SampleWorld.pod "Running"])
       emptyObservedState)).
  { unfold performed. vm_compute. is_in. }
  split; [exact Hperf|].
  apply (several_job_pods_is_an_error _ emptyObservedState
           [SampleWorld.pod "Running"; SampleWorld.pod "Running"] Hperf);
    [reflexivity|simpl; lia].
Defined.

Lemma not_found_is_absent_and_other_errors_abort_witness :
  performed SampleWorld.failingObserver LJmService
    (runObserve SampleWorld.failingObserver emptyObservedState)
  ∧ answer SampleWorld.failingObserver LJmService = Some (OtherError "connection refused")
  ∧ returns (runObserve SampleWorld.failingObserver emptyObservedState)
      (Some (OtherError "connection refused"))
  ∧ ¬ performed SampleWorld.failingObserver LTmDeployment
        (runObserve SampleWorld.failingObserver emptyObservedState).
Proof.
  assert (Hperf : performed SampleWorld.failingObserver LJmService
    (runObserve SampleWorld.failingObserver emptyObservedState)).
  { unfold performed. vm_compute. is_in. }
  split; [exact Hperf|]. split; [reflexivity|].
  destruct (not_found_is_absent_and_other_errors_abort SampleWorld.failingObserver
              LJmService (OtherError "connection refused") Hperf eq_refl) as [Hret Hlater].
  split; [exact Hret|]. apply Hlater. simpl. lia.
Defined.

Lemma probe_gating_witness :
  cluster (observedOf (runObserve (SampleWorld.observer Sample.running
                                     [SampleWorld.pod "Running"]) emptyObservedState))
  = Some Sample.running
  ∧ recordedJobID Sample.running = ""
  ∧ probed (runObserve (SampleWorld.observer Sample.running [SampleWorld.pod "Running"])
              emptyObservedState).
Proof.
  split; [reflexivity|]. split; [reflexivity|].
  destruct (probe_gating (SampleWorld.observer Sample.running [SampleWorld.pod "Running"]))
    as (H & _ & _).
  apply (H Sample.running); [reflexivity|reflexivity|by eexists|].
  split; [by eexists|]. split; [|by eexists].
  exists (SampleWorld.pod "Running"). split; [reflexivity|]. by split.
Defined.

(** With a job identifier recorded, the job resource, one running pod and
    the manager service are all there and the prober is not invoked. *)
Lemma recorded_identifier_stops_the_prober :
  recordedJobID SampleWorld.identified = "2f3a5c"
  ∧ is_Some (job (observedOf (runObserve (SampleWorld.observer SampleWorld.identified
                                             [SampleWorld.pod "Running"])
                                 emptyObservedState)))
  ∧ listedJobPods (SampleWorld.observer SampleWorld.identified [SampleWorld.pod "Running"])
    = Some [SampleWorld.pod "Running"]
  ∧ podStarted (SampleWorld.pod "Running")
  ∧ is_Some (jmService (observedOf (runObserve (SampleWorld.observer SampleWorld.identified
                                                  [SampleWorld.pod "Running"])
                                      emptyObservedState)))
  ∧ ¬ probed (runObserve (SampleWorld.observer SampleWorld.identified
                            [SampleWorld.pod "Running"]) emptyObservedState).
Proof.
  split; [reflexivity|]. split; [by eexists|]. split; [reflexivity|].
  split; [by split|]. split; [by eexists|].
  intros [url H]. vm_compute in H. not_in H.
Qed.

(** With the job resource, one running pod and the manager service there,
    and no job identifier recorded, a nil manager UI port makes the pass
    panic when it builds the URL of the prober, which is not invoked. *)
Example observe_panics_without_ui_port :
  ∃ st t,
    runObserve (SampleWorld.observer Sample.portless [SampleWorld.pod "Running"])
      emptyObservedState = Panics NilDereference st t
    ∧ hasProbe t = false.
Proof. eexists _, _. split; [vm_compute; reflexivity|reflexivity]. Qed.

(** With the manager UI port -1 the prober is invoked, with a URL that
    [http.NewRequest] rejects, and the pass panics on the nil request. *)
Example observe_panics_on_rejected_url :
  ∃ st t,
    runObserve (SampleWorld.strictObserver Sample.negativePort [SampleWorld.pod "Running"])
      emptyObservedState = Panics NilDereference st t
    ∧ HttpGet "http://flinkjobcluster-sample-jobmanager.default.svc.cluster.local:-1/jobs" ∈ t
    ∧ SampleWorld.netHttp "http://flinkjobcluster-sample-jobmanager.default.svc.cluster.local:-1/jobs"
      = NewRequestError "invalid port".
Proof.
  eexists _, _. split; [vm_compute; reflexivity|]. split; [is_in|reflexivity].
Qed.

(** C4 fails as stated, on two inputs. For the sample cluster without
    manager ports no job identifier is recorded, the job resource and the
    manager service are observed and the job-pod query lists one running
    pod, and the prober is not invoked: the pass panics on the nil UI port
    when it builds the URL. For the session cluster with a job identifier
    recorded in its status the prober is not invoked, the pass returns nil,
    and the identifier is not reused: no job identifier is observed. *)
Lemma probe_gating_needs_ui_port_and_job_spec :
  (cluster (observedOf (runObserve (SampleWorld.observer Sample.portless
                                      [SampleWorld.pod "Running"]) emptyObservedState))
   = Some Sample.portless
   ∧ recordedJobID Sample.portless = ""
   ∧ is_Some (job (observedOf (runObserve (SampleWorld.observer Sample.portless
                                             [SampleWorld.pod "Running"])
                                 emptyObservedState)))
   ∧ listedJobPods (SampleWorld.observer Sample.portless [SampleWorld.pod "Running"])
     = Some [SampleWorld.pod "Running"]
   ∧ podStarted (SampleWorld.pod "Running")
   ∧ is_Some (jmService (observedOf (runObserve (SampleWorld.observer Sample.portless
                                                   [SampleWorld.pod "Running"])
                                       emptyObservedState)))
   ∧ ¬ probed (runObserve (SampleWorld.observer Sample.portless
                             [SampleWorld.pod "Running"]) emptyObservedState)
   ∧ panics (runObserve (SampleWorld.observer Sample.portless
                           [SampleWorld.pod "Running"]) emptyObservedState)
       NilDereference)
  ∧ (cluster (observedOf (runObserve (SampleWorld.observer SampleWorld.identifiedSession
                                        [SampleWorld.pod "Running"]) emptyObservedState))
     = Some SampleWorld.identifiedSession
     ∧ recordedJobID SampleWorld.identifiedSession = "2f3a5c"
     ∧ ¬ probed (runObserve (SampleWorld.observer SampleWorld.identifiedSession
                               [SampleWorld.pod "Running"]) emptyObservedState)
     ∧ returns (runObserve (SampleWorld.observer SampleWorld.identifiedSession
                              [SampleWorld.pod "Running"]) emptyObservedState) None
     ∧ flinkJobID (observedOf (runObserve (SampleWorld.observer SampleWorld.identifiedSession
                                             [SampleWorld.pod "Running"])
                                 emptyObservedState)) = None).
Proof.
  split.
  - split; [reflexivity|]. split; [reflexivity|]. split; [by eexists|].
    split; [reflexivity|]. split; [by split|]. split; [by eexists|].
    split; [|reflexivity]. intros [url H]. vm_compute in H. not_in H.
  - split; [reflexivity|]. split; [reflexivity|].
    split; [|by split]. intros [url H]. vm_compute in H. not_in H.
Qed.

(** * Further properties

    ** The Converter *)

(** The desired state is made of what the four conversions return. *)
Lemma getDesiredClusterState_parts (o : MapRanges) (c : FlinkCluster)
    (ds : _DesiredClusterState) :
  getDesiredClusterState o (Some c) = Ok ds →
  getDesiredJobManagerDeployment (jmRange o) c = Ok (DesiredClusterState_JmDeployment ds)
  ∧ getDesiredJobManagerService c = Ok (DesiredClusterState_JmService ds)
  ∧ getDesiredTaskManagerDeployment (tmRange o) c = Ok (DesiredClusterState_TmDeployment ds)
  ∧ getDesiredJob c = Ok (DesiredClusterState_Job ds).
Proof.
  unfold getDesiredClusterState.
  destruct (getDesiredJobManagerDeployment _ c); [|done].
  destruct (getDesiredJobManagerService c); [|done].
  destruct (getDesiredTaskManagerDeployment _ c); [|done].
  destruct (getDesiredJob c); [|done].
  simpl. by intros [= <-].
Qed.

Ltac result_steps H := cbn [deref mbind result_bind mret result_ret] in H.

(** What a conversion that returns a resource has read and made. *)
Lemma getDesiredJobManagerDeployment_inv range (c : FlinkCluster) (d : Deployment) :
  getDesiredJobManagerDeployment range c = Ok (Some d) →
  ¬ stoppingOrStopped c
  ∧ ∃ rpc blob query ui container,
      JobManagerPorts_RPC (jmPorts c) = Some rpc
      ∧ JobManagerPorts_Blob (jmPorts c) = Some blob
      ∧ JobManagerPorts_Query (jmPorts c) = Some query
      ∧ JobManagerPorts_UI (jmPorts c) = Some ui
      ∧ Deployment_ObjectMeta d
        = childMeta c (getJobManagerDeploymentName (ObjectMeta_Name (FlinkCluster_ObjectMeta c)))
            (managerLabels c) ∅
      ∧ DeploymentSpec_Selector (Deployment_Spec d)
        = Some {| LabelSelector_MatchLabels := managerLabels c |}
      ∧ deploymentPodLabels d = managerLabels c
      ∧ deploymentContainers d = [container]
      ∧ Container_Ports container
        = [ {| ContainerPort_Name := "rpc"; ContainerPort_ContainerPort := rpc |};
            {| ContainerPort_Name := "blob"; ContainerPort_ContainerPort := blob |};
            {| ContainerPort_Name := "query"; ContainerPort_ContainerPort := query |};
            {| ContainerPort_Name := "ui"; ContainerPort_ContainerPort := ui |} ]
      ∧ Container_Env container
        = [ plainEnvVar "JOB_MANAGER_RPC_ADDRESS"
              (getJobManagerDeploymentName (ObjectMeta_Name (FlinkCluster_ObjectMeta c)));
            limitEnvVar "JOB_MANAGER_CPU_LIMIT" (Container_Name container) "limits.cpu" "1m";
            limitEnvVar "JOB_MANAGER_MEMORY_LIMIT" (Container_Name container)
              "limits.memory" "1Mi";
            plainEnvVar "FLINK_PROPERTIES"
              (getFlinkProperties range
                 (FlinkClusterSpec_FlinkProperties (FlinkCluster_Spec c))) ]
          ++ FlinkClusterSpec_EnvVars (FlinkCluster_Spec c).
Proof.
  intros H. unfold getDesiredJobManagerDeployment in H. fold (jmPorts c) in H.
  fold (stoppingOrStopped c) in H.
  destruct (decide (stoppingOrStopped c)) as [|Hrun]; [done|]. split; [done|].
  destruct (JobManagerPorts_RPC (jmPorts c)) as [rpc|]; [|done].
  destruct (JobManagerPorts_Blob (jmPorts c)) as [blob|]; [|done].
  destruct (JobManagerPorts_Query (jmPorts c)) as [query|]; [|done].
  destruct (JobManagerPorts_UI (jmPorts c)) as [ui|]; [|done].
  result_steps H. injection H as <-.
  by eexists rpc, blob, query, ui, _.
Qed.

Lemma getDesiredJobManagerService_inv (c : FlinkCluster) (service : Service) :
  getDesiredJobManagerService c = Ok (Some service) →
  ¬ stoppingOrStopped c
  ∧ knownScope c
  ∧ ∃ rpc blob query ui annotations,
      JobManagerPorts_RPC (jmPorts c) = Some rpc
      ∧ JobManagerPorts_Blob (jmPorts c) = Some blob
      ∧ JobManagerPorts_Query (jmPorts c) = Some query
      ∧ JobManagerPorts_UI (jmPorts c) = Some ui
      ∧ Service_ObjectMeta service
        = childMeta c (getJobManagerServiceName (ObjectMeta_Name (FlinkCluster_ObjectMeta c)))
            (managerLabels c) annotations
      ∧ ServiceSpec_Selector (Service_Spec service) = managerLabels c
      ∧ ServiceSpec_Ports (Service_Spec service)
        = [ {| ServicePort_Name := "rpc"; ServicePort_Port := rpc;
               ServicePort_TargetPort := intstr.FromString "rpc" |};
            {| ServicePort_Name := "blob"; ServicePort_Port := blob;
               ServicePort_TargetPort := intstr.FromString "blob" |};
            {| ServicePort_Name := "query"; ServicePort_Port := query;
               ServicePort_TargetPort := intstr.FromString "query" |};
            {| ServicePort_Name := "ui"; ServicePort_Port := ui;
               ServicePort_TargetPort := intstr.FromString "ui" |} ].
Proof.
  intros H. unfold getDesiredJobManagerService in H. fold (jmPorts c) in H.
  fold (stoppingOrStopped c) in H. fold (accessScope c) in H.
  destruct (decide (stoppingOrStopped c)) as [|Hrun]; [done|]. split; [done|].
  destruct (JobManagerPorts_RPC (jmPorts c)) as [rpc|]; [|done].
  destruct (JobManagerPorts_Blob (jmPorts c)) as [blob|]; [|done].
  destruct (JobManagerPorts_Query (jmPorts c)) as [query|]; [|done].
  destruct (JobManagerPorts_UI (jmPorts c)) as [ui|]; [|done].
  result_steps H. unfold knownScope.
  destruct (decide (accessScope c = AccessScope.Cluster)) as [Hs|_];
    [|destruct (decide (accessScope c = AccessScope.VPC)) as [Hs|_];
      [|destruct (decide (accessScope c = AccessScope.External)) as [Hs|_]; [|done]]].
  all: result_steps H; injection H as <-; split; [tauto|].
  all: by eexists rpc, blob, query, ui, _.
Qed.

Lemma getDesiredTaskManagerDeployment_inv range (c : FlinkCluster) (d : Deployment) :
  getDesiredTaskManagerDeployment range c = Ok (Some d) →
  ¬ stoppingOrStopped c
  ∧ ∃ data rpc query container,
      TaskManagerPorts_Data (tmPorts c) = Some data
      ∧ TaskManagerPorts_RPC (tmPorts c) = Some rpc
      ∧ TaskManagerPorts_Query (tmPorts c) = Some query
      ∧ Deployment_ObjectMeta d
        = childMeta c (getTaskManagerDeploymentName (ObjectMeta_Name (FlinkCluster_ObjectMeta c)))
            (workerLabels c) ∅
      ∧ DeploymentSpec_Selector (Deployment_Spec d)
        = Some {| LabelSelector_MatchLabels := workerLabels c |}
      ∧ deploymentPodLabels d = workerLabels c
      ∧ deploymentContainers d
        = container :: TaskManagerSpec_Sidecars
                         (FlinkClusterSpec_TaskManagerSpec (FlinkCluster_Spec c))
      ∧ Container_Ports container
        = [ {| ContainerPort_Name := "data"; ContainerPort_ContainerPort := data |};
            {| ContainerPort_Name := "rpc"; ContainerPort_ContainerPort := rpc |};
            {| ContainerPort_Name := "query"; ContainerPort_ContainerPort := query |} ]
      ∧ Container_Env container
        = [ plainEnvVar "JOB_MANAGER_RPC_ADDRESS"
              (getJobManagerDeploymentName (ObjectMeta_Name (FlinkCluster_ObjectMeta c)));
            limitEnvVar "TASK_MANAGER_CPU_LIMIT" (Container_Name container) "limits.cpu" "1m";
            limitEnvVar "TASK_MANAGER_MEMORY_LIMIT" (Container_Name container)
              "limits.memory" "1Mi";
            plainEnvVar "FLINK_PROPERTIES"
              (getFlinkProperties range
                 (FlinkClusterSpec_FlinkProperties (FlinkCluster_Spec c))) ]
          ++ FlinkClusterSpec_EnvVars (FlinkCluster_Spec c).
Proof.
  intros H. unfold getDesiredTaskManagerDeployment in H. fold (tmPorts c) in H.
  fold (stoppingOrStopped c) in H.
  destruct (decide (stoppingOrStopped c)) as [|Hrun]; [done|]. split; [done|].
  destruct (TaskManagerPorts_Data (tmPorts c)) as [data|]; [|done].
  destruct (TaskManagerPorts_RPC (tmPorts c)) as [rpc|]; [|done].
  destruct (TaskManagerPorts_Query (tmPorts c)) as [query|]; [|done].
  result_steps H. injection H as <-.
  by eexists data, rpc, query, _.
Qed.

Lemma getDesiredJob_inv (c : FlinkCluster) (j : batchv1.Job) :
  getDesiredJob c = Ok (Some j) →
  ∃ js ui rp container,
    FlinkClusterSpec_JobSpec (FlinkCluster_Spec c) = Some js
    ∧ JobManagerPorts_UI (jmPorts c) = Some ui
    ∧ JobSpec_RestartPolicy js = Some rp
    ∧ batchv1.Job_ObjectMeta j
      = childMeta c (getJobName (ObjectMeta_Name (FlinkCluster_ObjectMeta c)))
          {[ "cluster" := ObjectMeta_Name (FlinkCluster_ObjectMeta c); "app" := "flink" ]} ∅
    ∧ jobPodTemplateLabels j
      = {[ "cluster" := ObjectMeta_Name (FlinkCluster_ObjectMeta c); "app" := "flink" ]}
    ∧ PodSpec_RestartPolicy
        (PodTemplateSpec_Spec (batchv1.JobSpec_Template (batchv1.Job_Spec j))) = rp
    ∧ jobContainers j = [container].
Proof.
  intros H. unfold getDesiredJob in H.
  destruct (FlinkClusterSpec_JobSpec (FlinkCluster_Spec c)) as [js|] eqn:Hjs; [|done].
  fold (jmPorts c) in H.
  destruct (JobManagerPorts_UI (jmPorts c)) as [ui|] eqn:Hui; [|done].
  result_steps H.
  destruct (GoStrings.Contains (JobSpec_JarFile js) "://") eqn:Hjar.
  - destruct (Split_slash_last _ (Contains_scheme_slash _ Hjar))
      as (pre & dir & seg & E & Hdir & Hseg).
    rewrite E, index_last in H. result_steps H.
    destruct (JobSpec_RestartPolicy js) as [rp|] eqn:Hrp; [|done].
    result_steps H. injection H as <-.
    by eexists js, ui, rp, _.
  - result_steps H.
    destruct (JobSpec_RestartPolicy js) as [rp|] eqn:Hrp; [|done].
    result_steps H. injection H as <-.
    by eexists js, ui, rp, _.
Qed.

Lemma childMeta_ownedBy (c : FlinkCluster) name labels annotations :
  ownedBy c (childMeta c name labels annotations).
Proof. split; [done|]. by eexists. Qed.

(** X1. Every resource of a desired state lives in the namespace of the
    cluster and has exactly one owner reference: to the cluster, by its API
    version, kind, name and UID, as the controller, and without blocking the
    deletion of the owner. A desired state with a resource comes from a
    cluster that is there. *)
Theorem desired_resources_are_owned_by_the_cluster
    (o : MapRanges) (cluster : option FlinkCluster) (ds : _DesiredClusterState)
    (m : ObjectMeta) :
  getDesiredClusterState o cluster = Ok ds →
  m ∈ desiredMetas ds →
  ∃ c, cluster = Some c ∧ ownedBy c m.
Proof.
  intros Hds Hm. destruct cluster as [c|]; [|injection Hds as <-; by apply elem_of_nil in Hm].
  exists c. split; [done|].
  destruct (getDesiredClusterState_parts o c ds Hds) as (Hjm & Hsvc & Htm & Hjob).
  unfold desiredMetas in Hm. apply list_elem_of_omap in Hm as (x & Hx & Hm).
  cbn [id] in Hm. subst x. apply list_elem_of_In in Hx. cbn [In] in Hx.
  destruct Hx as [Hx|[Hx|[Hx|[Hx|[]]]]].
  - destruct (DesiredClusterState_JmDeployment ds) as [d|]; [|done]. injection Hx as <-.
    apply getDesiredJobManagerDeployment_inv in Hjm
      as (_ & rpc & blob & query & ui & k & _ & _ & _ & _ & -> & _).
    apply childMeta_ownedBy.
  - destruct (DesiredClusterState_JmService ds) as [d|]; [|done]. injection Hx as <-.
    apply getDesiredJobManagerService_inv in Hsvc
      as (_ & _ & rpc & blob & query & ui & a & _ & _ & _ & _ & -> & _).
    apply childMeta_ownedBy.
  - destruct (DesiredClusterState_TmDeployment ds) as [d|]; [|done]. injection Hx as <-.
    apply getDesiredTaskManagerDeployment_inv in Htm
      as (_ & data & rpc & query & k & _ & _ & _ & -> & _).
    apply childMeta_ownedBy.
  - destruct (DesiredClusterState_Job ds) as [d|]; [|done]. injection Hx as <-.
    apply getDesiredJob_inv in Hjob as (js & ui & rp & k & _ & _ & _ & -> & _).
    apply childMeta_ownedBy.
Qed.

Lemma desired_resources_are_owned_by_the_cluster_witness :
  ∃ ds m,
    getDesiredClusterState Sample.forward (Some Sample.running) = Ok ds
    ∧ m ∈ desiredMetas ds
    ∧ ObjectMeta_Name m = "flinkjobcluster-sample-jobmanager"
    ∧ ∃ c, Some Sample.running = Some c ∧ ownedBy c m.
Proof.
  eexists _, _. split; [reflexivity|]. split; [apply list_elem_of_here|].
  split; [reflexivity|].
  eapply (desired_resources_are_owned_by_the_cluster Sample.forward (Some Sample.running));
    [reflexivity|apply list_elem_of_here].
Defined.

Lemma getDesiredJob_is_Some (c : FlinkCluster) (r : option batchv1.Job) :
  getDesiredJob c = Ok r →
  (is_Some r ↔ is_Some (FlinkClusterSpec_JobSpec (FlinkCluster_Spec c))).
Proof.
  intros H. destruct r as [j|].
  - apply getDesiredJob_inv in H as (js & ui & rp & k & -> & _). by split; eexists.
  - destruct (FlinkClusterSpec_JobSpec (FlinkCluster_Spec c)) as [js|] eqn:Hjs.
    + exfalso.
      destruct (JobManagerPorts_UI (jmPorts c)) as [ui|] eqn:Hui;
        [|by rewrite (getDesiredJob_nil c js Hjs) in H; [|rewrite Hui]].
      destruct (JobSpec_RestartPolicy js) as [rp|] eqn:Hrp;
        [|by rewrite (getDesiredJob_nil c js Hjs) in H; [|rewrite Hui, Hrp]].
      destruct (getDesiredJob_some c js ui rp Hjs Hui Hrp) as (job & _ & _ & E & _).
      congruence.
    + split; intros [? [=]].
Qed.

(** The manager deployment, the manager service and the worker deployment
    of a desired state are there for a cluster that is not stopped, and for
    no other. *)
Lemma getDesiredClusterState_components
    (o : MapRanges) (c : FlinkCluster) (ds : _DesiredClusterState) :
  getDesiredClusterState o (Some c) = Ok ds →
  if decide (stoppingOrStopped c)
  then DesiredClusterState_JmDeployment ds = None
       ∧ DesiredClusterState_JmService ds = None
       ∧ DesiredClusterState_TmDeployment ds = None
  else is_Some (DesiredClusterState_JmDeployment ds)
       ∧ is_Some (DesiredClusterState_JmService ds)
       ∧ is_Some (DesiredClusterState_TmDeployment ds).
Proof.
  intros Hds.
  destruct (getDesiredClusterState_parts o c ds Hds) as (Hjm & Hsvc & Htm & Hjob).
  destruct (decide (stoppingOrStopped c)) as [Hstop|Hrun].
  - rewrite getDesiredJobManagerDeployment_stopped in Hjm by done.
    rewrite getDesiredJobManagerService_stopped in Hsvc by done.
    rewrite getDesiredTaskManagerDeployment_stopped in Htm by done.
    by injection Hjm as <-; injection Hsvc as <-; injection Htm as <-.
  - destruct (jmPortsSet c) eqn:Ejm;
      [|by rewrite getDesiredJobManagerDeployment_nil in Hjm].
    destruct (tmPortsSet c) eqn:Etm;
      [|by rewrite getDesiredTaskManagerDeployment_nil in Htm].
    destruct (decide (knownScope c)) as [Hscope|Hscope];
      [|by rewrite getDesiredJobManagerService_unknown in Hsvc].
    destruct (getDesiredJobManagerDeployment_running (jmRange o) c Hrun Ejm)
      as (jm & _ & E1 & _).
    destruct (getDesiredJobManagerService_known c Hrun Ejm Hscope) as (svc & E2 & _).
    destruct (getDesiredTaskManagerDeployment_running (tmRange o) c Hrun Etm)
      as (tm & _ & E3 & _).
    rewrite E1 in Hjm. rewrite E2 in Hsvc. rewrite E3 in Htm.
    injection Hjm as <-; injection Hsvc as <-; injection Htm as <-. by repeat split.
Qed.

(** X2. In a desired state the manager deployment, the manager service and
    the worker deployment come together: all three are null when the cluster
    is absent, Stopping or Stopped, and none of them is otherwise. The job
    is there exactly when the cluster has a JobSpec. *)
Theorem manager_service_and_workers_come_together
    (o : MapRanges) (cluster : option FlinkCluster) (ds : _DesiredClusterState) :
  getDesiredClusterState o cluster = Ok ds →
  (absentOrStopped cluster
   ∧ DesiredClusterState_JmDeployment ds = None
   ∧ DesiredClusterState_JmService ds = None
   ∧ DesiredClusterState_TmDeployment ds = None
   ∨ ¬ absentOrStopped cluster
     ∧ is_Some (DesiredClusterState_JmDeployment ds)
     ∧ is_Some (DesiredClusterState_JmService ds)
     ∧ is_Some (DesiredClusterState_TmDeployment ds))
  ∧ (is_Some (DesiredClusterState_Job ds) ↔ is_Some (jobSpecOf cluster)).
Proof.
  intros Hds. destruct cluster as [c|].
  - split.
    + pose proof (getDesiredClusterState_components o c ds Hds) as H.
      cbn [absentOrStopped]. destruct (decide (stoppingOrStopped c)); [by left|by right].
    + destruct (getDesiredClusterState_parts o c ds Hds) as (_ & _ & _ & Hjob).
      by apply getDesiredJob_is_Some.
  - injection Hds as <-. split; [by left|]. split; intros [? [=]].
Qed.

Lemma manager_service_and_workers_come_together_witness :
  ∃ ds,
    getDesiredClusterState Sample.forward (Some Sample.running) = Ok ds
    ∧ is_Some (DesiredClusterState_JmDeployment ds)
    ∧ is_Some (DesiredClusterState_JmService ds)
    ∧ is_Some (DesiredClusterState_TmDeployment ds)
    ∧ is_Some (DesiredClusterState_Job ds).
Proof.
  eexists. split; [reflexivity|].
  destruct (manager_service_and_workers_come_together Sample.forward (Some Sample.running)
              _ eq_refl) as [[(Hstop & _)|(_ & Hjm & Hsvc & Htm)] Hjob].
  - by destruct Hstop.
  - split; [exact Hjm|]. split; [exact Hsvc|]. split; [exact Htm|].
    apply Hjob. by eexists.
Defined.

Lemma manager_component (c : FlinkCluster) : managerLabels c !! "component" = Some "jobmanager".
Proof. reflexivity. Qed.

Lemma worker_component (c : FlinkCluster) : workerLabels c !! "component" = Some "taskmanager".
Proof. reflexivity. Qed.

Lemma job_component (n : string) :
  ({[ "cluster" := n; "app" := "flink" ]} : gmap string string) !! "component" = None.
Proof. reflexivity. Qed.

(** X3. Each desired deployment selects the pods of its own template, and
    the desired manager service selects the pods of the manager deployment.
    The labels of the manager do not select the pods of the worker, nor
    those of the worker the pods of the manager, and neither selects the
    pods of the desired job. *)
Theorem selectors_match_the_pods_of_their_component
    (o : MapRanges) (c : FlinkCluster) (ds : _DesiredClusterState)
    (jm tm : Deployment) (service : Service) :
  getDesiredClusterState o (Some c) = Ok ds →
  DesiredClusterState_JmDeployment ds = Some jm →
  DesiredClusterState_JmService ds = Some service →
  DesiredClusterState_TmDeployment ds = Some tm →
  selectorOf jm = Some (deploymentPodLabels jm)
  ∧ selectorOf tm = Some (deploymentPodLabels tm)
  ∧ ServiceSpec_Selector (Service_Spec service) = deploymentPodLabels jm
  ∧ ¬ selects (deploymentPodLabels jm) (deploymentPodLabels tm)
  ∧ ¬ selects (deploymentPodLabels tm) (deploymentPodLabels jm)
  ∧ ∀ j, DesiredClusterState_Job ds = Some j →
      ¬ selects (deploymentPodLabels jm) (jobPodTemplateLabels j)
      ∧ ¬ selects (deploymentPodLabels tm) (jobPodTemplateLabels j).
Proof.
  intros Hds Ejm Esvc Etm.
  destruct (getDesiredClusterState_parts o c ds Hds) as (Hjm & Hsvc & Htm & Hjob).
  rewrite Ejm in Hjm. rewrite Esvc in Hsvc. rewrite Etm in Htm.
  apply getDesiredJobManagerDeployment_inv in Hjm
    as (_ & ? & ? & ? & ? & ? & _ & _ & _ & _ & _ & Hsel1 & Hpod1 & _).
  apply getDesiredJobManagerService_inv in Hsvc
    as (_ & _ & ? & ? & ? & ? & ? & _ & _ & _ & _ & _ & Hsel & _).
  apply getDesiredTaskManagerDeployment_inv in Htm
    as (_ & ? & ? & ? & ? & _ & _ & _ & _ & Hsel2 & Hpod2 & _).
  unfold selectorOf, selects.
  rewrite Hsel1, Hsel2, Hsel, Hpod1, Hpod2.
  split; [done|]. split; [done|]. split; [done|].
  split; [|split].
  - intros H. pose proof (lookup_weaken _ _ _ _ (manager_component c) H) as H'.
    by rewrite worker_component in H'.
  - intros H. pose proof (lookup_weaken _ _ _ _ (worker_component c) H) as H'.
    by rewrite manager_component in H'.
  - intros j Ej. rewrite Ej in Hjob.
    apply getDesiredJob_inv in Hjob as (? & ? & ? & ? & _ & _ & _ & _ & Hpod & _).
    rewrite Hpod. split.
    + intros H. pose proof (lookup_weaken _ _ _ _ (manager_component c) H) as H'.
      by rewrite job_component in H'.
    + intros H. pose proof (lookup_weaken _ _ _ _ (worker_component c) H) as H'.
      by rewrite job_component in H'.
Qed.

Lemma selectors_match_the_pods_of_their_component_witness :
  ∃ ds jm tm service,
    getDesiredClusterState Sample.forward (Some Sample.running) = Ok ds
    ∧ DesiredClusterState_JmDeployment ds = Some jm
    ∧ DesiredClusterState_JmService ds = Some service
    ∧ DesiredClusterState_TmDeployment ds = Some tm
    ∧ ServiceSpec_Selector (Service_Spec service) = deploymentPodLabels jm
    ∧ ¬ selects (deploymentPodLabels jm) (deploymentPodLabels tm).
Proof.
  eexists _, _, _, _. split; [reflexivity|]. split; [reflexivity|].
  split; [reflexivity|]. split; [reflexivity|].
  destruct (selectors_match_the_pods_of_their_component Sample.forward Sample.running
              _ _ _ _ eq_refl eq_refl eq_refl eq_refl) as (_ & _ & Hsvc & Hjm & _).
  split; [exact Hsvc|exact Hjm].
Defined.

(** X4. The desired manager service has one port for each port of the
    container of the desired manager deployment, in the same order: same
    name, same number, and the port of the container as its target, by
    name. The names of the ports are distinct. *)
Theorem service_ports_mirror_manager_ports
    (o : MapRanges) (c : FlinkCluster) (ds : _DesiredClusterState)
    (jm : Deployment) (service : Service) :
  getDesiredClusterState o (Some c) = Ok ds →
  DesiredClusterState_JmDeployment ds = Some jm →
  DesiredClusterState_JmService ds = Some service →
  ∃ container,
    deploymentContainers jm = [container]
    ∧ ServiceSpec_Ports (Service_Spec service) = servicePortOf <$> Container_Ports container
    ∧ NoDup (ContainerPort_Name <$> Container_Ports container).
Proof.
  intros Hds Ejm Esvc.
  destruct (getDesiredClusterState_parts o c ds Hds) as (Hjm & Hsvc & _).
  rewrite Ejm in Hjm. rewrite Esvc in Hsvc.
  apply getDesiredJobManagerDeployment_inv in Hjm
    as (_ & rpc & blob & query & ui & k & Hrpc & Hblob & Hquery & Hui & _ & _ & _ & Hk & Hports & _).
  apply getDesiredJobManagerService_inv in Hsvc
    as (_ & _ & ? & ? & ? & ? & ? & Hrpc' & Hblob' & Hquery' & Hui' & _ & _ & Hsp).
  exists k. split; [done|]. rewrite Hsp, Hports.
  simplify_eq. split; [reflexivity|].
  cbn. by apply (bool_decide_unpack _).
Qed.

Lemma service_ports_mirror_manager_ports_witness :
  ∃ ds jm service container,
    getDesiredClusterState Sample.forward (Some Sample.running) = Ok ds
    ∧ DesiredClusterState_JmDeployment ds = Some jm
    ∧ DesiredClusterState_JmService ds = Some service
    ∧ deploymentContainers jm = [container]
    ∧ ServiceSpec_Ports (Service_Spec service) = servicePortOf <$> Container_Ports container.
Proof.
  destruct (service_ports_mirror_manager_ports Sample.forward Sample.running
              _ _ _ eq_refl eq_refl eq_refl) as (container & Hone & Hports & _).
  eexists _, _, _, container. split; [reflexivity|]. split; [reflexivity|].
  split; [reflexivity|]. split; [exact Hone|exact Hports].
Defined.

(** X5. The manager is addressed by the name of its desired service: the
    first container of the manager deployment and of the worker deployment
    has JOB_MANAGER_RPC_ADDRESS, set to that name, as its first environment
    variable, and the desired job is submitted with --jobmanager followed by
    that name, a colon and the number of the port "ui" of the service. *)
Theorem manager_is_addressed_by_its_service
    (o : MapRanges) (c : FlinkCluster) (ds : _DesiredClusterState) (service : Service) :
  getDesiredClusterState o (Some c) = Ok ds →
  DesiredClusterState_JmService ds = Some service →
  (∀ d, DesiredClusterState_JmDeployment ds = Some d
        ∨ DesiredClusterState_TmDeployment ds = Some d →
        ∃ container,
          deploymentContainers d !! 0 = Some container
          ∧ Container_Env container !! 0
            = Some (plainEnvVar "JOB_MANAGER_RPC_ADDRESS"
                      (ObjectMeta_Name (Service_ObjectMeta service))))
  ∧ (∀ j, DesiredClusterState_Job ds = Some j →
          ∃ container port,
            jobContainers j = [container]
            ∧ {| ServicePort_Name := "ui"; ServicePort_Port := port;
                 ServicePort_TargetPort := intstr.FromString "ui" |}
              ∈ ServiceSpec_Ports (Service_Spec service)
            ∧ Container_Args container !! 2 = Some "--jobmanager"
            ∧ Container_Args container !! 3
              = Some (ObjectMeta_Name (Service_ObjectMeta service) +:+ ":" +:+ pretty port)).
Proof.
  intros Hds Esvc.
  destruct (getDesiredClusterState_parts o c ds Hds) as (Hjm & Hsvc & Htm & Hjob).
  rewrite Esvc in Hsvc.
  apply getDesiredJobManagerService_inv in Hsvc
    as (_ & _ & rpc & blob & query & ui & ? & _ & _ & _ & Hui & Hmeta & _ & Hports).
  rewrite Hmeta, Hports. cbn [childMeta ObjectMeta_Name]. split.
  - intros d [E|E].
    + rewrite E in Hjm.
      apply getDesiredJobManagerDeployment_inv in Hjm
        as (_ & ? & ? & ? & ? & k & _ & _ & _ & _ & _ & _ & _ & Hk & _ & Henv).
      exists k. rewrite Hk, Henv. done.
    + rewrite E in Htm.
      apply getDesiredTaskManagerDeployment_inv in Htm
        as (_ & ? & ? & ? & k & _ & _ & _ & _ & _ & _ & Hk & _ & Henv).
      exists k. rewrite Hk, Henv. done.
  - intros j E. rewrite E in Hjob.
    pose proof Hjob as Hinv.
    apply getDesiredJob_inv in Hinv as (js & ui' & rp & ? & Hjs & Hui' & Hrp & _).
    destruct (getDesiredJob_some c js ui' rp Hjs Hui' Hrp)
      as (j' & k & jarPath & E' & Hk & Hargs & _).
    assert (j' = j) as -> by congruence. assert (ui' = ui) as -> by congruence.
    exists k, ui. split; [done|]. split; [is_in|].
    rewrite Hargs. unfold getJobManagerServiceName. rewrite append_assoc. done.
Qed.

Lemma manager_is_addressed_by_its_service_witness :
  ∃ ds service j container,
    getDesiredClusterState Sample.forward (Some Sample.running) = Ok ds
    ∧ DesiredClusterState_JmService ds = Some service
    ∧ DesiredClusterState_Job ds = Some j
    ∧ jobContainers j = [container]
    ∧ ∃ port : Z,
        Container_Args container !! 3
        = Some (ObjectMeta_Name (Service_ObjectMeta service) +:+ ":" +:+ pretty port).
Proof.
  destruct (manager_is_addressed_by_its_service Sample.forward Sample.running
              _ _ eq_refl eq_refl) as [_ Hjob].
  destruct (Hjob _ eq_refl) as (container & port & Hone & Hport & _ & Haddr).
  eexists _, _, _, container. split; [reflexivity|]. split; [reflexivity|].
  split; [reflexivity|]. split; [exact Hone|]. exists port. exact Haddr.
Defined.

(** X6. The arguments of the container of a desired job are, in this
    order: the base command, --jobmanager with the name of the manager
    service and the UI port, --class with the entry class if one is set,
    --fromSavepoint with the savepoint if one is set, --allowNonRestoredState
    if that flag is set and true, --parallelism with the parallelism if one
    is set, --sysoutLogging if noLoggingToStdout is set and true, the jar
    argument, and the arguments of the user. *)
Theorem submission_command_line (c : FlinkCluster) (j : batchv1.Job) :
  getDesiredJob c = Ok (Some j) →
  ∃ js ui container jarPath,
    FlinkClusterSpec_JobSpec (FlinkCluster_Spec c) = Some js
    ∧ JobManagerPorts_UI (jmPorts c) = Some ui
    ∧ jobContainers j = [container]
    ∧ Container_Args container
      = submissionOptions
          (getJobManagerServiceName (ObjectMeta_Name (FlinkCluster_ObjectMeta c))
           +:+ ":" +:+ pretty ui) js
        ++ [jarPath] ++ JobSpec_Args js.
Proof.
  intros Hjob. pose proof Hjob as Hinv.
  apply getDesiredJob_inv in Hinv as (js & ui & rp & ? & Hjs & Hui & Hrp & _).
  destruct (getDesiredJob_some c js ui rp Hjs Hui Hrp)
    as (j' & k & jarPath & E' & Hk & Hargs & _).
  assert (j' = j) as -> by congruence.
  exists js, ui, k, jarPath. split; [done|]. split; [done|]. split; [done|].
  rewrite Hargs. unfold getJobManagerServiceName. by rewrite append_assoc.
Qed.

Lemma submission_command_line_witness :
  ∃ j container jarPath,
    getDesiredJob Sample.running = Ok (Some j)
    ∧ jobContainers j = [container]
    ∧ Container_Args container
      = submissionOptions "flinkjobcluster-sample-jobmanager:8081" Sample.wordCount
        ++ [jarPath] ++ ["--input"; "./README.txt"].
Proof.
  destruct (submission_command_line Sample.running _ eq_refl)
    as (js & ui & container & jarPath & Hjs & Hui & Hone & Hargs).
  injection Hjs as <-. injection Hui as <-.
  eexists _, container, jarPath. split; [reflexivity|]. split; [exact Hone|exact Hargs].
Defined.

(** X7. The computation of a desired state panics in two ways only: with a
    nil dereference, and then one of the pointers it reads is nil; or with
    the message about the access scope, and then the cluster is not stopped
    and its access scope is none of Cluster, VPC and External. Indexing the
    pieces of the jar file never panics, and for an absent cluster nothing
    does. *)
Theorem converter_panics_on_nil_pointers_and_unknown_scopes_only
    (o : MapRanges) (cluster : option FlinkCluster) (p : panic) :
  getDesiredClusterState o cluster = Panic p →
  ∃ c, cluster = Some c
    ∧ (p = NilDereference ∧ pointersSet c = false
       ∨ p = PanicMsg ("Unknown service access cope: " +:+ accessScope c)
         ∧ ¬ knownScope c ∧ ¬ stoppingOrStopped c).
Proof.
  intros H. destruct cluster as [c|]; [|done]. exists c. split; [done|].
  destruct (decide (stoppingOrStopped c)) as [Hstop|Hrun].
  - rewrite getDesiredClusterState_stopped in H by done. left.
    destruct (FlinkClusterSpec_JobSpec (FlinkCluster_Spec c)) as [js|] eqn:Hjs;
      [|by rewrite getDesiredJob_none in H].
    destruct (JobManagerPorts_UI (jmPorts c)) as [ui|] eqn:Hui.
    + destruct (JobSpec_RestartPolicy js) as [rp|] eqn:Hrp.
      * by destruct (getDesiredJob_some c js ui rp Hjs Hui Hrp) as (job & _ & _ & E & _);
          rewrite E in H.
      * rewrite (getDesiredJob_nil c js Hjs) in H by (by rewrite Hui, Hrp).
        injection H as <-. split; [done|].
        unfold pointersSet, restartPolicySet. rewrite Hjs, Hrp. apply andb_false_r.
    + rewrite (getDesiredJob_nil c js Hjs) in H by (by rewrite Hui).
      injection H as <-. split; [done|].
      unfold pointersSet, jmPortsSet. rewrite Hui. by rewrite !andb_false_r.
  - destruct (pointersSet c) eqn:Hset.
    + destruct (decide (knownScope c)) as [Hscope|Hscope].
      * by destruct (getDesiredClusterState_running o c Hrun Hset Hscope)
          as (? & ? & ? & _ & _ & _ & ? & _ & E); rewrite E in H.
      * right. apply andb_true_iff in Hset as [[Hjm _]%andb_true_iff _].
        unfold getDesiredClusterState in H.
        destruct (getDesiredJobManagerDeployment_running (jmRange o) c Hrun Hjm)
          as (jm & _ & E & _).
        rewrite E, getDesiredJobManagerService_unknown in H by done.
        by injection H as <-.
    + destruct (getDesiredClusterState_nil o c Hrun Hset) as [E|[Hscope E]];
        rewrite E in H; injection H as <-; [by left|by right].
Qed.

Lemma converter_panics_on_nil_pointers_and_unknown_scopes_only_witness :
  getDesiredClusterState Sample.forward (Some Sample.portless) = Panic NilDereference
  ∧ ∃ c, Some Sample.portless = Some c
      ∧ (NilDereference = NilDereference ∧ pointersSet c = false
         ∨ NilDereference = PanicMsg ("Unknown service access cope: " +:+ accessScope c)
           ∧ ¬ knownScope c ∧ ¬ stoppingOrStopped c).
Proof.
  split; [reflexivity|].
  apply (converter_panics_on_nil_pointers_and_unknown_scopes_only Sample.forward
           (Some Sample.portless) NilDereference eq_refl).
Defined.

(** X8. Whatever the order in which the property map is visited, the
    configuration blob is the concatenation of one line per entry of the
    map: its lines are those of the entries, each once, as many as the map
    has entries; the blob of the empty map is empty. *)
Theorem flink_properties_have_one_line_per_entry
    (range : mapRange) (properties : gmap string string) :
  validRange range →
  getFlinkProperties range properties
  = foldr String.append "" (flinkPropertyLines (range properties))
  ∧ flinkPropertyLines (range properties) ≡ₚ flinkPropertyLines (map_to_list properties)
  ∧ length (flinkPropertyLines (range properties)) = size properties
  ∧ (properties = ∅ → getFlinkProperties range properties = "").
Proof.
  intros Hrange. split; [apply getFlinkProperties_lines|]. split; [|split].
  - apply fmap_Permutation, Hrange.
  - unfold flinkPropertyLines. by rewrite length_fmap, (Hrange properties), length_map_to_list.
  - intros ->. rewrite getFlinkProperties_lines.
    pose proof (Hrange ∅) as H. rewrite map_to_list_empty in H.
    apply Permutation_nil_r in H. by rewrite H.
Qed.

Lemma flink_properties_have_one_line_per_entry_witness :
  validRange (jmRange Sample.backward)
  ∧ getFlinkProperties (jmRange Sample.backward) Sample.slots
    = "taskmanager.numberOfTaskSlots: 1" +:+ newline
  ∧ length (flinkPropertyLines (jmRange Sample.backward Sample.slots)) = 1.
Proof.
  pose proof backward_valid as [Hvalid _]. split; [exact Hvalid|].
  destruct (flink_properties_have_one_line_per_entry (jmRange Sample.backward) Sample.slots
              Hvalid) as (Hblob & _ & Hlen & _).
  split; [rewrite Hblob; reflexivity|]. rewrite Hlen. reflexivity.
Defined.

(** X9. The Converter reads the status of the cluster through one test
    only, whether the phase is Stopping or Stopped: two clusters with the
    same metadata and spec that agree on this test have the same desired
    state, whatever else their statuses say, so that a cluster in phase
    Failed is given the desired state of one in phase Running. The desired
    job does not depend on the status at all. *)
Theorem desired_state_reads_the_phase_only (o : MapRanges) (c c' : FlinkCluster) :
  FlinkCluster_TypeMeta c = FlinkCluster_TypeMeta c' →
  FlinkCluster_ObjectMeta c = FlinkCluster_ObjectMeta c' →
  FlinkCluster_Spec c = FlinkCluster_Spec c' →
  getDesiredJob c = getDesiredJob c'
  ∧ ((stoppingOrStopped c ↔ stoppingOrStopped c') →
     getDesiredClusterState o (Some c) = getDesiredClusterState o (Some c')).
Proof.
  destruct c as [tm om spec [state components]], c' as [tm' om' spec' [state' components']].
  cbn [FlinkCluster_TypeMeta FlinkCluster_ObjectMeta FlinkCluster_Spec].
  intros <- <- <-. split; [reflexivity|].
  unfold stoppingOrStopped.
  cbn [FlinkCluster_Status FlinkClusterStatus_State]. intros Hphase.
  unfold getDesiredClusterState, getDesiredJobManagerDeployment, getDesiredJobManagerService,
    getDesiredTaskManagerDeployment.
  cbn [FlinkCluster_Status FlinkClusterStatus_State].
  destruct (decide (state = ClusterState.Stopping ∨ state = ClusterState.Stopped)) as [H|H],
    (decide (state' = ClusterState.Stopping ∨ state' = ClusterState.Stopped)) as [H'|H'];
    try tauto; reflexivity.
Qed.

Lemma desired_state_reads_the_phase_only_witness :
  getDesiredClusterState Sample.forward
    (Some (Sample.flinkCluster ClusterState.Failed AccessScope.Cluster Sample.jmPortsAll
             Sample.tmPortsAll (Some Sample.wordCount) None Sample.slots))
  = getDesiredClusterState Sample.forward (Some Sample.running).
Proof.
  apply (desired_state_reads_the_phase_only Sample.forward
           (Sample.flinkCluster ClusterState.Failed AccessScope.Cluster Sample.jmPortsAll
              Sample.tmPortsAll (Some Sample.wordCount) None Sample.slots)
           Sample.running eq_refl eq_refl eq_refl).
  split; intros [H|H]; discriminate H.
Defined.

(** ** The Converter and the Observer *)

(** X10. From any state, the lookups of the manager deployment, the manager
    service, the worker deployment and the job by the Observer of a cluster
    each make one call to the gateway, for the namespace and name that the
    Converter gives to the desired resource of that cluster, hand back the
    answer of the gateway to that call and leave the observed state as it
    is; the two deployments have different names. *)
Theorem observer_looks_up_the_desired_resources
    (R : Type) (o : MapRanges) (c : FlinkCluster) (ds : _DesiredClusterState)
    (observer : _ClusterStateObserver) (s : obsState) :
  getDesiredClusterState o (Some c) = Ok ds →
  Request_NamespacedName (request observer) = keyOf (FlinkCluster_ObjectMeta c) →
  (∀ d, DesiredClusterState_JmDeployment ds = Some d →
        ∃ log,
          observeJobManagerDeployment (R := R) observer s
          = Continue (Get_Deployment (k8sClient observer) (keyOf (Deployment_ObjectMeta d)))
              {| observed := observed s;
                 trace := trace s
                          ++ GetCall KDeployment (keyOf (Deployment_ObjectMeta d)) :: log |}
          ∧ gatewayCalls log = [])
  ∧ (∀ v, DesiredClusterState_JmService ds = Some v →
          observeJobManagerService (R := R) observer s
          = Continue (Get_Service (k8sClient observer) (keyOf (Service_ObjectMeta v)))
              {| observed := observed s;
                 trace := trace s ++ [GetCall KService (keyOf (Service_ObjectMeta v))] |})
  ∧ (∀ d, DesiredClusterState_TmDeployment ds = Some d →
          ∃ log,
            observeTaskManagerDeployment (R := R) observer s
            = Continue (Get_Deployment (k8sClient observer) (keyOf (Deployment_ObjectMeta d)))
                {| observed := observed s;
                   trace := trace s
                            ++ GetCall KDeployment (keyOf (Deployment_ObjectMeta d)) :: log |}
            ∧ gatewayCalls log = [])
  ∧ (∀ j, DesiredClusterState_Job ds = Some j →
          observeJobResource (R := R) observer s
          = Continue (Get_Job (k8sClient observer) (keyOf (batchv1.Job_ObjectMeta j)))
              {| observed := observed s;
                 trace := trace s ++ [GetCall KJob (keyOf (batchv1.Job_ObjectMeta j))] |})
  ∧ (∀ jm tm, DesiredClusterState_JmDeployment ds = Some jm →
              DesiredClusterState_TmDeployment ds = Some tm →
              keyOf (Deployment_ObjectMeta jm) ≠ keyOf (Deployment_ObjectMeta tm)).
Proof.
  intros Hds Hreq.
  destruct (getDesiredClusterState_parts o c ds Hds) as (Hjm & Hsvc & Htm & Hjob).
  assert (Hdeployment : ∀ name component,
    ∃ log,
      observeDeployment (R := R) observer
        (ObjectMeta_Namespace (FlinkCluster_ObjectMeta c)) name component s
      = Continue (Get_Deployment (k8sClient observer)
                    {| NamespacedName_Namespace :=
                         ObjectMeta_Namespace (FlinkCluster_ObjectMeta c);
                       NamespacedName_Name := name |})
          {| observed := observed s;
             trace := trace s
                      ++ GetCall KDeployment
                           {| NamespacedName_Namespace :=
                                ObjectMeta_Namespace (FlinkCluster_ObjectMeta c);
                              NamespacedName_Name := name |} :: log |}
      ∧ gatewayCalls log = []).
  { intros name component. unfold observeDeployment, mbind, M_bind, mret, M_ret, emit.
    destruct (Get_Deployment _ _) as [d|e].
    - by exists [].
    - destruct (client.IgnoreNotFound (Some e)).
      + exists [LogError "Failed to get deployment"].
        cbn [observed trace]. by rewrite <-app_assoc.
      + exists [LogInfo "Deployment not found"].
        cbn [observed trace]. by rewrite <-app_assoc. }
  unfold observeJobManagerDeployment, observeTaskManagerDeployment,
    observeJobManagerService, observeJobResource.
  rewrite Hreq. cbn [keyOf NamespacedName_Namespace NamespacedName_Name].
  split; [|split; [|split; [|split]]].
  - intros d E. rewrite E in Hjm.
    apply getDesiredJobManagerDeployment_inv in Hjm
      as (_ & ? & ? & ? & ? & ? & _ & _ & _ & _ & -> & _).
    apply Hdeployment.
  - intros v E. rewrite E in Hsvc.
    by apply getDesiredJobManagerService_inv in Hsvc
      as (_ & _ & ? & ? & ? & ? & ? & _ & _ & _ & _ & -> & _).
  - intros d E. rewrite E in Htm.
    apply getDesiredTaskManagerDeployment_inv in Htm
      as (_ & ? & ? & ? & ? & _ & _ & _ & -> & _).
    apply Hdeployment.
  - intros j E. rewrite E in Hjob.
    by apply getDesiredJob_inv in Hjob as (? & ? & ? & ? & _ & _ & _ & -> & _).
  - intros jm tm E1 E2. rewrite E1 in Hjm. rewrite E2 in Htm.
    apply getDesiredJobManagerDeployment_inv in Hjm
      as (_ & ? & ? & ? & ? & ? & _ & _ & _ & _ & -> & _).
    apply getDesiredTaskManagerDeployment_inv in Htm
      as (_ & ? & ? & ? & ? & _ & _ & _ & -> & _).
    unfold keyOf, childMeta. cbn. intros [= H].
    symmetry in H. by apply deployment_names_differ in H.
Qed.

Lemma observer_looks_up_the_desired_resources_witness :
  ∃ ds j,
    getDesiredClusterState Sample.forward (Some Sample.running) = Ok ds
    ∧ Request_NamespacedName (request (SampleWorld.observer Sample.running []))
      = keyOf (FlinkCluster_ObjectMeta Sample.running)
    ∧ DesiredClusterState_Job ds = Some j
    ∧ observeJobResource (R := option error) (SampleWorld.observer Sample.running [])
        {| observed := emptyObservedState; trace := [] |}
      = Continue (inl SampleWorld.jobResource)
          {| observed := emptyObservedState;
             trace := [] ++ [GetCall KJob (keyOf (batchv1.Job_ObjectMeta j))] |}.
Proof.
  destruct (observer_looks_up_the_desired_resources (option error)
              Sample.forward Sample.running _
              (SampleWorld.observer Sample.running [])
              {| observed := emptyObservedState; trace := [] |} eq_refl eq_refl)
    as (_ & _ & _ & Hjob & _).
  eexists _, _. split; [reflexivity|]. split; [reflexivity|]. split; [reflexivity|].
  apply Hjob. reflexivity.
Defined.

(** X11. From any state, the Observer of a cluster lists the pods of the
    job by one call to the gateway, for the namespace of the desired job and
    the labels of the pod template of the desired job together with the
    label job-name, set to the name of the desired job; it hands back the
    answer of the gateway to that call and leaves the observed state as it
    is. *)
Theorem job_pod_query_selects_the_pods_of_the_desired_job
    (R : Type) (c : FlinkCluster) (j : batchv1.Job) (observer : _ClusterStateObserver)
    (s : obsState) :
  getDesiredJob c = Ok (Some j) →
  Request_NamespacedName (request observer) = keyOf (FlinkCluster_ObjectMeta c) →
  observeJobPods (R := R) observer s
  = Continue (List_Pod (k8sClient observer)
                (ObjectMeta_Namespace (batchv1.Job_ObjectMeta j))
                (<["job-name" := ObjectMeta_Name (batchv1.Job_ObjectMeta j)]>
                   (jobPodTemplateLabels j)))
      {| observed := observed s;
         trace := trace s
                  ++ [ListPodsCall (ObjectMeta_Namespace (batchv1.Job_ObjectMeta j))
                        (<["job-name" := ObjectMeta_Name (batchv1.Job_ObjectMeta j)]>
                           (jobPodTemplateLabels j))] |}.
Proof.
  intros Hjob Hreq.
  apply getDesiredJob_inv in Hjob as (? & ? & ? & ? & _ & _ & _ & Hmeta & Hpod & _).
  unfold observeJobPods, jobPodLabels. rewrite Hreq, Hmeta, Hpod.
  reflexivity.
Qed.

Lemma job_pod_query_selects_the_pods_of_the_desired_job_witness :
  ∃ j,
    getDesiredJob Sample.running = Ok (Some j)
    ∧ Request_NamespacedName (request (SampleWorld.observer Sample.running []))
      = keyOf (FlinkCluster_ObjectMeta Sample.running)
    ∧ observeJobPods (R := option error) (SampleWorld.observer Sample.running [])
        {| observed := emptyObservedState; trace := [] |}
      = Continue (inl {| PodList_Items := [] |})
          {| observed := emptyObservedState;
             trace := [] ++ [ListPodsCall "default"
                               (<["job-name" := "flinkjobcluster-sample-job"]>
                                  (jobPodTemplateLabels j))] |}.
Proof.
  eexists. split; [reflexivity|]. split; [reflexivity|].
  apply (job_pod_query_selects_the_pods_of_the_desired_job (option error) Sample.running _
           (SampleWorld.observer Sample.running [])
           {| observed := emptyObservedState; trace := [] |} eq_refl eq_refl).
Defined.

(** ** One pass of the Observer on a fresh observed state *)

(** What the context of a leaf of a symbolic run says about the answers of
    the gateway. *)
Ltac known_all :=
  repeat match goal with
         | E : ?g = _ |- context [match ?g with inl _ => _ | inr _ => _ end] => rewrite E
         | E : ?g = _ |- context [match ?g with Some _ => _ | None => _ end] => rewrite E
         | E : ?g = _ |- context [errorOf ?g] => rewrite E
         | E : ?g = _ |- context [held ?g] => rewrite E
         | E : ?g = _ |- context [isSet ?g] => rewrite E
         end.

Ltac known_here :=
  repeat match goal with
         | E : ?g = _ |- context [?g] => rewrite E
         end.

Ltac unfold_answers :=
  unfold lookupsDue, failure, failed, clusterHasJobSpec, listedJobPods;
  cbn [answer]; unfold requestKey, clusterName;
  known_all;
  cbn [errorOf held isSet negb client.IgnoreNotFound IgnoreNotFound PodList_Items].

(** Replaces [t] by its value at the leaf. *)
Ltac evaluate t :=
  let H := fresh "Hval" in
  eassert (t = _) as H by (unfold_answers; reflexivity);
  rewrite ?H; clear H.

Ltac due :=
  lazymatch goal with
  | |- context [lookupsDue ?o] =>
      unfold dueError, dueCluster, dueJmDeployment, dueJmService, dueTmDeployment,
        dueJob, dueJobPod;
      evaluate (lookupsDue o); evaluate (failure o); evaluate (clusterHasJobSpec o);
      evaluate (listedJobPods o);
      unfold requestKey, clusterName; known_all;
      cbn [held bool_decide decide_rel]
  end.

Ltac the_panic :=
  first
    [ reflexivity
    | split; [reflexivity|]; split; [reflexivity|]; split; [reflexivity|];
      eexists; split; [reflexivity|];
      first
        [ left; split; [unfold jmPorts; eassumption|reflexivity]
        | right; eexists _, _; split; [reflexivity|];
          split; [unfold jmPorts; eassumption|]; split; [reflexivity|];
          unfold rejected, jobsURL; known_here; reflexivity ] ].

Ltac the_probe :=
  lazymatch goal with
  | |- ∀ url, url ∈ [] → _ => intros ? Hurl; by apply elem_of_nil in Hurl
  | |- ∀ url, url ∈ [_] → _ =>
      intros ? ->%list_elem_of_singleton;
      eexists _, _, _; split; [reflexivity|]; split; [reflexivity|];
      split; [unfold jmPorts; eassumption|]; split; [reflexivity|];
      split; [reflexivity|]; split; [reflexivity|];
      unfold rejected, firstJobID; known_here;
      split; [by intros ?|]; split; [by intros ?|]; reflexivity
  end.

Ltac the_log :=
  split;
  [ lazymatch goal with
    | |- ∀ msg, msg ∈ [] → _ => intros ? Hmsg; by apply elem_of_nil in Hmsg
    | |- ∀ msg, msg ∈ _ → is_Some (Some _) ∨ _ => intros ? _; left; by eexists
    | |- ∀ msg, msg ∈ [_] → _ =>
        intros ? ->%list_elem_of_singleton; right; split; [reflexivity|];
        eexists; split; [apply list_elem_of_here|];
        unfold transportFailed; known_here; reflexivity
    end
  | split;
    [ lazymatch goal with
      | |- is_Some None → _ => intros [? [=]]
      | |- _ => intros _; discriminate
      end
    | lazymatch goal with
      | |- ∀ url, url ∈ [] → _ => intros ? Hurl; by apply elem_of_nil in Hurl
      | |- ∀ url, url ∈ [_] → _ =>
          intros ? ->%list_elem_of_singleton;
          unfold transportFailed; known_here;
          first [by intros ? | intros _; apply list_elem_of_here]
      end ] ].

Ltac the_id :=
  lazymatch goal with
  | |- ∀ id, None = Some id → _ => intros ? Hid; discriminate Hid
  | |- ∀ id, Some _ = Some id → _ =>
      intros ? [= <-];
      first
        [ left; eexists; split; [reflexivity|]; unfold recordedJobID; known_here;
          split; [reflexivity|];
          match goal with
          | L : 0 < String.length ?s |- ?s ≠ "" => intros N; rewrite N in L; simpl in L; lia
          end
        | right; eexists; split; [apply list_elem_of_here|];
          unfold firstJobID; known_here; reflexivity ]
  end.

(** One pass on a fresh observed state, along all its paths. *)
Lemma observe_fresh (o : _ClusterStateObserver) (x : execution) :
  x = runObserve o emptyObservedState →
  gatewayCalls (traceOf x) = lookupCall o <$> take (lookupsDue o) allLookups
  ∧ match x with
    | Returns r _ _ => r = dueError o
    | Panics p st t =>
        p = NilDereference ∧ dueError o = None ∧ lookupsDue o = 6
        ∧ ∃ c, cluster st = Some c
            ∧ (JobManagerPorts_UI (jmPorts c) = None ∧ probes t = []
               ∨ ∃ service ui,
                   jmService st = Some service
                   ∧ JobManagerPorts_UI (jmPorts c) = Some ui
                   ∧ probes t = [jobsURL service ui]
                   ∧ rejected (http o (jobsURL service ui)) = true)
    end
  ∧ (cluster (observedOf x) = dueCluster o
     ∧ jmDeployment (observedOf x) = dueJmDeployment o
     ∧ jmService (observedOf x) = dueJmService o
     ∧ tmDeployment (observedOf x) = dueTmDeployment o
     ∧ job (observedOf x) = dueJob o
     ∧ jobPod (observedOf x) = dueJobPod o)
  ∧ (clusterHasJobSpec o = false →
     flinkJobID (observedOf x) = None ∧ probes (traceOf x) = [])
  ∧ (∀ url, url ∈ probes (traceOf x) →
       ∃ service c ui,
         jmService (observedOf x) = Some service
         ∧ cluster (observedOf x) = Some c
         ∧ JobManagerPorts_UI (jmPorts c) = Some ui
         ∧ url = jobsURL service ui
         ∧ probes (traceOf x) = [url]
         ∧ lookupsDue o = 6
         ∧ (rejected (http o url) = true → panics x NilDereference)
         ∧ (rejected (http o url) = false → returns x None)
         ∧ flinkJobID (observedOf x) = firstJobID (http o url))
  ∧ ((∀ msg, msg ∈ loggedErrors (traceOf x) →
        is_Some (failure o)
        ∨ msg = "Failed to get Flink job ID."
          ∧ ∃ url, url ∈ probes (traceOf x) ∧ transportFailed (http o url) = true)
     ∧ (is_Some (failure o) → loggedErrors (traceOf x) ≠ [])
     ∧ (∀ url, url ∈ probes (traceOf x) → transportFailed (http o url) = true →
          "Failed to get Flink job ID." ∈ loggedErrors (traceOf x)))
  ∧ (∀ id, flinkJobID (observedOf x) = Some id →
       (∃ c, cluster (observedOf x) = Some c ∧ recordedJobID c = id ∧ id ≠ "")
       ∨ ∃ url, url ∈ probes (traceOf x) ∧ firstJobID (http o url) = Some id).
Proof.
  intros ->.
  run_observe.
  all: cbn [traceOf observedOf returns panics gatewayCalls List.filter isGatewayCall
            probes loggedErrors omap list_omap
            cluster jmDeployment jmService tmDeployment job jobPod flinkJobID].
  all: due.
  all: split; [reflexivity|].
  all: split; [the_panic|].
  all: split; [by repeat split|].
  all: split; [first [by intros _ | by intros [=]]|].
  all: split; [the_probe|].
  all: split; [the_log|].
  all: the_id.
Qed.

Lemma gatewayCalls_spec (e : event) (t : list event) :
  e ∈ gatewayCalls t ↔ e ∈ t ∧ isGatewayCall e = true.
Proof. unfold gatewayCalls. by rewrite !list_elem_of_In, filter_In. Qed.

Lemma lookup_in_take (n : nat) (l : gatewayLookup) :
  l ∈ take n allLookups ↔ rank l < n.
Proof.
  rewrite list_elem_of_In. unfold allLookups.
  do 6 (destruct n as [|n]; [destruct l; cbn; intuition (try discriminate; lia)|]).
  destruct l; cbn; intuition (try discriminate; lia).
Qed.

Lemma lookupCall_inj (o : _ClusterStateObserver) (l l' : gatewayLookup) :
  lookupCall o l = lookupCall o l' → l = l'.
Proof.
  destruct l, l'; cbn [lookupCall]; unfold requestKey; intros H; try done.
  - injection H as H. symmetry in H. by apply deployment_names_differ in H.
  - injection H as H. by apply deployment_names_differ in H.
Qed.

(** The lookups made are those that are due. *)
Lemma performed_due (o : _ClusterStateObserver) (l : gatewayLookup) :
  performed o l (runObserve o emptyObservedState) ↔ rank l < lookupsDue o.
Proof.
  destruct (observe_fresh o _ eq_refl) as (Hcalls & _).
  unfold performed. rewrite <-lookup_in_take. split.
  - intros H. assert (lookupCall o l ∈ gatewayCalls (traceOf (runObserve o emptyObservedState)))
      as Hin by (apply gatewayCalls_spec; split; [done|by destruct l]).
    rewrite Hcalls in Hin. apply list_elem_of_fmap in Hin as (l' & E & Hl').
    by apply lookupCall_inj in E as ->.
  - intros H. apply (list_elem_of_fmap_2 (lookupCall o)) in H. rewrite <-Hcalls in H.
    by apply gatewayCalls_spec in H as [H _].
Qed.

Lemma probes_spec (url : string) (t : list event) : url ∈ probes t ↔ HttpGet url ∈ t.
Proof.
  unfold probes. rewrite list_elem_of_omap. split.
  - intros (e & He & Heq). destruct e; try discriminate Heq. by injection Heq as ->.
  - intros H. by exists (HttpGet url).
Qed.

Lemma loggedErrors_spec (msg : string) (t : list event) :
  msg ∈ loggedErrors t ↔ LogError msg ∈ t.
Proof.
  unfold loggedErrors. rewrite list_elem_of_omap. split.
  - intros (e & He & Heq). destruct e; try discriminate Heq. by injection Heq as ->.
  - intros H. by exists (LogError msg).
Qed.

(** X12. A pass on a fresh observed state asks the gateway for the cluster,
    the manager deployment, the manager service, the worker deployment, the
    job and the pods of the job, in this order and each at most once, and
    nothing else: it stops after the first lookup that fails otherwise than
    by not-found, and after the fourth when the gateway holds no cluster
    with a JobSpec. *)
Theorem lookups_are_made_in_order_up_to_the_first_failure (o : _ClusterStateObserver) :
  gatewayCalls (traceOf (runObserve o emptyObservedState))
  = lookupCall o <$> take (lookupsDue o) allLookups
  ∧ ∀ l, performed o l (runObserve o emptyObservedState) ↔ rank l < lookupsDue o.
Proof.
  split; [by destruct (observe_fresh o _ eq_refl) as (Hcalls & _)|].
  apply performed_due.
Qed.

Lemma failure_not_found (o : _ClusterStateObserver) :
  client.IgnoreNotFound (failure o) = failure o.
Proof.
  unfold failure, failed.
  repeat match goal with
         | |- context [isSet (client.IgnoreNotFound (answer o ?l))] =>
             destruct (answer o l) as [[]|]; cbn [client.IgnoreNotFound isSet]; try done
         end.
  all: by destruct (negb _).
Qed.

Lemma dueError_not_found (o : _ClusterStateObserver) :
  client.IgnoreNotFound (dueError o) = dueError o.
Proof.
  unfold dueError. pose proof (failure_not_found o) as H.
  destruct (failure o) as [e|]; [done|].
  destruct (clusterHasJobSpec o); [|done].
  by destruct (listedJobPods o) as [[|? [|? ?]]|].
Qed.

(** X13. What a pass on a fresh observed state returns is the error of the
    first lookup that fails otherwise than by not-found; without such a
    failure, and for a cluster with a JobSpec, the error about the pods when
    the query lists more than one; and nil otherwise. It never returns a
    not-found error, and a pass that is due an error returns it. *)
Theorem observe_returns_the_first_failure (o : _ClusterStateObserver) :
  (∀ r, returns (runObserve o emptyObservedState) r →
        r = dueError o ∧ client.IgnoreNotFound r = r)
  ∧ (is_Some (dueError o) → returns (runObserve o emptyObservedState) (dueError o)).
Proof.
  destruct (observe_fresh o _ eq_refl) as (_ & Hret & _).
  destruct (runObserve o emptyObservedState) as [r st t|p st t]; cbn [returns].
  - split; [|done]. intros ? <-. split; [done|]. rewrite Hret. apply dueError_not_found.
  - split; [done|]. destruct Hret as (_ & -> & _). by intros [? [=]].
Qed.

(** X14. After a pass on a fresh observed state, whether it returns nil,
    returns an error or panics, the field of each lookup that was due holds
    what the gateway holds, nil when the gateway does not hold it or fails,
    and the fields of the other lookups are nil; the pod is the one the
    query lists when it lists exactly one. *)
Theorem observed_state_is_what_the_gateway_holds (o : _ClusterStateObserver) :
  cluster (observedOf (runObserve o emptyObservedState)) = dueCluster o
  ∧ jmDeployment (observedOf (runObserve o emptyObservedState)) = dueJmDeployment o
  ∧ jmService (observedOf (runObserve o emptyObservedState)) = dueJmService o
  ∧ tmDeployment (observedOf (runObserve o emptyObservedState)) = dueTmDeployment o
  ∧ job (observedOf (runObserve o emptyObservedState)) = dueJob o
  ∧ jobPod (observedOf (runObserve o emptyObservedState)) = dueJobPod o.
Proof. by destruct (observe_fresh o _ eq_refl) as (_ & _ & H & _). Qed.

(** X15. A pass on a fresh observed state panics in two ways only, each
    with a nil dereference after all six lookups were made without an error
    to return: for an observed cluster whose manager UI port is nil, before
    the prober is invoked; or in the prober, invoked once with the URL made
    of the observed manager service and of the manager UI port of the
    observed cluster, when [http.NewRequest] rejects that URL. *)
Theorem observer_panics_on_nil_ui_port_or_rejected_url
    (o : _ClusterStateObserver) (p : panic) (st : _ObservedClusterState) (t : list event) :
  runObserve o emptyObservedState = Panics p st t →
  p = NilDereference
  ∧ dueError o = None
  ∧ (∀ l, performed o l (runObserve o emptyObservedState))
  ∧ ∃ c, cluster st = Some c
      ∧ (JobManagerPorts_UI (jmPorts c) = None
         ∧ ¬ probed (runObserve o emptyObservedState)
         ∨ ∃ service ui,
             jmService st = Some service
             ∧ JobManagerPorts_UI (jmPorts c) = Some ui
             ∧ probes t = [jobsURL service ui]
             ∧ rejected (http o (jobsURL service ui)) = true).
Proof.
  intros E. destruct (observe_fresh o _ eq_refl) as (_ & H & _). rewrite E in H.
  destruct H as (-> & Herr & Hdue & c & Hc & Hway).
  split; [done|]. split; [done|]. split.
  - intros l. apply performed_due. rewrite Hdue. destruct l; cbn; lia.
  - exists c. split; [done|]. destruct Hway as [[Hui Hprobes]|Hway]; [left|by right].
    split; [done|]. rewrite E. intros [url Hurl%probes_spec]. cbn [traceOf] in Hurl.
    rewrite Hprobes in Hurl. by apply elem_of_nil in Hurl.
Qed.

Lemma observer_panics_on_nil_ui_port_or_rejected_url_witness :
  ∃ st t,
    runObserve (SampleWorld.strictObserver Sample.negativePort [SampleWorld.pod "Running"])
      emptyObservedState = Panics NilDereference st t
    ∧ ∃ c, cluster st = Some c
        ∧ (JobManagerPorts_UI (jmPorts c) = None
           ∧ ¬ probed (runObserve (SampleWorld.strictObserver Sample.negativePort
                                     [SampleWorld.pod "Running"]) emptyObservedState)
           ∨ ∃ service ui,
               jmService st = Some service
               ∧ JobManagerPorts_UI (jmPorts c) = Some ui
               ∧ probes t = [jobsURL service ui]
               ∧ rejected (http (SampleWorld.strictObserver Sample.negativePort
                                   [SampleWorld.pod "Running"]) (jobsURL service ui))
                 = true).
Proof.
  eassert (runObserve (SampleWorld.strictObserver Sample.negativePort
                         [SampleWorld.pod "Running"])
             emptyObservedState = Panics NilDereference _ _) as E
    by (vm_compute; reflexivity).
  destruct (observer_panics_on_nil_ui_port_or_rejected_url _ _ _ _ E) as (_ & _ & _ & Hc).
  eexists _, _. split; [exact E|exact Hc].
Defined.



(** X17. In a pass on a fresh observed state an error is logged only when a
    lookup fails otherwise than by not-found, or when the request of the
    prober is made and fails, in [client.Do] or in reading the body; and
    every such failure, of a lookup or of the request, is logged. An answer
    of not-found, the error about several pods, a URL that
    [http.NewRequest] rejects and a response that lists no job are not
    logged as errors. *)
Theorem errors_are_logged_for_failures_only (o : _ClusterStateObserver) :
  (∀ msg, LogError msg ∈ traceOf (runObserve o emptyObservedState) →
     is_Some (failure o)
     ∨ msg = "Failed to get Flink job ID."
       ∧ ∃ url, HttpGet url ∈ traceOf (runObserve o emptyObservedState)
                ∧ transportFailed (http o url) = true)
  ∧ (is_Some (failure o) → ∃ msg, LogError msg ∈ traceOf (runObserve o emptyObservedState))
  ∧ (∀ url, HttpGet url ∈ traceOf (runObserve o emptyObservedState) →
       transportFailed (http o url) = true →
       LogError "Failed to get Flink job ID." ∈ traceOf (runObserve o emptyObservedState)).
Proof.
  destruct (observe_fresh o _ eq_refl) as (_ & _ & _ & _ & _ & (Hlog & Hfail & Hprobe) & _).
  split; [|split].
  - intros msg Hmsg%loggedErrors_spec.
    destruct (Hlog msg Hmsg) as [?|(-> & url & Hurl%probes_spec & ?)]; [by left|].
    right. split; [done|]. by exists url.
  - intros Hf. specialize (Hfail Hf).
    destruct (loggedErrors _) as [|msg l] eqn:E; [done|].
    exists msg. apply loggedErrors_spec. rewrite E. apply list_elem_of_here.
  - intros url Hurl%probes_spec Hfailed. apply loggedErrors_spec. by apply Hprobe with url.
Qed.

(** X18. The job identifier that a pass on a fresh observed state leaves is
    either the one recorded in the status of the observed cluster, which is
    not empty, or the one the prober got from the manager. *)
Theorem job_identifier_is_recorded_or_probed (o : _ClusterStateObserver) (id : string) :
  flinkJobID (observedOf (runObserve o emptyObservedState)) = Some id →
  (∃ c, cluster (observedOf (runObserve o emptyObservedState)) = Some c
        ∧ recordedJobID c = id ∧ id ≠ "")
  ∨ ∃ url, HttpGet url ∈ traceOf (runObserve o emptyObservedState)
           ∧ firstJobID (http o url) = Some id.
Proof.
  intros Hid.
  destruct (observe_fresh o _ eq_refl) as (_ & _ & _ & _ & _ & _ & H).
  destruct (H id Hid) as [?|(url & Hurl%probes_spec & ?)]; [by left|].
  right. by exists url.
Qed.

Lemma job_identifier_is_recorded_or_probed_witness :
  flinkJobID (observedOf (runObserve (SampleWorld.observer SampleWorld.identified
                                        [SampleWorld.pod "Running"])
                            emptyObservedState)) = Some "2f3a5c"
  ∧ ((∃ c, cluster (observedOf (runObserve (SampleWorld.observer SampleWorld.identified
                                              [SampleWorld.pod "Running"])
                                  emptyObservedState)) = Some c
           ∧ recordedJobID c = "2f3a5c" ∧ "2f3a5c" ≠ "")
     ∨ ∃ url, HttpGet url
              ∈ traceOf (runObserve (SampleWorld.observer SampleWorld.identified
                                       [SampleWorld.pod "Running"]) emptyObservedState)
              ∧ firstJobID (http (SampleWorld.observer SampleWorld.identified
                                    [SampleWorld.pod "Running"]) url) = Some "2f3a5c").
Proof.
  split; [reflexivity|].
  apply (job_identifier_is_recorded_or_probed
           (SampleWorld.observer SampleWorld.identified [SampleWorld.pod "Running"])
           "2f3a5c" eq_refl).
Defined.

Lemma lookupsDue_session (o : _ClusterStateObserver) :
  clusterHasJobSpec o = false → lookupsDue o ≤ 4.
Proof.
  intros H. unfold lookupsDue. rewrite H. cbn [negb].
  repeat match goal with
         | |- context [failed o ?l] => destruct (failed o l)
         end; lia.
Qed.

(** X19. When the gateway holds no cluster, or a cluster without a JobSpec,
    a pass on a fresh observed state makes none but the first four lookups
    and does not invoke the prober; it leaves no job, no pod and no job
    identifier, even when the status of the cluster records one; and it
    returns the error of the first of the four lookups that fails, or nil. *)
Theorem session_cluster_is_not_asked_for_a_job (o : _ClusterStateObserver) :
  clusterHasJobSpec o = false →
  (∀ l, performed o l (runObserve o emptyObservedState) → rank l < 4)
  ∧ ¬ probed (runObserve o emptyObservedState)
  ∧ job (observedOf (runObserve o emptyObservedState)) = None
  ∧ jobPod (observedOf (runObserve o emptyObservedState)) = None
  ∧ flinkJobID (observedOf (runObserve o emptyObservedState)) = None
  ∧ returns (runObserve o emptyObservedState) (failure o).
Proof.
  intros Hsession. pose proof (lookupsDue_session o Hsession) as Hdue.
  destruct (observe_fresh o _ eq_refl)
    as (_ & Hret & (_ & _ & _ & _ & Hjob & Hpod) & Hid & _).
  destruct (Hid Hsession) as [Hid' Hprobes].
  split; [|split; [|split; [|split; [|split]]]].
  - intros l Hl%performed_due. lia.
  - intros [url Hurl%probes_spec]. rewrite Hprobes in Hurl. by apply elem_of_nil in Hurl.
  - rewrite Hjob. unfold dueJob. case_bool_decide; [lia|done].
  - rewrite Hpod. unfold dueJobPod. case_bool_decide; [lia|done].
  - done.
  - assert (dueError o = failure o) as Herr.
    { unfold dueError. rewrite Hsession. by destruct (failure o). }
    destruct (runObserve o emptyObservedState) as [r st t|p st t]; cbn [returns].
    + by rewrite Hret.
    + destruct Hret as (_ & _ & Hsix & _). lia.
Qed.

Lemma session_cluster_is_not_asked_for_a_job_witness :
  clusterHasJobSpec (SampleWorld.observer Sample.stoppedBare []) = false
  ∧ ¬ performed (SampleWorld.observer Sample.stoppedBare []) LJob
        (runObserve (SampleWorld.observer Sample.stoppedBare []) emptyObservedState)
  ∧ job (observedOf (runObserve (SampleWorld.observer Sample.stoppedBare [])
                       emptyObservedState)) = None.
Proof.
  split; [reflexivity|].
  destruct (session_cluster_is_not_asked_for_a_job
              (SampleWorld.observer Sample.stoppedBare []) eq_refl)
    as (Hl & _ & Hjob & _).
  split; [|exact Hjob]. intros H. apply Hl in H. simpl in H. lia.
Defined.

(** ** Observing a desired state *)

Lemma sameKey_refl (k : NamespacedName) : sameKey k k = true.
Proof. by apply bool_decide_eq_true_2. Qed.

Lemma getFrom_here {A : Type} (meta : A → ObjectMeta) (x : A) (objects : list A)
    (key : NamespacedName) :
  keyOf (meta x) = key → getFrom meta (x :: objects) key = inl x.
Proof. intros <-. unfold getFrom. cbn [List.find]. by rewrite sameKey_refl. Qed.

Lemma gatewayOf_resources (o : MapRanges) (c : FlinkCluster) (ds : _DesiredClusterState)
    (pods : list Pod) :
  getDesiredClusterState o (Some c) = Ok ds →
  let key name :=
    {| NamespacedName_Namespace := ObjectMeta_Namespace (FlinkCluster_ObjectMeta c);
       NamespacedName_Name := name |} in
  Get_Deployment (gatewayOf c ds pods)
    (key (getJobManagerDeploymentName (ObjectMeta_Name (FlinkCluster_ObjectMeta c))))
  = from_option inl SampleWorld.notFound (DesiredClusterState_JmDeployment ds)
  ∧ Get_Service (gatewayOf c ds pods)
      (key (getJobManagerServiceName (ObjectMeta_Name (FlinkCluster_ObjectMeta c))))
    = from_option inl SampleWorld.notFound (DesiredClusterState_JmService ds)
  ∧ Get_Deployment (gatewayOf c ds pods)
      (key (getTaskManagerDeploymentName (ObjectMeta_Name (FlinkCluster_ObjectMeta c))))
    = from_option inl SampleWorld.notFound (DesiredClusterState_TmDeployment ds)
  ∧ Get_Job (gatewayOf c ds pods)
      (key (getJobName (ObjectMeta_Name (FlinkCluster_ObjectMeta c))))
    = from_option inl SampleWorld.notFound (DesiredClusterState_Job ds).
Proof.
  intros Hds key.
  destruct (getDesiredClusterState_parts o c ds Hds) as (Hjm & Hsvc & Htm & Hjob).
  pose proof (getDesiredClusterState_components o c ds Hds) as Hall.
  cbn [gatewayOf Get_Deployment Get_Service Get_Job].
  assert (getFrom batchv1.Job_ObjectMeta (omap id [DesiredClusterState_Job ds])
            (key (getJobName (ObjectMeta_Name (FlinkCluster_ObjectMeta c))))
          = from_option inl SampleWorld.notFound (DesiredClusterState_Job ds)) as Ejob.
  { destruct (DesiredClusterState_Job ds) as [j|]; [|done].
    apply getDesiredJob_inv in Hjob as (? & ? & ? & ? & _ & _ & _ & Hmeta & _).
    cbn [omap list_omap id from_option]. apply getFrom_here. by rewrite Hmeta. }
  destruct (decide (stoppingOrStopped c)).
  - destruct Hall as (-> & -> & ->). done.
  - destruct Hall as ([jm E1] & [svc E2] & [tm E3]). rewrite E1, E2, E3.
    rewrite E1 in Hjm. rewrite E2 in Hsvc. rewrite E3 in Htm.
    apply getDesiredJobManagerDeployment_inv in Hjm
      as (_ & ? & ? & ? & ? & ? & _ & _ & _ & _ & Hm1 & _).
    apply getDesiredJobManagerService_inv in Hsvc
      as (_ & _ & ? & ? & ? & ? & ? & _ & _ & _ & _ & Hm2 & _).
    apply getDesiredTaskManagerDeployment_inv in Htm
      as (_ & ? & ? & ? & ? & _ & _ & _ & Hm3 & _).
    cbn [omap list_omap id from_option].
    split; [|split; [|split; [|done]]].
    + apply getFrom_here. by rewrite Hm1.
    + apply getFrom_here. by rewrite Hm2.
    + assert (sameKey (keyOf (Deployment_ObjectMeta jm))
                (key (getTaskManagerDeploymentName
                        (ObjectMeta_Name (FlinkCluster_ObjectMeta c)))) = false) as Hne.
      { rewrite Hm1. apply bool_decide_eq_false_2. cbn. intros [_ H].
        symmetry in H. by apply deployment_names_differ in H. }
      unfold getFrom at 1. cbn [List.find]. rewrite Hne.
      apply (getFrom_here Deployment_ObjectMeta tm []). by rewrite Hm3.
Qed.

Lemma observerOf_due (o : MapRanges) (c : FlinkCluster) (ds : _DesiredClusterState)
    (pods : list Pod) (flink : string → httpOutcome) :
  getDesiredClusterState o (Some c) = Ok ds →
  dueCluster (observerOf c ds pods flink) = Some c
  ∧ dueJmDeployment (observerOf c ds pods flink) = DesiredClusterState_JmDeployment ds
  ∧ dueJmService (observerOf c ds pods flink) = DesiredClusterState_JmService ds
  ∧ dueTmDeployment (observerOf c ds pods flink) = DesiredClusterState_TmDeployment ds
  ∧ dueJob (observerOf c ds pods flink) = DesiredClusterState_Job ds
  ∧ failure (observerOf c ds pods flink) = None
  ∧ clusterHasJobSpec (observerOf c ds pods flink)
    = isSet (FlinkClusterSpec_JobSpec (FlinkCluster_Spec c))
  ∧ listedJobPods (observerOf c ds pods flink) = Some pods.
Proof.
  intros Hds.
  destruct (gatewayOf_resources o c ds pods Hds) as (Hjm & Hsvc & Htm & Hjob).
  pose proof (getFrom_here FlinkCluster_ObjectMeta c [] _ eq_refl) as Hc.
  destruct (getDesiredClusterState_parts o c ds Hds) as (_ & _ & _ & Hjs).
  apply getDesiredJob_is_Some in Hjs.
  unfold failure, listedJobPods, dueCluster, dueJmDeployment, dueJmService,
    dueTmDeployment, dueJob, lookupsDue, failed, clusterHasJobSpec.
  cbn [answer]. unfold requestKey, clusterName.
  cbn [observerOf k8sClient request Request_NamespacedName keyOf
       NamespacedName_Namespace NamespacedName_Name] in *.
  change (Get_FlinkCluster (gatewayOf c ds pods))
    with (getFrom FlinkCluster_ObjectMeta [c]).
  rewrite Hc, Hjm, Hsvc, Htm, Hjob.
  cbn [gatewayOf List_Pod PodList_Items].
  destruct (DesiredClusterState_JmDeployment ds), (DesiredClusterState_JmService ds),
    (DesiredClusterState_TmDeployment ds); cbn.
  all: destruct (FlinkClusterSpec_JobSpec (FlinkCluster_Spec c)) as [js|],
         (DesiredClusterState_Job ds) as [j|]; cbn; try done.
  all: exfalso; destruct Hjs as [H1 H2];
    first [by destruct H1 as [? [=]]; eexists | by destruct H2 as [? [=]]; eexists].
Qed.

(** X20. When the gateway holds a cluster and the resources of the desired
    state that the Converter computes for it, each under its namespace and
    name, a pass of the Observer of that cluster on a fresh observed state
    finds them all: the observed cluster, manager deployment, manager
    service, worker deployment and job are those of the desired state, null
    where the desired state has none. With at most one pod listed for the
    job the pass returns nil, unless [http.NewRequest] rejects the URL made
    of the desired manager service and of the manager UI port of the
    cluster; and a pass that invokes the prober with a URL that is rejected
    panics. *)
Theorem observing_the_desired_state
    (o : MapRanges) (c : FlinkCluster) (ds : _DesiredClusterState)
    (pods : list Pod) (flink : string → httpOutcome) :
  getDesiredClusterState o (Some c) = Ok ds →
  cluster (observedOf (runObserve (observerOf c ds pods flink) emptyObservedState)) = Some c
  ∧ jmDeployment (observedOf (runObserve (observerOf c ds pods flink) emptyObservedState))
    = DesiredClusterState_JmDeployment ds
  ∧ jmService (observedOf (runObserve (observerOf c ds pods flink) emptyObservedState))
    = DesiredClusterState_JmService ds
  ∧ tmDeployment (observedOf (runObserve (observerOf c ds pods flink) emptyObservedState))
    = DesiredClusterState_TmDeployment ds
  ∧ job (observedOf (runObserve (observerOf c ds pods flink) emptyObservedState))
    = DesiredClusterState_Job ds
  ∧ (length pods ≤ 1 →
     (∀ service ui,
        DesiredClusterState_JmService ds = Some service →
        JobManagerPorts_UI (jmPorts c) = Some ui →
        rejected (flink (jobsURL service ui)) = false) →
     returns (runObserve (observerOf c ds pods flink) emptyObservedState) None)
  ∧ (∀ url,
       HttpGet url ∈ traceOf (runObserve (observerOf c ds pods flink) emptyObservedState) →
       (∃ service ui,
          DesiredClusterState_JmService ds = Some service
          ∧ JobManagerPorts_UI (jmPorts c) = Some ui
          ∧ url = jobsURL service ui)
       ∧ (rejected (flink url) = true →
          panics (runObserve (observerOf c ds pods flink) emptyObservedState)
            NilDereference)).
Proof.
  intros Hds.
  destruct (observe_fresh (observerOf c ds pods flink) _ eq_refl)
    as (_ & Hret & (Hc & Hjm & Hsvc & Htm & Hjob & _) & _ & Hprobe & _).
  destruct (observerOf_due o c ds pods flink Hds)
    as (Ec & Ejm & Esvc & Etm & Ejob & Efail & Ehas & Epods).
  rewrite Ec in Hc. rewrite Ejm in Hjm. rewrite Esvc in Hsvc. rewrite Etm in Htm.
  rewrite Ejob in Hjob.
  split; [done|]. split; [done|]. split; [done|]. split; [done|]. split; [done|].
  split.
  - intros Hpods Haccepted.
    assert (dueError (observerOf c ds pods flink) = None) as Herr.
    { unfold dueError. rewrite Efail, Epods.
      destruct (clusterHasJobSpec _); [|done].
      by destruct pods as [|? [|? ?]]; [| |simpl in Hpods; lia]. }
    destruct (runObserve _ _) as [r st t|p st t]; cbn [returns]; [congruence|].
    cbn [observedOf] in Hc, Hsvc.
    destruct Hret as (_ & _ & Hsix & c' & Hc' & Hway).
    rewrite Hc in Hc'. injection Hc' as <-.
    destruct Hway as [[Hui _]|(service & ui & Hservice & Hui & _ & Hrejected)].
    + assert (clusterHasJobSpec (observerOf c ds pods flink) = true) as Hhas.
      { destruct (clusterHasJobSpec _) eqn:E; [done|].
        pose proof (lookupsDue_session _ E). lia. }
      rewrite Ehas in Hhas.
      destruct (getDesiredClusterState_parts o c ds Hds) as (_ & _ & _ & Hjob').
      pose proof (getDesiredJob_is_Some c _ Hjob') as [_ Hjs].
      destruct (FlinkClusterSpec_JobSpec (FlinkCluster_Spec c)) as [js|]; [|done].
      destruct Hjs as [j Ej]; [by eexists|]. rewrite Ej in Hjob'.
      apply getDesiredJob_inv in Hjob' as (? & ? & ? & ? & _ & Hui' & _). congruence.
    + rewrite Hsvc in Hservice. cbn [observerOf http] in Hrejected.
      rewrite (Haccepted service ui Hservice Hui) in Hrejected. discriminate Hrejected.
  - intros url Hurl%probes_spec.
    destruct (Hprobe url Hurl)
      as (service & c' & ui & Hservice & Hc' & Hui & -> & _ & _ & Hpanics & _).
    rewrite Hsvc in Hservice. rewrite Hc in Hc'. injection Hc' as <-.
    split; [by exists service, ui|]. exact Hpanics.
Qed.

Lemma observing_the_desired_state_witness :
  ∃ ds,
    getDesiredClusterState Sample.forward (Some Sample.running) = Ok ds
    ∧ jmService (observedOf (runObserve (observerOf Sample.running ds [] (λ _, SampleWorld.jobs))
                               emptyObservedState))
      = DesiredClusterState_JmService ds
    ∧ job (observedOf (runObserve (observerOf Sample.running ds [] (λ _, SampleWorld.jobs))
                         emptyObservedState))
      = DesiredClusterState_Job ds
    ∧ returns (runObserve (observerOf Sample.running ds [] (λ _, SampleWorld.jobs))
                 emptyObservedState) None.
Proof.
  eexists. split; [reflexivity|].
  destruct (observing_the_desired_state Sample.forward Sample.running _ []
              (λ _, SampleWorld.jobs) eq_refl) as (_ & _ & Hsvc & _ & Hjob & Hret & _).
  split; [exact Hsvc|]. split; [exact Hjob|]. apply Hret; [simpl; lia|].
  intros service ui _ _. reflexivity.
Defined.

(** ** A pass on any observed state *)

Ltac unfold_job :=
  cbv beta iota zeta delta
    [observeJob getFlinkJobID observeJobResource observeJobPods call return_ emit
     getObserved modifyObserved derefM indexM when mbind mret M_bind M_ret].

Ltac unfold_lookups :=
  cbv beta iota zeta delta
    [runObserve observe observeCluster observeDeployment
     observeJobManagerDeployment observeTaskManagerDeployment observeJobManagerService
     call return_ emit getObserved modifyObserved
     derefM indexM when mbind mret M_bind M_ret].

Ltac step_unless_done :=
  lazymatch goal with
  | |- _ (Continue _ _) => fail
  | |- _ (Return _ _) => fail
  | |- _ (Panicked _ _) => fail
  | |- _ => step
  end.

(** [observeJob] leaves the cluster, the manager deployment, the manager
    service and the worker deployment of the observed state as they are,
    and resets none of the other fields. *)
Lemma observeJob_frame (o : _ClusterStateObserver) (s : obsState) :
  cluster (observed (stateOf (observeJob o s))) = cluster (observed s)
  ∧ jmDeployment (observed (stateOf (observeJob o s))) = jmDeployment (observed s)
  ∧ jmService (observed (stateOf (observeJob o s))) = jmService (observed s)
  ∧ tmDeployment (observed (stateOf (observeJob o s))) = tmDeployment (observed s)
  ∧ (is_Some (job (observed s)) → is_Some (job (observed (stateOf (observeJob o s)))))
  ∧ (is_Some (jobPod (observed s)) → is_Some (jobPod (observed (stateOf (observeJob o s)))))
  ∧ (is_Some (flinkJobID (observed s))
     → is_Some (flinkJobID (observed (stateOf (observeJob o s))))).
Proof.
  destruct s as [[c jd js td j jp id] t].
  pattern (observeJob o {| observed := {| cluster := c; jmDeployment := jd; jmService := js;
                                          tmDeployment := td; job := j; jobPod := jp;
                                          flinkJobID := id |}; trace := t |}).
  match goal with |- ?P _ => set (Q := P) end.
  unfold_job. reduce. repeat step_unless_done.
  all: subst Q; cbv beta;
    cbn [stateOf observed cluster jmDeployment jmService tmDeployment job jobPod flinkJobID].
  all: repeat split; first [done | by eexists].
Qed.

Ltac frame_step :=
  lazymatch goal with
  | E : observeJob ?o ?s = _ |- _ =>
      let Hframe := fresh "Hframe" in
      pose proof (observeJob_frame o s) as Hframe;
      rewrite E in Hframe; clear E;
      cbn [stateOf observed cluster jmDeployment jmService tmDeployment job jobPod flinkJobID]
        in Hframe
  end.

(** X21. On any observed state, fresh or not, a pass assigns a field only
    when it finds the object: the cluster, the manager deployment, the
    manager service and the worker deployment hold what the gateway holds
    when their lookup is made and finds it, and keep the value they had
    before the pass otherwise, so that an answer of not-found does not reset
    them; and the job, the pod and the job identifier are not reset to nil
    either. *)
Theorem a_pass_overwrites_only_what_it_finds
    (o : _ClusterStateObserver) (st : _ObservedClusterState) :
  cluster (observedOf (runObserve o st))
  = overwrite (held (Get_FlinkCluster (k8sClient o) (Request_NamespacedName (request o))))
      (cluster st)
  ∧ jmDeployment (observedOf (runObserve o st))
    = (if failed o LCluster then jmDeployment st
       else overwrite
              (held (Get_Deployment (k8sClient o)
                       (requestKey o (getJobManagerDeploymentName (clusterName o)))))
              (jmDeployment st))
  ∧ jmService (observedOf (runObserve o st))
    = (if failed o LCluster || failed o LJmDeployment then jmService st
       else overwrite
              (held (Get_Service (k8sClient o)
                       (requestKey o (getJobManagerServiceName (clusterName o)))))
              (jmService st))
  ∧ tmDeployment (observedOf (runObserve o st))
    = (if failed o LCluster || failed o LJmDeployment || failed o LJmService
       then tmDeployment st
       else overwrite
              (held (Get_Deployment (k8sClient o)
                       (requestKey o (getTaskManagerDeploymentName (clusterName o)))))
              (tmDeployment st))
  ∧ (is_Some (job st) → is_Some (job (observedOf (runObserve o st))))
  ∧ (is_Some (jobPod st) → is_Some (jobPod (observedOf (runObserve o st))))
  ∧ (is_Some (flinkJobID st) → is_Some (flinkJobID (observedOf (runObserve o st)))).
Proof.
  destruct st as [c jd js td j jp id].
  pattern (runObserve o {| cluster := c; jmDeployment := jd; jmService := js;
                           tmDeployment := td; job := j; jobPod := jp; flinkJobID := id |}).
  match goal with |- ?P _ => set (Q := P) end.
  unfold_lookups. reduce. repeat step.
  all: try frame_step.
  all: subst Q; cbv beta;
    cbn [observedOf observed cluster jmDeployment jmService tmDeployment job jobPod flinkJobID].
  all: unfold failed; cbn [answer]; unfold requestKey, clusterName; known_all;
    cbn [errorOf held isSet negb orb overwrite client.IgnoreNotFound IgnoreNotFound].
  all: first [exact Hframe | by repeat split].
Qed.
